(** * Job orchestration core of the AI video generator front end

    A shallow embedding of the orchestration logic of
    [frontend/app/page.tsx] (the [Home] component): the remaining-time
    formatter, the status description rendering, the job status pollers,
    the voice upload / clone coordinator and the training controller.

    The repository holds two revisions of the component; the embedding
    follows the current one (clone dialog after a recording, fallback id
    and url for an uploaded voice, remaining-time line in the progress
    panel).  The poll loops and [formatTime] are the same in both.

    Conventions.
    - JavaScript numbers that the component handles (seconds, percentages,
      attempt counters, timestamps) are integers here: [Z].
    - An optional / nullable field ([x?: T], [T | null], [undefined]) is an
      [option].
    - React state is the record [Home]; a handler is a computation in the
      monad [M], which threads the state, records the observable effects
      (HTTP requests, timers, console output, dialogs) in a trace, and can
      throw.
    - The result of every awaited request is supplied by the environment
      as a [NetResult]; a loop that awaits more answers than the
      environment scripted is [Pending]. *)

From Stdlib Require Import ZArith List String Ascii Bool Lia Sorted.
From Stdlib Require Import DecimalString.
From Stdlib Require Import Permutation.
Import ListNotations.

Open Scope string_scope.
Open Scope list_scope.
Open Scope Z_scope.

(* ===================================================================== *)
(** * JavaScript primitives used by the component                         *)
(* ===================================================================== *)

Module Js.

(** [Number.prototype.toString] on an integer value. *)
Definition toString (z : Z) : string :=
  NilZero.string_of_int (Z.to_int z).

(** [String.prototype.padStart(n, c)] with a one-character filler. *)
Fixpoint fill (n : nat) (c : ascii) : string :=
  match n with
  | O => ""
  | S k => String c (fill k c)
  end.

Definition padStart (n : nat) (c : ascii) (s : string) : string :=
  (fill (n - String.length s) c ++ s)%string.

(** Truthiness of a string: only the empty string is falsy. *)
Definition truthy (s : string) : bool :=
  negb (String.eqb s "").

(** [a || b] on an optional string with a string default. *)
Definition or_else (o : option string) (d : string) : string :=
  match o with
  | Some s => if truthy s then s else d
  | None => d
  end.

(** [Math.floor(x / 60)] and [Math.ceil(x / 60)] for an integer [x], and
    the remainder operator [x % 60], whose sign follows the dividend. *)
Definition floor_div (x d : Z) : Z := x / d.
Definition ceil_div (x d : Z) : Z := - ((- x) / d).
Definition rem (x d : Z) : Z := Z.rem x d.

(** [s === t] on strings. *)
Definition seq (s t : string) : bool := String.eqb s t.

End Js.

(* ===================================================================== *)
(** * Progress model: remaining time and phase description               *)
(* ===================================================================== *)

(** [formatTime]:
<<
  const formatTime = (seconds: number | undefined): string => {
    if (!seconds) return '00:00';
    const minutes = Math.floor(seconds / 60);
    const remainingSeconds = Math.floor(seconds % 60);
    return `${minutes.toString().padStart(2, '0')}:${remainingSeconds.toString().padStart(2, '0')}`;
  };
>> *)
Definition formatTime (seconds : option Z) : string :=
  match seconds with
  | None => "00:00"
  | Some s =>
      if s =? 0 then "00:00"
      else
        let minutes := Js.floor_div s 60 in
        let remainingSeconds := Js.rem s 60 in
        (Js.padStart 2 "0" (Js.toString minutes) ++ ":" ++
         Js.padStart 2 "0" (Js.toString remainingSeconds))%string
  end.

(** The text interpolated after "Estimated time remaining: " in the
    progress panel; [None] when the guard
    [eta !== null && eta !== undefined && eta > 0] hides the whole line. *)
Definition estimatedTimeText (eta : option Z) : option string :=
  match eta with
  | None => None
  | Some t =>
      if 0 <? t then
        Some (if 60 <? t
              then (Js.toString (Js.ceil_div t 60) ++ " minutes")%string
              else (Js.toString t ++ " seconds")%string)
      else None
  end.

(** The "status description" block: six independent conditionals
    [{jobStatus.status === L && <p>...</p>}]; each contributes its
    paragraph or nothing. *)
Definition when_status (status label phrase : string) : list string :=
  if Js.seq status label then [phrase] else [].

Definition statusDescription (status : string) : list string :=
  when_status status "generating_script"
    "Creating an engaging script based on your input..." ++
  when_status status "generating_video"
    "Crafting your video with AI-powered visuals..." ++
  when_status status "adding_voiceover"
    "Adding professional narration to your video..." ++
  when_status status "enhancing_video"
    "Polishing and enhancing your video for best quality..." ++
  when_status status "processing_audio"
    "Fine-tuning audio for perfect synchronization..." ++
  when_status status "finalizing"
    "Putting the finishing touches on your masterpiece...".

Definition knownPhases : list string :=
  ["generating_script"; "generating_video"; "adding_voiceover";
   "enhancing_video"; "processing_audio"; "finalizing"].

(* ===================================================================== *)
(** * Data model                                                          *)
(* ===================================================================== *)

(** [JobStatus.result]. *)
Record JobResult := mkJobResult {
  script : string;
  effects : list string;
  video_path : string;
  used_custom_model : option bool;
  used_custom_voice : option bool
}.

(** [interface JobStatus]: the payload of [GET /api/status/<job_id>]. *)
Record JobStatus := mkJobStatus {
  status : string;
  progress : Z;
  result : option JobResult;
  job_error : option string;
  estimated_time_remaining : option Z
}.

(** [interface VoiceFile]. *)
Record VoiceFile := mkVoiceFile {
  id : string;
  name : string;
  url : string
}.

(** [interface VoiceUploadResponse] (the fields the handlers read). *)
Record VoiceUploadResponse := mkVoiceUploadResponse {
  vu_success : bool;
  vu_filename : string;
  vu_filepath : string;
  vu_voice_id : option string;
  vu_url : option string
}.

(** [interface CloneVoiceResponse]. *)
Record CloneVoiceResponse := mkCloneVoiceResponse {
  cv_success : bool;
  cv_error : option string;
  cv_voice_id : string;
  cv_voice_name : string
}.

(** [interface Voice] and [interface VoicesResponse]. *)
Record Voice := mkVoice {
  voice_id : string;
  voice_name : string;
  category : string;
  gender : string
}.

Record VoicesResponse := mkVoicesResponse {
  vs_success : bool;
  vs_voices : option (list Voice)
}.

(** [interface TrainingImage]; the [File] itself is opaque to the
    controller, only its name is kept. *)
Inductive MediaType := image | video.

Record TrainingImage := mkTrainingImage {
  ti_id : string;
  ti_file : string;
  ti_type : MediaType
}.

(** [interface TrainingModelResponse] and [interface
    TrainingStatusResponse] (the fields the controller reads). *)
Record TrainingModelResponse := mkTrainingModelResponse {
  tm_success : bool;
  tm_model_id : string;
  tm_error : option string
}.

Record TrainingStatusResponse := mkTrainingStatusResponse {
  ts_success : bool;
  ts_model_status : string;
  ts_error : option string
}.

(** Response of [POST /api/generate-ad]. *)
Record AdResponse := mkAdResponse {
  ad_success : bool;
  ad_job_id : string
}.

(** The slice of the [Home] component's React state that the
    orchestration handlers read or write. *)
Record Home := mkHome {
  loading : bool;
  error : option string;
  jobId : option string;
  jobStatus : option JobStatus;
  uploadedVoices : list VoiceFile;
  selectedVoice : option string;
  availableVoices : list Voice;
  advancedVideoVoiceId : option string;
  trainingImages : list TrainingImage;
  trainingInProgress : bool;
  trainingProgress : Z;
  modelId : option string;
  adText : string
}.

(** [useState] initial values. *)
Definition initialHome : Home :=
  {| loading := false; error := None; jobId := None; jobStatus := None;
     uploadedVoices := []; selectedVoice := None; availableVoices := [];
     advancedVideoVoiceId := None; trainingImages := [];
     trainingInProgress := false; trainingProgress := 0; modelId := None;
     adText := "" |}.

(* ===================================================================== *)
(** * Effects                                                             *)
(* ===================================================================== *)

(** What a handler does to the outside world, in order. *)
Inductive event :=
| HttpGet (url : string)
| HttpPost (url : string)
| Wait (ms : Z)
| ConsoleError (msg : string)
| ConsoleLog (msg : string)
| Alert (msg : string)
| Confirm (msg : string)
| Prompt (msg : string).

(** A thrown value: an [Error] instance with its message, or anything
    else. *)
Inductive Thrown :=
| ErrorObj (message : string)
| NonError.

(** The answer of the environment to one request. *)
Inductive NetResult (A : Type) :=
| Resolved (data : A)
| Rejected (e : Thrown).
Arguments Resolved {A} data.
Arguments Rejected {A} e.

Inductive Outcome (A : Type) :=
| Ret (a : A)
| Throw (e : Thrown)
| Pending.
Arguments Ret {A} a.
Arguments Throw {A} e.
Arguments Pending {A}.

Definition M (A : Type) : Type := Home -> Outcome A * Home * list event.

Definition ret {A} (a : A) : M A := fun h => (Ret a, h, []).

(** The effects [t] happened before the run [r]. *)
Definition prepend {A} (t : list event) (r : Outcome A * Home * list event)
  : Outcome A * Home * list event :=
  match r with
  | (o, h, t') => (o, h, t ++ t')
  end.

Definition bind {A B} (m : M A) (f : A -> M B) : M B :=
  fun h =>
    match m h with
    | (Ret a, h1, t1) => prepend t1 (f a h1)
    | (Throw e, h1, t1) => (Throw e, h1, t1)
    | (Pending, h1, t1) => (Pending, h1, t1)
    end.

Declare Scope js_scope.
Delimit Scope js_scope with js.
Notation "x <- m ;; k" := (bind m (fun x => k))
  (at level 61, m at next level, right associativity) : js_scope.
Notation "m ;; k" := (bind m (fun _ => k))
  (at level 61, right associativity) : js_scope.
Open Scope js_scope.

Definition throw {A} (e : Thrown) : M A := fun h => (Throw e, h, []).

(** An [await] that the scripted environment never answers. *)
Definition pending {A} : M A := fun h => (Pending, h, []).

(** [try { body } catch (e) { handler }]. *)
Definition try_catch {A} (body : M A) (handler : Thrown -> M A) : M A :=
  fun h =>
    match body h with
    | (Throw e, h1, t1) => prepend t1 (handler e h1)
    | r => r
    end.

(** [try { body } finally { fin }]: [fin] runs after a normal or an
    exceptional end of [body], whose outcome it keeps. *)
Definition try_finally {A} (body : M A) (fin : M unit) : M A :=
  fun h =>
    match body h with
    | (Pending, h1, t1) => (Pending, h1, t1)
    | (o, h1, t1) =>
        match fin h1 with
        | (Ret _, h2, t2) => (o, h2, t1 ++ t2)
        | (Throw e, h2, t2) => (Throw e, h2, t1 ++ t2)
        | (Pending, h2, t2) => (Pending, h2, t1 ++ t2)
        end
    end.

Definition emit (e : event) : M unit := fun h => (Ret tt, h, [e]).

Definition when (b : bool) (m : M unit) : M unit := if b then m else ret tt.

(** [await axios.get(url)] / [await axios.post(url, ...)]: the request
    is observable, its answer comes from the environment. *)
Definition settle {A} (r : NetResult A) : M A :=
  match r with
  | Resolved d => ret d
  | Rejected e => throw e
  end.

Definition axios_get {A} (url : string) (r : NetResult A) : M A :=
  emit (HttpGet url) ;; settle r.

Definition axios_post {A} (url : string) (r : NetResult A) : M A :=
  emit (HttpPost url) ;; settle r.

Definition console_error (msg : string) : M unit := emit (ConsoleError msg).
Definition console_log (msg : string) : M unit := emit (ConsoleLog msg).
Definition alert (msg : string) : M unit := emit (Alert msg).

(** [confirm(msg)] and [prompt(msg, ...)]: the user's answer is an
    input. *)
Definition confirm (msg : string) (answer : bool) : M bool :=
  emit (Confirm msg) ;; ret answer.

Definition prompt (msg : string) (answer : option string) : M (option string) :=
  emit (Prompt msg) ;; ret answer.

(** [error instanceof Error ? error.message : fallback]. *)
Definition message_or (e : Thrown) (fallback : string) : string :=
  match e with
  | ErrorObj m => m
  | NonError => fallback
  end.

(** ** State setters ([useState] setters) *)

Definition modify (f : Home -> Home) : M unit := fun h => (Ret tt, f h, []).
Definition get : M Home := fun h => (Ret h, h, []).

Definition with_loading (v : bool) (h : Home) : Home :=
  mkHome v (error h) (jobId h) (jobStatus h) (uploadedVoices h)
    (selectedVoice h) (availableVoices h) (advancedVideoVoiceId h)
    (trainingImages h) (trainingInProgress h) (trainingProgress h)
    (modelId h) (adText h).

Definition with_error (v : option string) (h : Home) : Home :=
  mkHome (loading h) v (jobId h) (jobStatus h) (uploadedVoices h)
    (selectedVoice h) (availableVoices h) (advancedVideoVoiceId h)
    (trainingImages h) (trainingInProgress h) (trainingProgress h)
    (modelId h) (adText h).

Definition with_jobId (v : option string) (h : Home) : Home :=
  mkHome (loading h) (error h) v (jobStatus h) (uploadedVoices h)
    (selectedVoice h) (availableVoices h) (advancedVideoVoiceId h)
    (trainingImages h) (trainingInProgress h) (trainingProgress h)
    (modelId h) (adText h).

Definition with_jobStatus (v : option JobStatus) (h : Home) : Home :=
  mkHome (loading h) (error h) (jobId h) v (uploadedVoices h)
    (selectedVoice h) (availableVoices h) (advancedVideoVoiceId h)
    (trainingImages h) (trainingInProgress h) (trainingProgress h)
    (modelId h) (adText h).

Definition with_uploadedVoices (v : list VoiceFile) (h : Home) : Home :=
  mkHome (loading h) (error h) (jobId h) (jobStatus h) v
    (selectedVoice h) (availableVoices h) (advancedVideoVoiceId h)
    (trainingImages h) (trainingInProgress h) (trainingProgress h)
    (modelId h) (adText h).

Definition with_selectedVoice (v : option string) (h : Home) : Home :=
  mkHome (loading h) (error h) (jobId h) (jobStatus h) (uploadedVoices h)
    v (availableVoices h) (advancedVideoVoiceId h)
    (trainingImages h) (trainingInProgress h) (trainingProgress h)
    (modelId h) (adText h).

Definition with_availableVoices (v : list Voice) (h : Home) : Home :=
  mkHome (loading h) (error h) (jobId h) (jobStatus h) (uploadedVoices h)
    (selectedVoice h) v (advancedVideoVoiceId h)
    (trainingImages h) (trainingInProgress h) (trainingProgress h)
    (modelId h) (adText h).

Definition with_advancedVideoVoiceId (v : option string) (h : Home) : Home :=
  mkHome (loading h) (error h) (jobId h) (jobStatus h) (uploadedVoices h)
    (selectedVoice h) (availableVoices h) v
    (trainingImages h) (trainingInProgress h) (trainingProgress h)
    (modelId h) (adText h).

Definition with_trainingInProgress (v : bool) (h : Home) : Home :=
  mkHome (loading h) (error h) (jobId h) (jobStatus h) (uploadedVoices h)
    (selectedVoice h) (availableVoices h) (advancedVideoVoiceId h)
    (trainingImages h) v (trainingProgress h)
    (modelId h) (adText h).

Definition with_trainingProgress (v : Z) (h : Home) : Home :=
  mkHome (loading h) (error h) (jobId h) (jobStatus h) (uploadedVoices h)
    (selectedVoice h) (availableVoices h) (advancedVideoVoiceId h)
    (trainingImages h) (trainingInProgress h) v
    (modelId h) (adText h).

Definition with_modelId (v : option string) (h : Home) : Home :=
  mkHome (loading h) (error h) (jobId h) (jobStatus h) (uploadedVoices h)
    (selectedVoice h) (availableVoices h) (advancedVideoVoiceId h)
    (trainingImages h) (trainingInProgress h) (trainingProgress h)
    v (adText h).

Definition setLoading (v : bool) : M unit := modify (with_loading v).
Definition setError (v : option string) : M unit := modify (with_error v).
Definition setJobId (v : option string) : M unit := modify (with_jobId v).
Definition setJobStatus (v : option JobStatus) : M unit := modify (with_jobStatus v).
Definition setUploadedVoices (f : list VoiceFile -> list VoiceFile) : M unit :=
  modify (fun h => with_uploadedVoices (f (uploadedVoices h)) h).
Definition setSelectedVoice (v : option string) : M unit := modify (with_selectedVoice v).
Definition setAvailableVoices (v : list Voice) : M unit := modify (with_availableVoices v).
Definition setAdvancedVideoVoiceId (v : option string) : M unit :=
  modify (with_advancedVideoVoiceId v).
Definition setTrainingInProgress (v : bool) : M unit := modify (with_trainingInProgress v).
Definition setTrainingProgress (v : Z) : M unit := modify (with_trainingProgress v).
Definition setModelId (v : option string) : M unit := modify (with_modelId v).

(** Projections of a run. *)
Definition outcome_of {A} (r : Outcome A * Home * list event) : Outcome A := fst (fst r).
Definition home_of {A} (r : Outcome A * Home * list event) : Home := snd (fst r).
Definition trace_of {A} (r : Outcome A * Home * list event) : list event := snd r.

Definition api : string := "http://localhost:8000/api".

(* ===================================================================== *)
(** * Generic job status polling                                          *)
(* ===================================================================== *)

Definition statusUrl (job : string) : string := (api ++ "/status/" ++ job)%string.

(** [s === 'completed' || s === 'failed']. *)
Definition terminalStatus (s : string) : bool :=
  Js.seq s "completed" || Js.seq s "failed".

(** ** The polling effect of the component

<<
  useEffect(() => {
    let interval;
    if (jobId && jobStatus?.status !== 'completed' && jobStatus?.status !== 'failed') {
      interval = setInterval(async () => { ...tick... }, 2000);
    }
    return () => { if (interval) clearInterval(interval); };
  }, [jobId, jobStatus?.status]);
>>

    [jobPollTick] is the interval callback; it returns [true] when it
    called [clearInterval(interval)]. *)
Definition jobPollTick (job : string) (r : NetResult JobStatus) : M bool :=
  try_catch
    (response <- axios_get (statusUrl job) r ;;
     setJobStatus (Some response) ;;
     if terminalStatus (status response) then
       setLoading false ;;
       when (Js.seq (status response) "failed")
         (setError (Some (Js.or_else (job_error response) "Video generation failed"))) ;;
       ret true
     else ret false)
    (fun err =>
       console_error "Error checking job status:" ;;
       setLoading false ;;
       setError (Some "Failed to check video generation status") ;;
       ret true).

(** [jobStatus?.status]. *)
Definition statusOf (h : Home) : option string := option_map status (jobStatus h).

Definition status_differs (o : option string) (label : string) : bool :=
  match o with
  | Some s => negb (Js.seq s label)
  | None => true
  end.

(** The effect body: the interval it creates, if any, remembers the
    [jobId] of the render it was created in. *)
Definition jobPollEffect (h : Home) : option string :=
  match jobId h with
  | Some j =>
      if Js.truthy j && status_differs (statusOf h) "completed"
                     && status_differs (statusOf h) "failed"
      then Some j else None
  | None => None
  end.

Definition opt_string_eqb (a b : option string) : bool :=
  match a, b with
  | Some x, Some y => String.eqb x y
  | None, None => true
  | _, _ => false
  end.

(** The dependency array [[jobId, jobStatus?.status]] is unchanged. *)
Definition sameDeps (h h' : Home) : bool :=
  opt_string_eqb (jobId h) (jobId h') && opt_string_eqb (statusOf h) (statusOf h').

(** One run of the poller against the scripted answers of the status
    endpoint, one answer per interval tick, each query answered before
    the next tick.  [interval] is the live interval (with the job id of
    its closure) or [None].  After a tick React re-runs the effect when a
    dependency changed (cleanup, then the body); otherwise the interval
    stays as the callback left it.  The result lists, tick by tick, the
    component state and the effects of the tick. *)
Fixpoint jobPollRun (answers : list (NetResult JobStatus))
    (interval : option string) (h : Home) : list (Home * list event) :=
  match answers with
  | [] => []
  | r :: rest =>
      match interval with
      | None => []
      | Some job =>
          match jobPollTick job r h with
          | (o, h', t) =>
              let cleared := match o with Ret b => b | _ => true end in
              let interval' :=
                if sameDeps h h'
                then (if cleared then None else interval)
                else jobPollEffect h' in
              (h', t) :: jobPollRun rest interval' h'
          end
      end
  end.

Definition jobPoll (answers : list (NetResult JobStatus)) (h : Home)
  : list (Home * list event) :=
  jobPollRun answers (jobPollEffect h) h.

(** What the progress panel shows as "<n>%": the panel is rendered when
    [loading && jobStatus && status !== 'completed' && status !== 'failed']. *)
Definition displayedProgress (h : Home) : option Z :=
  match jobStatus h with
  | Some js =>
      if loading h && negb (Js.seq (status js) "completed")
                   && negb (Js.seq (status js) "failed")
      then Some (progress js) else None
  | None => None
  end.

(** ** [startCheckingStatus]: self-rescheduling poll

    [checkStatus] is one invocation; it returns [true] when it called
    [setTimeout(checkStatus, 2000)]. *)
Definition is_true (o : option bool) : bool :=
  match o with
  | Some b => b
  | None => false
  end.

Definition checkStatus (job : string) (r : NetResult JobStatus) : M bool :=
  try_catch
    (response <- axios_get (statusUrl job) r ;;
     setJobStatus (Some response) ;;
     if terminalStatus (status response) then
       setLoading false ;;
       match result response with
       | Some res =>
           when (Js.seq (status response) "completed")
             (console_log "Video generated successfully!" ;;
              when (is_true (used_custom_model res))
                (console_log "Using your custom trained model for personalization.") ;;
              when (is_true (used_custom_voice res))
                (console_log "Using your custom voice for narration."))
       | None => ret tt
       end ;;
       ret false
     else ret true)
    (fun err =>
       console_error "Error checking job status:" ;;
       setLoading false ;;
       ret false).

Fixpoint startCheckingStatus (job : string) (answers : list (NetResult JobStatus))
  : M unit :=
  match answers with
  | [] => pending
  | r :: rest =>
      again <- checkStatus job r ;;
      if again then emit (Wait 2000) ;; startCheckingStatus job rest
      else ret tt
  end.

(** ** [handleAdGeneration]: fixed interval with a five-minute timer

    [adCheckStatus] is the local [checkStatus] of the handler. *)
Definition adCheckStatus (job : string) (r : NetResult JobStatus) : M unit :=
  try_catch
    (statusResponse <- axios_get (statusUrl job) r ;;
     setJobStatus (Some statusResponse) ;;
     when (terminalStatus (status statusResponse)) (setLoading false))
    (fun err =>
       console_error "Error checking job status:" ;;
       setLoading false ;;
       setError (Some "Failed to check ad generation status")).

(** The [setInterval(checkStatus, 2000)] ticks, [elapsed] ms after the
    interval was created.  The only [clearInterval] is in the 300000 ms
    timer, created right after the interval, so the ticks at 2000, 4000,
    ..., 298000 ms run, whatever the state. *)
Fixpoint adInterval (job : string) (answers : list (NetResult JobStatus))
    (elapsed : Z) : M unit :=
  if elapsed + 2000 <? 300000 then
    match answers with
    | [] => pending
    | r :: rest =>
        emit (Wait 2000) ;;
        adCheckStatus job r ;;
        adInterval job rest (elapsed + 2000)
    end
  else ret tt.

Definition thrown_message (e : Thrown) : option string :=
  match e with
  | ErrorObj m => Some m
  | NonError => None
  end.

Definition handleAdGeneration (launch : NetResult AdResponse)
    (answers : list (NetResult JobStatus)) : M unit :=
  h0 <- get ;;
  if negb (Js.truthy (adText h0)) then setError (Some "Please enter ad content")
  else
    setLoading true ;;
    setError None ;;
    setJobStatus None ;;
    try_catch
      (response <- axios_post (api ++ "/generate-ad")%string launch ;;
       if ad_success response then
         setJobId (Some (ad_job_id response)) ;;
         match answers with
         | [] => pending
         | r :: rest =>
             adCheckStatus (ad_job_id response) r ;;
             adInterval (ad_job_id response) rest 0 ;;
             (* the 300000 ms timer: its callback reads the [loading] of
                the render that created the handler *)
             emit (Wait 2000) ;;
             when (loading h0)
               (setLoading false ;;
                setError (Some
                  "Ad generation is taking longer than expected. Please check back later."))
         end
       else
         setError (Some "Failed to generate ad") ;;
         setLoading false)
      (fun err =>
         console_error "Error:" ;;
         setError (Some (Js.or_else (thrown_message err) "An error occurred")) ;;
         setLoading false).

(* ===================================================================== *)
(** * Voice capture and clone coordinator                                 *)
(* ===================================================================== *)

Definition dquote : string := String (ascii_of_nat 34) EmptyString.

(** [fetchVoices]. *)
Definition isDefaultVoice (v : Voice) : bool :=
  Js.seq (category v) "professional" && Js.seq (gender v) "male".

Definition fetchVoices (voices : NetResult VoicesResponse) : M unit :=
  try_catch
    (response <- axios_get (api ++ "/voices/available")%string voices ;;
     match vs_voices response with
     | Some vs =>
         when (vs_success response)
           (setAvailableVoices vs ;;
            match find isDefaultVoice vs with
            | Some defaultVoice =>
                setAdvancedVideoVoiceId (Some (voice_id defaultVoice))
            | None =>
                match vs with
                | v0 :: _ => setAdvancedVideoVoiceId (Some (voice_id v0))
                | [] => ret tt
                end
            end)
     | None => ret tt
     end)
    (fun err => console_error "Error fetching voices:").

(** [cloneVoice(voiceSamplePath)]: [nameAnswer] is what the user typed in
    the name prompt, [clone] the answer of the clone endpoint, [voices]
    the answer to the refresh of the voice list. *)
Definition cloneVoice (voiceSamplePath : string) (nameAnswer : option string)
    (clone : NetResult CloneVoiceResponse) (voices : NetResult VoicesResponse)
  : M unit :=
  try_finally
    (try_catch
       (setLoading true ;;
        setError None ;;
        voiceName <- prompt "Enter a name for your cloned voice:" nameAnswer ;;
        match voiceName with
        | Some vname =>
            if Js.truthy vname then
              response <- axios_post (api ++ "/clone-voice")%string clone ;;
              if cv_success response then
                alert ("Voice " ++ dquote ++ vname ++ dquote ++
                       " cloned successfully! You can now use it for video narration.")%string ;;
                fetchVoices voices ;;
                setSelectedVoice (Some (cv_voice_id response))
              else
                alert ("Failed to clone voice: " ++
                       Js.or_else (cv_error response) "Unknown error")%string
            else setLoading false
        | None => setLoading false
        end)
       (fun err =>
          console_error "Error cloning voice:" ;;
          alert "Failed to clone voice. Please try again."))
    (setLoading false).

(** The [VoiceFile] built from a successful upload response; [now] is
    [Date.now()]. *)
Definition newVoice (now : Z) (r : VoiceUploadResponse) : VoiceFile :=
  {| id := Js.or_else (vu_voice_id r) ("custom-" ++ Js.toString now)%string;
     name := vu_filename r;
     url := Js.or_else (vu_url r) ("/api/voices/" ++ vu_filename r)%string |}.

Definition useUploadedVoice (now : Z) (r : VoiceUploadResponse) : M unit :=
  let nv := newVoice now r in
  setUploadedVoices (fun prev => prev ++ [nv]) ;;
  when (Js.truthy (id nv)) (setSelectedVoice (Some (id nv))).

(** [uploadVoiceRecording(blob)]: [wantClone] is the user's answer to the
    confirmation dialog. *)
Definition uploadVoiceRecording (now : Z) (upload : NetResult VoiceUploadResponse)
    (wantClone : bool) (nameAnswer : option string)
    (clone : NetResult CloneVoiceResponse) (voices : NetResult VoicesResponse)
  : M unit :=
  try_catch
    (response <- axios_post (api ++ "/upload-voice")%string upload ;;
     when (vu_success response)
       (yes <- confirm
          "Voice uploaded successfully! Would you like to clone this voice for high-quality AI narration?"
          wantClone ;;
        if yes then cloneVoice (vu_filepath response) nameAnswer clone voices
        else useUploadedVoice now response))
    (fun err =>
       console_error "Error uploading voice recording:" ;;
       alert "Failed to upload voice recording. Please try again.").

(** [handleVoiceUpload(files)]. *)
Definition handleVoiceUpload (files : list string) (now : Z)
    (upload : NetResult VoiceUploadResponse) : M unit :=
  match files with
  | [] => ret tt
  | _ :: _ =>
      try_catch
        (response <- axios_post (api ++ "/upload-voice")%string upload ;;
         when (vu_success response) (useUploadedVoice now response))
        (fun err => console_error "Error uploading voice file:")
  end.

(* ===================================================================== *)
(** * Training lifecycle controller                                       *)
(* ===================================================================== *)

Definition trainingStatusUrl (model : string) : string :=
  (api ++ "/training/status/" ++ model)%string.

(** The [switch (status)] of the poll loop; the result is the new value
    of [isCompleted]. *)
Definition trainingSwitch (model status : string) (isCompleted : bool) : M bool :=
  if Js.seq status "preprocessing" then setTrainingProgress 60 ;; ret isCompleted
  else if Js.seq status "feature_extraction" then setTrainingProgress 70 ;; ret isCompleted
  else if Js.seq status "training" then setTrainingProgress 80 ;; ret isCompleted
  else if Js.seq status "finetuning" then setTrainingProgress 90 ;; ret isCompleted
  else if Js.seq status "completed" then
    setTrainingProgress 100 ;; setModelId (Some model) ;; ret true
  else if Js.seq status "failed" then
    throw (ErrorObj "Training failed. Please try again.")
  else ret isCompleted.

(** The body of the poll loop; [continue] ends the iteration before
    [attempts++].  The result is the pair of loop variables
    [(isCompleted, attempts)] after the iteration.
<<
    await new Promise(resolve => setTimeout(resolve, 10000));
    const statusResponse = await axios.get(`.../api/training/status/${modelId}`);
    if (!statusResponse.data.success) {
      console.error('Error checking training status:', statusResponse.data.error);
      continue;
    }
    const status = statusResponse.data.model.status;
    switch (status) { ... }
    attempts++;
>> *)
Definition trainingPollBody (model : string) (r : NetResult TrainingStatusResponse)
    (isCompleted : bool) (attempts : Z) : M (bool * Z) :=
  emit (Wait 10000) ;;
  statusResponse <- axios_get (trainingStatusUrl model) r ;;
  if negb (ts_success statusResponse) then
    console_error "Error checking training status:" ;;
    ret (isCompleted, attempts)
  else
    isCompleted' <- trainingSwitch model (ts_model_status statusResponse) isCompleted ;;
    ret (isCompleted', attempts + 1).

(** [while (!isCompleted && attempts < 30) { body }]; the result is the
    final [isCompleted]. *)
Fixpoint trainingPoll (model : string)
    (answers : list (NetResult TrainingStatusResponse))
    (isCompleted : bool) (attempts : Z) {struct answers} : M bool :=
  if negb isCompleted && (attempts <? 30) then
    match answers with
    | [] => pending
    | r :: rest =>
        vars <- trainingPollBody model r isCompleted attempts ;;
        trainingPoll model rest (fst vars) (snd vars)
    end
  else ret isCompleted.

Definition timedOutMessage : string :=
  "Training timed out. The process may still be running in the background.".

(** [startTraining]: [upload] and [start] are the answers to the two
    POST requests, [answers] the scripted answers of the status
    endpoint. *)
Definition startTraining (upload start : NetResult TrainingModelResponse)
    (answers : list (NetResult TrainingStatusResponse)) : M unit :=
  h <- get ;;
  if Z.of_nat (List.length (trainingImages h)) <? 3 then
    setError (Some "Please upload at least 3 images or videos for training")
  else
    setTrainingInProgress true ;;
    setError None ;;
    try_catch
      (uploadResponse <- axios_post (api ++ "/upload-training")%string upload ;;
       when (negb (tm_success uploadResponse))
         (throw (ErrorObj (Js.or_else (tm_error uploadResponse)
                             "Failed to upload training files"))) ;;
       setTrainingProgress 30 ;;
       let model := tm_model_id uploadResponse in
       startTrainingResponse <- axios_post (api ++ "/training/start")%string start ;;
       when (negb (tm_success startTrainingResponse))
         (throw (ErrorObj (Js.or_else (tm_error startTrainingResponse)
                             "Failed to start training"))) ;;
       setTrainingProgress 50 ;;
       isCompleted <- trainingPoll model answers false 0 ;;
       when (negb isCompleted) (throw (ErrorObj timedOutMessage)) ;;
       setTrainingInProgress false)
      (fun err =>
         console_error "Error training model:" ;;
         setError (Some (message_or err "Failed to train custom model")) ;;
         setTrainingInProgress false).

(** ** Observations on traces *)

Definition is_get (e : event) : bool :=
  match e with HttpGet _ => true | _ => false end.

(** Number of status queries (GET requests) in a trace. *)
Definition queries (t : list event) : nat := List.length (filter is_get t).


(** ** Observations on poller runs *)

(** Progress values reported by the status endpoint, in order. *)
Definition reportedProgress (answers : list (NetResult JobStatus)) : list Z :=
  flat_map (fun r => match r with
                     | Resolved d => [progress d]
                     | Rejected _ => []
                     end) answers.

(** Progress values shown by the progress panel after each tick. *)
Definition shownProgress (run : list (Home * list event)) : list Z :=
  flat_map (fun x => match displayedProgress (fst x) with
                     | Some p => [p]
                     | None => []
                     end) run.

(** A clone request that did not produce a cloned voice. *)
Definition cloneFailed (clone : NetResult CloneVoiceResponse) : bool :=
  match clone with
  | Resolved c => negb (cv_success c)
  | Rejected _ => true
  end.

(** A status answer that lets the training loop go on: the endpoint
    reports success and a status other than "completed" and "failed". *)
Definition progressing (r : NetResult TrainingStatusResponse) : bool :=
  match r with
  | Resolved resp => ts_success resp && negb (terminalStatus (ts_model_status resp))
  | Rejected _ => false
  end.

(** The component state when the training poll loop is entered: in
    progress, no error, progress at 50. *)
Definition pollingState (h : Home) : Home :=
  with_trainingProgress 50
    (with_trainingProgress 30
       (with_error None (with_trainingInProgress true h))).

(** [n] rounds of the training poll loop: ten seconds of waiting, then
    one status query. *)
Definition pollRounds (model : string) (n : nat) : list event :=
  List.concat (repeat [Wait 10000; HttpGet (trainingStatusUrl model)] n).

(** The two requests that precede the poll loop. *)
Definition launchRequests : list event :=
  [HttpPost (api ++ "/upload-training")%string;
   HttpPost (api ++ "/training/start")%string].

(** How [startTraining] ends, given how its poll loop ended: the [catch]
    handler turns a time-out and an exception into the error message. *)
Definition trainingEnd (r : Outcome bool * Home * list event)
  : Outcome unit * Home * list event :=
  match r with
  | (Ret true, h, t) => (Ret tt, with_trainingInProgress false h, t)
  | (Ret false, h, t) =>
      (Ret tt,
       with_trainingInProgress false (with_error (Some timedOutMessage) h),
       t ++ [ConsoleError "Error training model:"])
  | (Throw e, h, t) =>
      (Ret tt,
       with_trainingInProgress false
         (with_error (Some (message_or e "Failed to train custom model")) h),
       t ++ [ConsoleError "Error training model:"])
  | (Pending, h, t) => (Pending, h, t)
  end.

(** Two-digit rendering used by [formatTime]. *)
Definition pad2 (z : Z) : string := Js.padStart 2 "0" (Js.toString z).

(** ** Sample inputs *)

Module Sample.

Definition job (s : string) (p : Z) : NetResult JobStatus :=
  Resolved (mkJobStatus s p None None None).

Definition networkError {A} : NetResult A := Rejected (ErrorObj "Network Error").

(** A job was launched and is being watched. *)
Definition watching : Home :=
  with_loading true
    (with_jobStatus (Some (mkJobStatus "initializing" 0 None None None))
       (with_jobId (Some "job-1") initialHome)).

(** Text-to-video: [setLoading(true)], [setJobId(..)], then
    [startCheckingStatus]. *)
Definition launched : Home :=
  with_jobId (Some "job-1") (with_loading true initialHome).

Definition adForm : Home :=
  mkHome false None None None [] None [] None [] false 0 None "Buy one, get one free".

Definition media (n : string) : TrainingImage := mkTrainingImage n n image.

Definition twoAssets : Home :=
  mkHome false None None None [] None [] None [media "a"; media "b"]
    false 0 None "".

Definition threeAssets : Home :=
  mkHome false None None None [] None [] None [media "a"; media "b"; media "c"]
    false 0 None "".

Definition accepted : NetResult TrainingModelResponse :=
  Resolved (mkTrainingModelResponse true "model-1" None).

Definition phase (s : string) : NetResult TrainingStatusResponse :=
  Resolved (mkTrainingStatusResponse true s None).

Definition unsuccessful : NetResult TrainingStatusResponse :=
  Resolved (mkTrainingStatusResponse false "" (Some "temporarily unavailable")).

Definition recording : VoiceUploadResponse :=
  mkVoiceUploadResponse true "recording_1.wav" "/uploads/recording_1.wav" None None.

Definition cloneRefused : NetResult CloneVoiceResponse :=
  Resolved (mkCloneVoiceResponse false (Some "quota exceeded") "" "").

Definition noVoices : NetResult VoicesResponse :=
  Resolved (mkVoicesResponse true (Some [])).

End Sample.

(* ===================================================================== *)
(** * Further handlers of the component                                   *)
(* ===================================================================== *)

(** ** Training assets *)

(** A browser [File]: its name and its MIME type. *)
Record File := mkFile {
  file_name : string;
  file_type : string
}.

Definition with_trainingImages (v : list TrainingImage) (h : Home) : Home :=
  mkHome (loading h) (error h) (jobId h) (jobStatus h) (uploadedVoices h)
    (selectedVoice h) (availableVoices h) (advancedVideoVoiceId h)
    v (trainingInProgress h) (trainingProgress h)
    (modelId h) (adText h).

Definition setTrainingImages (f : list TrainingImage -> list TrainingImage) : M unit :=
  modify (fun h => with_trainingImages (f (trainingImages h)) h).

(** [`img_${Date.now()}_${Math.random().toString(36).substr(2, 9)}`]:
    the clock value and the random suffix are inputs. *)
Definition imageId (now : Z) (suffix : string) : string :=
  ("img_" ++ Js.toString now ++ "_" ++ suffix)%string.

(** [file.type.startsWith('image/') ? 'image' : 'video']. *)
Definition mediaTypeOf (f : File) : MediaType :=
  if String.prefix "image/" (file_type f) then image else video.

(** [acceptedFiles.map(file => ({ id, file, preview, type }))]; [stamp k]
    is the clock value and the random suffix drawn for the [k]-th
    file. *)
Fixpoint newImages (acceptedFiles : list File) (k : nat) (stamp : nat -> Z * string)
  : list TrainingImage :=
  match acceptedFiles with
  | [] => []
  | file :: rest =>
      {| ti_id := imageId (fst (stamp k)) (snd (stamp k));
         ti_file := file_name file;
         ti_type := mediaTypeOf file |}
      :: newImages rest (S k) stamp
  end.

(** [handleTrainingImagesUpload(acceptedFiles)]:
    [setTrainingImages(prev => [...prev, ...newImages])]. *)
Definition handleTrainingImagesUpload (acceptedFiles : list File)
    (stamp : nat -> Z * string) : M unit :=
  setTrainingImages (fun prev => prev ++ newImages acceptedFiles 0 stamp).

(** [removeTrainingImage(id)]:
    [setTrainingImages(prev => prev.filter(img => img.id !== id))]. *)
Definition removeTrainingImage (id : string) : M unit :=
  setTrainingImages (filter (fun img => negb (Js.seq (ti_id img) id))).

(** ** The voice dropdown

    Four [optgroup]s over [availableVoices], each a [filter] on the
    category followed by a [map] to [<option value={voice.voice_id}>]. *)
Definition otherCategory (v : Voice) : bool :=
  negb (existsb (fun c => Js.seq c (category v)) ["professional"; "casual"; "custom"]).

Definition voiceOptions (voices : list Voice) : list (string * list Voice) :=
  [("Professional Voices", filter (fun voice => Js.seq (category voice) "professional") voices);
   ("Casual Voices", filter (fun voice => Js.seq (category voice) "casual") voices);
   ("Other Voices", filter otherCategory voices);
   ("Your Custom Voices", filter (fun voice => Js.seq (category voice) "custom") voices)].

(** The option values of the dropdown, top to bottom (after the empty
    first option). *)
Definition optionValues (voices : list Voice) : list string :=
  map voice_id (List.concat (map snd (voiceOptions voices))).

(** ** The status label of the progress panel

    [jobStatus.status.replace('_', ' ')]: with a string pattern,
    [replace] changes the first occurrence only. *)
Fixpoint replaceFirst (c r : ascii) (s : string) : string :=
  match s with
  | EmptyString => EmptyString
  | String a rest =>
      if Ascii.eqb a c then String r rest
      else String a (replaceFirst c r rest)
  end.

Definition statusLabel (status : string) : string :=
  replaceFirst "_" " " status.

(** Occurrences of a character in a string. *)
Fixpoint occurrences (c : ascii) (s : string) : nat :=
  match s with
  | EmptyString => O
  | String a rest => if Ascii.eqb a c then S (occurrences c rest) else occurrences c rest
  end.

(** ** Text to video *)

(** [interface TextToVideoResponse]. *)
Record TextToVideoResponse := mkTextToVideoResponse {
  tv_success : bool;
  tv_job_id : string;
  tv_error : option string
}.

(** [handleTextToVideoGeneration]; [textPrompt] is the value of the
    prompt field.  [startCheckingStatus] is called without [await]: it
    handles its own exceptions, and the run of the handler is here
    followed to the end of the polling it starts. *)
Definition handleTextToVideoGeneration (textPrompt : string)
    (launch : NetResult TextToVideoResponse)
    (answers : list (NetResult JobStatus)) : M unit :=
  if negb (Js.truthy textPrompt) then
    setError (Some "Please enter a text prompt to generate a video")
  else
    try_catch
      (setLoading true ;;
       setError None ;;
       response <- axios_post (api ++ "/generate-video-from-text")%string launch ;;
       if tv_success response then
         setJobId (Some (tv_job_id response)) ;;
         startCheckingStatus (tv_job_id response) answers
       else
         setError (Some (Js.or_else (tv_error response)
                           "Failed to initiate video generation")) ;;
         setLoading false)
      (fun err =>
         console_error "Error generating video from text:" ;;
         setError (Some "Error generating video. Please try again.") ;;
         setLoading false).

(** ** Advanced motion video *)

(** [interface AdvancedVideoResponse]; the handler tests [job_id] for
    truthiness, so it may be absent. *)
Record AdvancedVideoResponse := mkAdvancedVideoResponse {
  av_success : bool;
  av_job_id : option string
}.

(** The local [checkStatus] of [handleAdvancedVideoGeneration]; the
    result is [true] when it called [setTimeout(checkStatus, 2000)]. *)
Definition advancedCheckStatus (job : string) (r : NetResult JobStatus) : M bool :=
  try_catch
    (statusResponse <- axios_get (statusUrl job) r ;;
     setJobStatus (Some statusResponse) ;;
     if terminalStatus (status statusResponse) then
       setLoading false ;;
       when (Js.seq (status statusResponse) "failed")
         (setError (Some (Js.or_else (job_error statusResponse)
                            "Failed to generate video"))) ;;
       ret false
     else ret true)
    (fun err =>
       console_error "Error checking job status:" ;;
       setLoading false ;;
       setError (Some "Failed to check video generation status") ;;
       ret false).

Fixpoint advancedPoll (job : string) (answers : list (NetResult JobStatus))
  : M unit :=
  match answers with
  | [] => pending
  | r :: rest =>
      again <- advancedCheckStatus job r ;;
      if again then emit (Wait 2000) ;; advancedPoll job rest
      else ret tt
  end.

Definition initializing : JobStatus := mkJobStatus "initializing" 0 None None None.

Definition handleAdvancedVideoGeneration (advancedVideoPrompt : string)
    (launch : NetResult AdvancedVideoResponse)
    (answers : list (NetResult JobStatus)) : M unit :=
  if negb (Js.truthy advancedVideoPrompt) then
    setError (Some "Please enter a description for your advanced video")
  else
    try_catch
      (setLoading true ;;
       setError None ;;
       response <- axios_post (api ++ "/generate-advanced-video")%string launch ;;
       match av_job_id response with
       | Some job =>
           if av_success response && Js.truthy job then
             setJobId (Some job) ;;
             setJobStatus (Some initializing) ;;
             advancedPoll job answers
           else
             setError (Some "Failed to generate advanced video") ;;
             setLoading false
       | None =>
           setError (Some "Failed to generate advanced video") ;;
           setLoading false
       end)
      (fun err =>
         console_error "Error generating advanced video:" ;;
         setError (Some "Error generating advanced video. Please try again.") ;;
         setLoading false).

(** ** Launchers that leave the polling to the effect *)

(** [interface VideoResponse]; [job_id] is tested for truthiness, so it
    may be absent. *)
Record VideoResponse := mkVideoResponse {
  vr_job_id : option string
}.

(** The common shape of [handleGenerateAd] and
    [handleGenerateAdvancedVideo] after their local check:
<<
    setLoading(true); setError(null);
    try {
      const response = await axios.post(url, requestData);
      if (response.data.job_id) { setJobId(response.data.job_id); }
      else { throw new Error('No job ID returned'); }
    } catch (err) {
      console.error(log, err); setLoading(false); setError(failure);
    }
>> *)
Definition launchForEffect (url log failure : string)
    (launch : NetResult VideoResponse) : M unit :=
  setLoading true ;;
  setError None ;;
  try_catch
    (response <- axios_post url launch ;;
     match vr_job_id response with
     | Some job =>
         if Js.truthy job then setJobId (Some job)
         else throw (ErrorObj "No job ID returned")
     | None => throw (ErrorObj "No job ID returned")
     end)
    (fun err =>
       console_error log ;;
       setLoading false ;;
       setError (Some failure)).

(** [handleGenerateAd]; [brandName] is the value of the brand field,
    the ad text is component state. *)
Definition handleGenerateAd (brandName : string)
    (launch : NetResult VideoResponse) : M unit :=
  h <- get ;;
  if negb (Js.truthy brandName) || negb (Js.truthy (adText h)) then
    setError (Some "Please provide a brand name and ad text")
  else
    launchForEffect (api ++ "/generate-ad")%string
      "Error generating ad:" "Failed to generate ad video" launch.

(** [handleGenerateAdvancedVideo]. *)
Definition handleGenerateAdvancedVideo (advancedVideoPrompt : string)
    (launch : NetResult VideoResponse) : M unit :=
  if negb (Js.truthy advancedVideoPrompt) then
    setError (Some "Please provide a video description")
  else
    launchForEffect (api ++ "/generate-advanced-video")%string
      "Error generating advanced video:" "Failed to generate advanced video" launch.

(** The "Create Another" button: [setJobId(null); setJobStatus(null)]. *)
Definition createAnother : M unit :=
  setJobId None ;; setJobStatus None.

(** ** Image to video

    [handleGenerateVideo] also writes [uploadedFilePath], a piece of
    state outside [Home]; [Studio] adds it. *)
Record Studio := mkStudio {
  view : Home;
  uploadedFilePath : option string
}.

Definition St (A : Type) : Type := Studio -> Outcome A * Studio * list event.

(** A handler on [Home] run inside the larger state. *)
Definition lift {A} (m : M A) : St A :=
  fun s =>
    match m (view s) with
    | (o, h, t) => (o, mkStudio h (uploadedFilePath s), t)
    end.

Definition setUploadedFilePath (v : option string) : St unit :=
  fun s => (Ret tt, mkStudio (view s) v, []).

Definition sbind {A B} (m : St A) (f : A -> St B) : St B :=
  fun s =>
    match m s with
    | (Ret a, s1, t1) =>
        match f a s1 with
        | (o, s2, t2) => (o, s2, t1 ++ t2)
        end
    | (Throw e, s1, t1) => (Throw e, s1, t1)
    | (Pending, s1, t1) => (Pending, s1, t1)
    end.

Definition stry_catch {A} (body : St A) (handler : Thrown -> St A) : St A :=
  fun s =>
    match body s with
    | (Throw e, s1, t1) =>
        match handler e s1 with
        | (o, s2, t2) => (o, s2, t1 ++ t2)
        end
    | r => r
    end.

(** [interface UploadResponse]. *)
Record UploadResponse := mkUploadResponse {
  up_filepath : option string;
  up_face_detected : option bool
}.

(** [uploadResponse.data.face_detected === false]. *)
Definition noFace (r : UploadResponse) : bool :=
  match up_face_detected r with
  | Some false => true
  | _ => false
  end.

(** The upload step of [handleGenerateVideo]: the request and the two
    checks of its answer; the result is the file path. *)
Definition uploadPhoto (upload : NetResult UploadResponse) : M string :=
  uploadResponse <- axios_post (api ++ "/upload-photo")%string upload ;;
  when (noFace uploadResponse) (throw (ErrorObj "No face detected in the image")) ;;
  match up_filepath uploadResponse with
  | Some filepath =>
      if Js.truthy filepath then ret filepath
      else throw (ErrorObj "No filepath returned from server")
  | None => throw (ErrorObj "No filepath returned from server")
  end.

(** [handleGenerateVideo]; [photo] is the dropped file, if any. *)
Definition handleGenerateVideo (photo : option File)
    (upload : NetResult UploadResponse) (launch : NetResult VideoResponse)
  : St unit :=
  match photo with
  | None => lift (setError (Some "Please upload a photo first"))
  | Some _ =>
      sbind (lift (setLoading true ;; setError None)) (fun _ =>
      stry_catch
        (sbind (lift (uploadPhoto upload)) (fun filepath =>
         sbind (setUploadedFilePath (Some filepath)) (fun _ =>
         lift (videoResponse <- axios_post (api ++ "/generate-video")%string launch ;;
               setJobId (vr_job_id videoResponse) ;;
               setJobStatus (Some initializing)))))
        (fun err =>
           lift (console_error "Error during video generation:" ;;
                 setError (Some (message_or err "An error occurred")) ;;
                 setLoading false)))
  end.

(** ** Observations used by the properties *)

(** A status answer of a running job. *)
Definition running (r : NetResult JobStatus) : bool :=
  match r with
  | Resolved d => negb (terminalStatus (status d))
  | Rejected _ => false
  end.

(** The error message a failed job leaves in the view of the polling
    effect. *)
Definition failureMessage (d : JobStatus) : string :=
  Js.or_else (job_error d) "Video generation failed".

(** [h'] is [h] but for the training progress. *)
Definition differsInProgressOnly (h h' : Home) : Prop :=
  h' = with_trainingProgress (trainingProgress h') h.

(** The test of [removeTrainingImage]: [img.id !== target]. *)
Definition keep (target : string) (img : TrainingImage) : bool :=
  negb (Js.seq (ti_id img) target).

(** [h'] is [h] but for the stored job status. *)
Definition differsInJobStatusOnly (h h' : Home) : Prop :=
  h' = with_jobStatus (jobStatus h') h.

(** [n] rounds of a self-rescheduling status poll: one query, then two
    seconds until the next invocation. *)
Definition statusRounds (job : string) (n : nat) : list event :=
  List.concat (repeat [HttpGet (statusUrl job); Wait 2000] n).

(** The stored job status is "completed" or "failed". *)
Definition storedTerminal (h : Home) : bool :=
  match jobStatus h with
  | Some d => terminalStatus (status d)
  | None => false
  end.

(** The ids of the training assets. *)
Definition assetIds (h : Home) : list string := map ti_id (trainingImages h).

Module Sample2.

Definition photoFile : File := mkFile "portrait.png" "image/png".
Definition clipFile : File := mkFile "clip.mp4" "video/mp4".

(** The [k]-th draw of the clock and of the random suffix. *)
Definition stamp (k : nat) : Z * string :=
  (1714000000000 + Z.of_nat k, String (ascii_of_nat (97 + k)) "x3f9q2k7").

Definition voicePro : Voice := mkVoice "v-pro" "Adam" "professional" "male".
Definition voiceProF : Voice := mkVoice "v-prof" "Bella" "professional" "female".
Definition voiceCasual : Voice := mkVoice "v-cas" "Charlie" "casual" "male".
Definition voiceCustom : Voice := mkVoice "v-cus" "My Custom Voice" "custom" "female".
Definition voiceNarr : Voice := mkVoice "v-nar" "Nina" "narration" "female".

Definition failedJob : JobStatus :=
  mkJobStatus "failed" 35 None (Some "render node crashed") None.

Definition completedJob : JobStatus :=
  mkJobStatus "completed" 100
    (Some (mkJobResult "script" [] "out/video.mp4" (Some true) None)) None None.

End Sample2.

(* ===================================================================== *)
(** * Properties: progress model                                          *)
(* ===================================================================== *)

Lemma ceil_div_60_bounds (s : Z) :
  60 * (Js.ceil_div s 60 - 1) < s <= 60 * Js.ceil_div s 60.
Proof.
  unfold Js.ceil_div.
  pose proof (Z.div_mod (- s) 60 ltac:(lia)) as E.
  pose proof (Z.mod_pos_bound (- s) 60 ltac:(lia)) as B.
  lia.
Qed.

Lemma formatTime_positive (s : Z) :
  0 < s -> formatTime (Some s) = (pad2 (s / 60) ++ ":" ++ pad2 (s mod 60))%string.
Proof.
  intros Hs. unfold formatTime, pad2, Js.floor_div, Js.rem.
  destruct (Z.eqb_spec s 0) as [E | _]; [lia |].
  rewrite Z.rem_mod_nonneg by lia. reflexivity.
Qed.

(** C4, as the claim states it, fails: [formatTime] does not render a
    negative input as the placeholder and renders 125 as a clock value;
    the remaining-time line of the panel shows 60 as seconds, 45 as
    "45 seconds", and nothing at all for an absent value. *)
Lemma C4_counterexample :
  formatTime (Some (-5)) = "-1:-5" /\
  formatTime (Some 125) = "02:05" /\
  estimatedTimeText (Some 60) = Some "60 seconds" /\
  estimatedTimeText (Some 45) = Some "45 seconds" /\
  estimatedTimeText None = None.
Proof. repeat split; reflexivity. Qed.

(** C4 (amended): [formatTime] renders [undefined] and 0 as "00:00",
    45 as "00:45", and every positive whole number of seconds as MM:SS
    (minutes rounded down, each part left-padded to two digits).  The
    remaining-time line of the progress panel is hidden for absent, zero
    and negative values, shows "<s> seconds" for 0 < s <= 60 and
    "<m> minutes" with m the ceiling of s/60 for s > 60; 125 is shown as
    "3 minutes". *)
Theorem C4_remaining_time_rendering (s : Z) :
  formatTime None = "00:00" /\
  formatTime (Some 0) = "00:00" /\
  formatTime (Some 45) = "00:45" /\
  (0 < s -> formatTime (Some s) = (pad2 (s / 60) ++ ":" ++ pad2 (s mod 60))%string) /\
  estimatedTimeText None = None /\
  (s <= 0 -> estimatedTimeText (Some s) = None) /\
  (0 < s <= 60 ->
     estimatedTimeText (Some s) = Some (Js.toString s ++ " seconds")%string) /\
  (60 < s ->
     exists m, 60 * (m - 1) < s <= 60 * m /\
       estimatedTimeText (Some s) = Some (Js.toString m ++ " minutes")%string) /\
  estimatedTimeText (Some 125) = Some "3 minutes".
Proof.
  repeat split; try reflexivity.
  - apply formatTime_positive.
  - intros Hs. unfold estimatedTimeText.
    destruct (Z.ltb_spec 0 s); [lia | reflexivity].
  - intros [H0 H60]. unfold estimatedTimeText.
    destruct (Z.ltb_spec 0 s); [| lia].
    destruct (Z.ltb_spec 60 s); [lia | reflexivity].
  - intros Hs. exists (Js.ceil_div s 60). split.
    + apply ceil_div_60_bounds.
    + unfold estimatedTimeText.
      destruct (Z.ltb_spec 0 s); [| lia].
      destruct (Z.ltb_spec 60 s); [reflexivity | lia].
Qed.

Lemma C4_remaining_time_rendering_witness :
  0 < 125 /\ 60 < 125 /\
  formatTime (Some 125) = "02:05" /\
  exists m, 60 * (m - 1) < 125 <= 60 * m /\
    estimatedTimeText (Some 125) = Some (Js.toString m ++ " minutes")%string.
Proof.
  destruct (C4_remaining_time_rendering 125)
    as (_ & _ & _ & Hfmt & _ & _ & _ & Hmin & _).
  split; [lia |]. split; [lia |]. split.
  - rewrite (Hfmt ltac:(lia)). reflexivity.
  - apply Hmin. lia.
Defined.

(** C7, as the claim states it, fails: the description block renders no
    phrase for the initial phase of every job, nor for a label it does
    not know. *)
Lemma C7_counterexample :
  statusDescription "initializing" = [] /\
  statusDescription "rendering_frames" = [].
Proof. split; reflexivity. Qed.

(** C7 (amended): the status description is total and never throws; for
    each of the six phase labels it knows it renders exactly one
    non-empty phrase, and for every other label it renders nothing (there
    is no generic fallback phrase). *)
Theorem C7_status_description_total (s : string) :
  (In s knownPhases /\ exists p, statusDescription s = [p] /\ p <> "") \/
  (~ In s knownPhases /\ statusDescription s = []).
Proof.
  unfold statusDescription, when_status, Js.seq, knownPhases.
  destruct (String.eqb_spec s "generating_script") as [-> | N1];
    [left; split; [simpl; auto | eexists; split; [reflexivity | discriminate]] |].
  destruct (String.eqb_spec s "generating_video") as [-> | N2];
    [left; split; [simpl; auto | eexists; split; [reflexivity | discriminate]] |].
  destruct (String.eqb_spec s "adding_voiceover") as [-> | N3];
    [left; split; [simpl; auto | eexists; split; [reflexivity | discriminate]] |].
  destruct (String.eqb_spec s "enhancing_video") as [-> | N4];
    [left; split; [simpl; auto 6 | eexists; split; [reflexivity | discriminate]] |].
  destruct (String.eqb_spec s "processing_audio") as [-> | N5];
    [left; split; [simpl; auto 7 | eexists; split; [reflexivity | discriminate]] |].
  destruct (String.eqb_spec s "finalizing") as [-> | N6];
    [left; split; [simpl; auto 8 | eexists; split; [reflexivity | discriminate]] |].
  right. split; [| reflexivity].
  simpl. intros [H | [H | [H | [H | [H | [H | []]]]]]]; congruence.
Qed.


(* ===================================================================== *)
(** * Equations of the effect monad                                       *)
(* ===================================================================== *)

Lemma prepend_nil {A} (r : Outcome A * Home * list event) : prepend [] r = r.
Proof. destruct r as [[o h] t]. reflexivity. Qed.

Lemma prepend_prepend {A} (t1 t2 : list event) (r : Outcome A * Home * list event) :
  prepend t1 (prepend t2 r) = prepend (t1 ++ t2) r.
Proof. destruct r as [[o h] t]. simpl. now rewrite app_assoc. Qed.

Section MonadEquations.

Context {A B : Type}.

Lemma bind_ret (a : A) (k : A -> M B) (h : Home) : bind (ret a) k h = k a h.
Proof. unfold bind, ret. apply prepend_nil. Qed.

Lemma bind_throw (e : Thrown) (k : A -> M B) (h : Home) :
  bind (throw e) k h = (Throw e, h, []).
Proof. reflexivity. Qed.

Lemma bind_pending (k : A -> M B) (h : Home) :
  bind pending k h = (Pending, h, []).
Proof. reflexivity. Qed.

Lemma bind_settle_resolved (d : A) (k : A -> M B) (h : Home) :
  bind (settle (Resolved d)) k h = k d h.
Proof. apply bind_ret. Qed.

Lemma bind_axios_get_resolved (u : string) (d : A) (k : A -> M B) (h : Home) :
  bind (axios_get u (Resolved d)) k h = prepend [HttpGet u] (k d h).
Proof.
  unfold axios_get, bind, emit, settle, ret, prepend.
  destruct (k d h) as [[o h'] t]. reflexivity.
Qed.

Lemma bind_axios_get_rejected (u : string) (e : Thrown) (k : A -> M B) (h : Home) :
  bind (axios_get u (Rejected e)) k h = (Throw e, h, [HttpGet u]).
Proof. reflexivity. Qed.

Lemma bind_axios_post_resolved (u : string) (d : A) (k : A -> M B) (h : Home) :
  bind (axios_post u (Resolved d)) k h = prepend [HttpPost u] (k d h).
Proof.
  unfold axios_post, bind, emit, settle, ret, prepend.
  destruct (k d h) as [[o h'] t]. reflexivity.
Qed.

Lemma bind_axios_post_rejected (u : string) (e : Thrown) (k : A -> M B) (h : Home) :
  bind (axios_post u (Rejected e)) k h = (Throw e, h, [HttpPost u]).
Proof. reflexivity. Qed.

End MonadEquations.

Section UnitEquations.

Context {B : Type}.

Lemma bind_emit (e : event) (k : unit -> M B) (h : Home) :
  bind (emit e) k h = prepend [e] (k tt h).
Proof. reflexivity. Qed.

Lemma bind_modify (f : Home -> Home) (k : unit -> M B) (h : Home) :
  bind (modify f) k h = k tt (f h).
Proof. unfold bind, modify. apply prepend_nil. Qed.

Lemma bind_get (k : Home -> M B) (h : Home) : bind get k h = k h h.
Proof. unfold bind, get. apply prepend_nil. Qed.

Lemma bind_when_false (m : M unit) (k : unit -> M B) (h : Home) :
  bind (when false m) k h = k tt h.
Proof. unfold when. apply bind_ret. Qed.

Lemma bind_confirm (msg : string) (b : bool) (k : bool -> M B) (h : Home) :
  bind (confirm msg b) k h = prepend [Confirm msg] (k b h).
Proof.
  unfold confirm, bind, emit, ret, prepend.
  destruct (k b h) as [[o' h'] t]. reflexivity.
Qed.

Lemma bind_prompt (msg : string) (o : option string)
    (k : option string -> M B) (h : Home) :
  bind (prompt msg o) k h = prepend [Prompt msg] (k o h).
Proof.
  unfold prompt, bind, emit, ret, prepend.
  destruct (k o h) as [[o' h'] t]. reflexivity.
Qed.

End UnitEquations.

(** Unfold the setters and the dialogs to [modify] and [emit], then push
    the run through the binds. *)
Ltac setters :=
  unfold setLoading, setError, setJobId, setJobStatus, setUploadedVoices,
    setSelectedVoice, setAvailableVoices, setAdvancedVideoVoiceId,
    setTrainingInProgress, setTrainingProgress, setModelId,
    console_error, console_log, alert in *.

Ltac run_step :=
  first
    [ rewrite bind_emit | rewrite bind_modify | rewrite bind_get
    | rewrite bind_ret | rewrite bind_throw | rewrite bind_pending
    | rewrite bind_axios_get_resolved | rewrite bind_axios_get_rejected
    | rewrite bind_axios_post_resolved | rewrite bind_axios_post_rejected
    | rewrite bind_confirm | rewrite bind_prompt
    | rewrite bind_when_false
    | rewrite prepend_prepend | rewrite prepend_nil ];
  cbv beta.

Ltac run := setters; repeat run_step.

(* ===================================================================== *)
(** * Properties: training lifecycle controller                           *)
(* ===================================================================== *)

Section TrainingLoop.

Variable model : string.

Lemma trainingSwitch_progressing (st : string) (c : bool) (h : Home) :
  terminalStatus st = false ->
  exists h', trainingSwitch model st c h = (Ret c, h', []).
Proof.
  unfold terminalStatus. intros T.
  apply orb_false_iff in T. destruct T as [Tc Tf].
  unfold trainingSwitch.
  destruct (Js.seq st "preprocessing"); [eexists; reflexivity |].
  destruct (Js.seq st "feature_extraction"); [eexists; reflexivity |].
  destruct (Js.seq st "training"); [eexists; reflexivity |].
  destruct (Js.seq st "finetuning"); [eexists; reflexivity |].
  rewrite Tc, Tf. eexists; reflexivity.
Qed.

(** The switch has no effect on the outside world. *)
Lemma trainingSwitch_silent (st : string) (c : bool) (h : Home) :
  trace_of (trainingSwitch model st c h) = [].
Proof.
  unfold trainingSwitch.
  repeat match goal with
         | |- context [if ?b then _ else _] => destruct b
         end; reflexivity.
Qed.

(** A progressing answer costs one query and one attempt. *)
Lemma trainingPollBody_progressing r (a : Z) (h : Home) :
  progressing r = true ->
  exists h',
    trainingPollBody model r false a h
    = (Ret (false, a + 1), h', [Wait 10000; HttpGet (trainingStatusUrl model)]).
Proof.
  destruct r as [resp | e]; simpl; [| discriminate].
  intros P. apply andb_true_iff in P. destruct P as [S T].
  apply negb_true_iff in T.
  destruct (trainingSwitch_progressing (ts_model_status resp) false h T) as [h' E].
  exists h'. unfold trainingPollBody. run. rewrite S. cbn [negb].
  unfold bind. rewrite E. reflexivity.
Qed.

(** An answer with [success: false] is logged and the iteration ends
    at [continue]: same state, same [attempts]. *)
Lemma trainingPollBody_unsuccessful resp (c : bool) (a : Z) (h : Home) :
  ts_success resp = false ->
  trainingPollBody model (Resolved resp) c a h
  = (Ret (c, a), h,
     [Wait 10000; HttpGet (trainingStatusUrl model);
      ConsoleError "Error checking training status:"]).
Proof.
  intros S. unfold trainingPollBody. run. rewrite S. reflexivity.
Qed.

(** A rejected request leaves the iteration by the exception. *)
Lemma trainingPollBody_rejected e (c : bool) (a : Z) (h : Home) :
  trainingPollBody model (Rejected e) c a h
  = (Throw e, h, [Wait 10000; HttpGet (trainingStatusUrl model)]).
Proof. reflexivity. Qed.

(** Every iteration issues exactly one status query. *)
Lemma trainingPollBody_one_query r c a h :
  queries (trace_of (trainingPollBody model r c a h)) = 1%nat.
Proof.
  destruct r as [resp | e]; [| reflexivity].
  unfold trainingPollBody. run.
  destruct (ts_success resp); cbn [negb]; [| reflexivity].
  pose proof (trainingSwitch_silent (ts_model_status resp) c h) as Q.
  unfold bind.
  destruct (trainingSwitch model (ts_model_status resp) c h) as [[o h'] t].
  simpl in Q. subst t. destruct o; reflexivity.
Qed.

(** An iteration adds at most one to [attempts]. *)
Lemma trainingPollBody_attempts r c a h c' a' h' t :
  trainingPollBody model r c a h = (Ret (c', a'), h', t) -> a' <= a + 1.
Proof.
  destruct r as [resp | e]; [| discriminate].
  unfold trainingPollBody. run.
  destruct (ts_success resp); cbn [negb].
  - unfold bind.
    destruct (trainingSwitch model (ts_model_status resp) c h) as [[o h1] t1].
    destruct o; intros E; inversion E; lia.
  - intros E; inversion E; lia.
Qed.

Lemma trainingPoll_cons r rest (a : Z) (h : Home) :
  a < 30 ->
  trainingPoll model (r :: rest) false a h
  = bind (trainingPollBody model r false a)
      (fun vars => trainingPoll model rest (fst vars) (snd vars)) h.
Proof.
  intros Ha. simpl. destruct (Z.ltb_spec a 30); [reflexivity | lia].
Qed.

Lemma trainingPoll_done answers (c : bool) (a : Z) (h : Home) :
  negb c && (a <? 30) = false ->
  trainingPoll model answers c a h = (Ret c, h, []).
Proof. intros E. destruct answers; simpl; rewrite E; reflexivity. Qed.

(** With answers that never report a terminal status, the loop issues
    exactly the queries that are left of the 30 and then ends with
    [isCompleted = false]. *)
Lemma trainingPoll_exactly_30 answers :
  forall (a : Z) (h : Home),
    0 <= a <= 30 ->
    forallb progressing answers = true ->
    (Z.to_nat (30 - a) <= List.length answers)%nat ->
    exists h',
      trainingPoll model answers false a h
      = (Ret false, h', pollRounds model (Z.to_nat (30 - a))).
Proof.
  induction answers as [| r rest IH]; intros a h Ha P L.
  - cbn [List.length] in L. assert (a = 30) as -> by lia.
    exists h. reflexivity.
  - destruct (Z.eq_dec a 30) as [-> | Na].
    + exists h. apply trainingPoll_done; reflexivity.
    + simpl in P. apply andb_true_iff in P. destruct P as [Pr Prest].
      destruct (trainingPollBody_progressing r a h Pr) as [h1 E1].
      destruct (IH (a + 1) h1 ltac:(lia) Prest) as (h' & E).
      { cbn [List.length] in L. lia. }
      exists h'.
      rewrite trainingPoll_cons by lia. unfold bind at 1.
      rewrite E1. simpl fst. simpl snd. rewrite E.
      replace (Z.to_nat (30 - a)) with (S (Z.to_nat (30 - (a + 1)))) by lia.
      reflexivity.
Qed.

Lemma queries_pollRounds (n : nat) : queries (pollRounds model n) = n.
Proof.
  unfold queries, pollRounds.
  induction n as [| n IH]; [reflexivity |].
  simpl. now rewrite IH.
Qed.

(** The loop never gives up (ends with [isCompleted = false]) before
    the queries that are left of the 30 were issued. *)
Lemma trainingPoll_timeout_needs_30 answers :
  forall (c : bool) (a : Z) (h h' : Home) t,
    trainingPoll model answers c a h = (Ret false, h', t) ->
    c = false /\ (Z.to_nat (30 - a) <= queries t)%nat.
Proof.
  induction answers as [| r rest IH]; intros c a h h' t E.
  - simpl in E. destruct c; simpl in E.
    + inversion E.
    + destruct (Z.ltb_spec a 30); inversion E. split; [reflexivity |].
      unfold queries. cbn [filter List.length]. lia.
  - simpl in E. destruct c; simpl in E; [inversion E |].
    destruct (Z.ltb_spec a 30) as [Ha | Ha].
    + unfold bind at 1 in E.
      pose proof (trainingPollBody_one_query r false a h) as Q1.
      destruct (trainingPollBody model r false a h) as [[o h1] t1] eqn:B.
      destruct o as [[c1 a1] | e |]; try discriminate.
      apply trainingPollBody_attempts in B.
      simpl fst in E. simpl snd in E.
      destruct (trainingPoll model rest c1 a1 h1) as [[o2 h2] t2] eqn:R.
      inversion E; subst. destruct (IH _ _ _ _ _ R) as [_ Q2].
      split; [reflexivity |].
      unfold queries, trace_of in *. simpl in Q1.
      rewrite filter_app, length_app. lia.
    + inversion E. split; [reflexivity |].
      unfold queries. cbn [filter List.length]. lia.
Qed.

(** Answers with [success: false] alone never end the loop, however
    many of them arrive: each is queried for, none is counted. *)
Lemma trainingPoll_unsuccessful_forever resp (n : nat) (a : Z) (h : Home) :
  ts_success resp = false -> a < 30 ->
  exists t,
    trainingPoll model (repeat (Resolved resp) n) false a h = (Pending, h, t) /\
    queries t = n.
Proof.
  intros S Ha. induction n as [| n IH].
  - exists []. simpl. destruct (Z.ltb_spec a 30); [split; reflexivity | lia].
  - destruct IH as (t & E & Q).
    exists ([Wait 10000; HttpGet (trainingStatusUrl model);
             ConsoleError "Error checking training status:"] ++ t).
    split.
    + simpl repeat. rewrite trainingPoll_cons by lia. unfold bind at 1.
      rewrite trainingPollBody_unsuccessful by exact S.
      simpl fst. simpl snd. rewrite E. reflexivity.
    + unfold queries in *. simpl. rewrite Q. reflexivity.
Qed.

End TrainingLoop.

(** Once both launch requests are accepted, [startTraining] is its poll
    loop followed by the end of the handler. *)
Lemma startTraining_after_launch up st answers (h : Home) :
  (3 <= List.length (trainingImages h))%nat ->
  tm_success up = true -> tm_success st = true ->
  startTraining (Resolved up) (Resolved st) answers h
  = prepend launchRequests
      (trainingEnd (trainingPoll (tm_model_id up) answers false 0 (pollingState h))).
Proof.
  intros L Hup Hst. unfold startTraining. run.
  destruct (Z.ltb_spec (Z.of_nat (List.length (trainingImages h))) 3) as [C | _];
    [lia |].
  run. unfold try_catch. run. rewrite Hup. cbn [negb]. run.
  rewrite Hst. cbn [negb]. run.
  fold (pollingState h). unfold bind at 1.
  destruct (trainingPoll (tm_model_id up) answers false 0 (pollingState h))
    as [[o h'] t].
  destruct o as [[|] | e |]; cbn; rewrite ?app_nil_r; reflexivity.
Qed.

(** With three assets or more the controller does go to the network:
    its first effect is the upload request. *)
Lemma startTraining_uploads up st answers (h : Home) :
  (3 <= List.length (trainingImages h))%nat ->
  exists t,
    trace_of (startTraining up st answers h)
    = HttpPost (api ++ "/upload-training")%string :: t.
Proof.
  intros L. unfold startTraining. run.
  destruct (Z.ltb_spec (Z.of_nat (List.length (trainingImages h))) 3) as [C | _];
    [lia |].
  run. unfold try_catch.
  destruct up as [u | e].
  - run.
    match goal with
    | |- context [prepend ?l ?r] => destruct r as [[o h'] t]
    end.
    destruct o; cbn; eexists; reflexivity.
  - run. cbn. eexists; reflexivity.
Qed.

(** When every status answer reports a non-terminal phase, the
    controller issues exactly 30 status queries and then reports the
    time-out. *)
Lemma startTraining_times_out_after_30 up st answers (h : Home) :
  (3 <= List.length (trainingImages h))%nat ->
  tm_success up = true -> tm_success st = true ->
  forallb progressing answers = true ->
  (30 <= List.length answers)%nat ->
  let r := startTraining (Resolved up) (Resolved st) answers h in
  outcome_of r = Ret tt /\
  error (home_of r) = Some timedOutMessage /\
  trainingInProgress (home_of r) = false /\
  trace_of r
  = launchRequests ++ pollRounds (tm_model_id up) 30
      ++ [ConsoleError "Error training model:"] /\
  queries (trace_of r) = 30%nat.
Proof.
  intros L Hup Hst P N r. subst r.
  rewrite startTraining_after_launch by assumption.
  destruct (trainingPoll_exactly_30 (tm_model_id up) answers 0 (pollingState h)
              ltac:(lia) P ltac:(simpl; lia)) as (h' & E).
  rewrite E. change (Z.to_nat (30 - 0)) with 30%nat.
  unfold trainingEnd, prepend, outcome_of, home_of, trace_of.
  cbn [fst snd]. split; [reflexivity |]. split; [reflexivity |].
  split; [reflexivity |]. split; [reflexivity |].
  unfold queries. rewrite !filter_app, !length_app.
  fold (queries (pollRounds (tm_model_id up) 30)).
  rewrite queries_pollRounds. reflexivity.
Qed.

(** C1: evaluation at the failing input.  One status answer with
    [success: false] followed by thirty "training" answers: the
    controller sends 31 status queries before it reports the time-out
    (the unsuccessful answer leaves the loop body at [continue], before
    [attempts++]). *)
Theorem C1_unsuccessful_answer_extends_polling :
  let r := startTraining Sample.accepted Sample.accepted
             (Sample.unsuccessful :: repeat (Sample.phase "training") 30)
             Sample.threeAssets in
  outcome_of r = Ret tt /\
  error (home_of r) = Some timedOutMessage /\
  queries (trace_of r) = 31%nat.
Proof. vm_compute. repeat split. Qed.

(** C2, as the claim states it, fails: a status query that fails at the
    transport level (the request is rejected) ends the loop.  The second
    of 42 scripted answers is rejected: two queries are sent, the other
    forty answers are never asked for, and the controller leaves the
    in-progress state with the error of the request. *)
Lemma C2_counterexample :
  let r := startTraining Sample.accepted Sample.accepted
             (Sample.phase "training" :: Sample.networkError
                :: repeat (Sample.phase "training") 40)
             Sample.threeAssets in
  outcome_of r = Ret tt /\
  queries (trace_of r) = 2%nat /\
  error (home_of r) = Some "Network Error" /\
  trainingInProgress (home_of r) = false.
Proof. vm_compute. repeat split. Qed.

(** C2 (amended): a status answer that reports [success: false] is
    logged and skipped: the iteration ends normally, with [isCompleted]
    and the whole component state unchanged, so the loop goes on with the
    next query.  A status query that is rejected at the transport level
    is not handled inside the loop: it ends the loop at once, whatever
    answers would follow, and the controller logs it, reports its message
    as the error and leaves the in-progress state. *)
Theorem C2_failed_status_query (model : string) (attempts : Z) (h : Home) :
  (forall resp isCompleted,
     ts_success resp = false ->
     exists attempts',
       trainingPollBody model (Resolved resp) isCompleted attempts h
       = (Ret (isCompleted, attempts'), h,
          [Wait 10000; HttpGet (trainingStatusUrl model);
           ConsoleError "Error checking training status:"])) /\
  (forall e rest,
     attempts < 30 ->
     trainingPoll model (Rejected e :: rest) false attempts h
     = (Throw e, h, [Wait 10000; HttpGet (trainingStatusUrl model)])) /\
  (forall up st e rest,
     (3 <= List.length (trainingImages h))%nat ->
     tm_success up = true -> tm_success st = true ->
     let r := startTraining (Resolved up) (Resolved st) (Rejected e :: rest) h in
     outcome_of r = Ret tt /\
     queries (trace_of r) = 1%nat /\
     In (ConsoleError "Error training model:") (trace_of r) /\
     error (home_of r) = Some (message_or e "Failed to train custom model") /\
     trainingInProgress (home_of r) = false).
Proof.
  split; [| split].
  - intros resp c S. exists attempts.
    apply trainingPollBody_unsuccessful; exact S.
  - intros e rest Ha. rewrite trainingPoll_cons by exact Ha. reflexivity.
  - intros up st e rest L Hup Hst r. subst r.
    rewrite startTraining_after_launch by assumption.
    rewrite trainingPoll_cons by lia.
    cbn. repeat split. right; right; right; right. left. reflexivity.
Qed.

Lemma C2_failed_status_query_witness :
  (exists attempts',
     trainingPollBody "model-1" Sample.unsuccessful false 7 Sample.threeAssets
     = (Ret (false, attempts'), Sample.threeAssets,
        [Wait 10000; HttpGet (trainingStatusUrl "model-1");
         ConsoleError "Error checking training status:"])) /\
  trainingPoll "model-1" [Sample.networkError; Sample.phase "completed"] false 7
    Sample.threeAssets
  = (Throw (ErrorObj "Network Error"), Sample.threeAssets,
     [Wait 10000; HttpGet (trainingStatusUrl "model-1")]) /\
  error (home_of (startTraining Sample.accepted Sample.accepted
                    [Sample.networkError; Sample.phase "completed"]
                    Sample.threeAssets))
  = Some "Network Error".
Proof.
  destruct (C2_failed_status_query "model-1" 7 Sample.threeAssets)
    as (Hskip & Hthrow & Hend).
  split; [| split].
  - apply (Hskip (mkTrainingStatusResponse false "" (Some "temporarily unavailable"))).
    reflexivity.
  - apply Hthrow. lia.
  - apply (Hend (mkTrainingModelResponse true "model-1" None)
                (mkTrainingModelResponse true "model-1" None)
                (ErrorObj "Network Error") [Sample.phase "completed"]);
      [simpl; lia | reflexivity | reflexivity].
Defined.

(** C9: with fewer than three training assets [startTraining] only sets
    the error message: it has no effect on the outside world (no upload,
    no start request, no status query), and the training state (in
    progress flag, progress, model id, assets) is as before. *)
Theorem C9_training_needs_three_assets
    (upload start : NetResult TrainingModelResponse)
    (answers : list (NetResult TrainingStatusResponse)) (h : Home) :
  (List.length (trainingImages h) < 3)%nat ->
  let r := startTraining upload start answers h in
  outcome_of r = Ret tt /\
  trace_of r = [] /\
  error (home_of r) = Some "Please upload at least 3 images or videos for training" /\
  trainingInProgress (home_of r) = trainingInProgress h /\
  trainingProgress (home_of r) = trainingProgress h /\
  modelId (home_of r) = modelId h /\
  trainingImages (home_of r) = trainingImages h.
Proof.
  intros L r. subst r. unfold startTraining. run.
  destruct (Z.ltb_spec (Z.of_nat (List.length (trainingImages h))) 3) as [_ | C];
    [| lia].
  cbn. repeat split.
Qed.

Lemma C9_training_needs_three_assets_witness :
  (List.length (trainingImages Sample.twoAssets) < 3)%nat /\
  trace_of (startTraining Sample.accepted Sample.accepted
              (repeat (Sample.phase "completed") 5) Sample.twoAssets) = [] /\
  trainingInProgress
    (home_of (startTraining Sample.accepted Sample.accepted
                (repeat (Sample.phase "completed") 5) Sample.twoAssets)) = false.
Proof.
  assert (L : (List.length (trainingImages Sample.twoAssets) < 3)%nat)
    by (simpl; lia).
  destruct (C9_training_needs_three_assets Sample.accepted Sample.accepted
              (repeat (Sample.phase "completed") 5) Sample.twoAssets L)
    as (_ & T & _ & P & _).
  split; [exact L |]. split; [exact T | exact P].
Defined.

(* ===================================================================== *)
(** * Properties: generic job status polling                              *)
(* ===================================================================== *)


Lemma jobPollRun_no_interval answers (h : Home) : jobPollRun answers None h = [].
Proof. destruct answers; reflexivity. Qed.

Section JobPollTick.

Variables (job : string) (h : Home).

(** A read of a non-terminal status only replaces the job status. *)
Lemma jobPollTick_running d :
  terminalStatus (status d) = false ->
  jobPollTick job (Resolved d) h
  = (Ret false, with_jobStatus (Some d) h, [HttpGet (statusUrl job)]).
Proof.
  intros T. unfold jobPollTick, try_catch. run. rewrite T. run. reflexivity.
Qed.

(** A read of a terminal status clears the interval and [loading]. *)
Lemma jobPollTick_terminal d :
  terminalStatus (status d) = true ->
  exists h',
    jobPollTick job (Resolved d) h = (Ret true, h', [HttpGet (statusUrl job)]) /\
    jobStatus h' = Some d /\ loading h' = false /\ jobId h' = jobId h.
Proof.
  intros T. unfold jobPollTick, try_catch. run. rewrite T. run.
  unfold when. destruct (Js.seq (status d) "failed"); run;
    eexists; (split; [reflexivity | repeat split]).
Qed.

(** A rejected query clears the interval and [loading] and sets the
    generic status-check error; the job status is left as it was. *)
Lemma jobPollTick_rejected e :
  jobPollTick job (Rejected e) h
  = (Ret true,
     with_error (Some "Failed to check video generation status")
       (with_loading false h),
     [HttpGet (statusUrl job); ConsoleError "Error checking job status:"]).
Proof. reflexivity. Qed.

End JobPollTick.

(** After a tick the panel shows a progress value only if the tick read
    it from the endpoint. *)
Lemma displayed_after_tick job r (h h' : Home) o t p :
  jobPollTick job r h = (o, h', t) ->
  displayedProgress h' = Some p ->
  exists d, r = Resolved d /\ progress d = p.
Proof.
  intros E D. destruct r as [d | e].
  - exists d. split; [reflexivity |].
    destruct (terminalStatus (status d)) eqn:T.
    + destruct (jobPollTick_terminal job h d T) as (h1 & E1 & J & L & _).
      rewrite E1 in E. inversion E; subst.
      unfold displayedProgress in D. rewrite J, L in D. discriminate.
    + rewrite (jobPollTick_running job h d T) in E. inversion E; subst.
      unfold displayedProgress in D. simpl in D.
      destruct (loading h && negb (Js.seq (status d) "completed")
                && negb (Js.seq (status d) "failed")); congruence.
  - rewrite jobPollTick_rejected in E. inversion E; subst.
    unfold displayedProgress in D. simpl in D.
    destruct (jobStatus h); discriminate.
Qed.

Lemma shownProgress_cons (h' : Home) (t : list event) rest :
  shownProgress ((h', t) :: rest)
  = match displayedProgress h' with
    | Some p => p :: shownProgress rest
    | None => shownProgress rest
    end.
Proof.
  unfold shownProgress. simpl. destruct (displayedProgress h'); reflexivity.
Qed.

(** Every progress value the panel shows during a run was reported by
    the endpoint during that run. *)
Lemma shownProgress_reported answers :
  forall interval (h : Home) x,
    In x (shownProgress (jobPollRun answers interval h)) ->
    In x (reportedProgress answers).
Proof.
  induction answers as [| r rest IH]; intros interval h x Hin.
  - destruct Hin.
  - destruct interval as [job |]; [| destruct Hin].
    simpl in Hin.
    destruct (jobPollTick job r h) as [[o h'] t] eqn:E.
    rewrite shownProgress_cons in Hin.
    destruct (displayedProgress h') as [p |] eqn:D.
    + destruct (displayed_after_tick _ _ _ _ _ _ _ E D) as (d & -> & <-).
      destruct Hin as [<- | Hin]; [left; reflexivity |].
      right. eapply IH; exact Hin.
    + unfold reportedProgress. simpl. apply in_or_app. right.
      eapply IH; exact Hin.
Qed.

Lemma shownProgress_sorted answers :
  forall interval (h : Home),
    StronglySorted Z.le (reportedProgress answers) ->
    StronglySorted Z.le (shownProgress (jobPollRun answers interval h)).
Proof.
  induction answers as [| r rest IH]; intros interval h S.
  - constructor.
  - destruct interval as [job |]; [| constructor].
    simpl.
    destruct (jobPollTick job r h) as [[o h'] t] eqn:E.
    rewrite shownProgress_cons.
    destruct (displayedProgress h') as [p |] eqn:D.
    + destruct (displayed_after_tick _ _ _ _ _ _ _ E D) as (d & -> & <-).
      unfold reportedProgress in S. simpl in S. inversion S as [| ? ? S' F]; subst.
      constructor; [apply IH; exact S' |].
      apply Forall_forall. intros x Hx.
      rewrite Forall_forall in F. apply F.
      eapply shownProgress_reported; exact Hx.
    + apply IH. destruct r as [d | e]; [| exact S].
      unfold reportedProgress in S. simpl in S. now inversion S.
Qed.

(** C3, as the claim states it, fails: the poller stores each read as it
    comes.  While the job is "generating_video" the endpoint reports 40
    and then 30: the panel shows 40% and then 30%. *)
Lemma C3_counterexample :
  map (fun x => displayedProgress (fst x))
    (jobPoll [Sample.job "generating_video" 40; Sample.job "generating_video" 30]
       Sample.watching)
  = [Some 40; Some 30].
Proof. reflexivity. Qed.

(** C3 (amended): the poller forwards each successful read unchanged, so
    the progress values shown while the job is not terminal are values
    the endpoint reported, in the order it reported them; consecutive
    values shown are non-decreasing whenever the values reported by the
    endpoint are non-decreasing.  The client itself does not prevent a
    regression. *)
Theorem C3_progress_follows_reports
    (answers : list (NetResult JobStatus)) (h : Home) :
  Sorted Z.le (reportedProgress answers) ->
  Sorted Z.le (shownProgress (jobPoll answers h)).
Proof.
  intros S. apply StronglySorted_Sorted. apply shownProgress_sorted.
  apply Sorted_StronglySorted; [| exact S].
  intros x y z; apply Z.le_trans.
Qed.

Lemma C3_progress_follows_reports_witness :
  shownProgress
    (jobPoll [Sample.job "generating_script" 10; Sample.job "generating_video" 40;
              Sample.job "generating_video" 40; Sample.job "finalizing" 90;
              Sample.job "completed" 100] Sample.watching)
  = [10; 40; 40; 90] /\
  Sorted Z.le
    (shownProgress
       (jobPoll [Sample.job "generating_script" 10; Sample.job "generating_video" 40;
                 Sample.job "generating_video" 40; Sample.job "finalizing" 90;
                 Sample.job "completed" 100] Sample.watching)).
Proof.
  split; [reflexivity |].
  apply C3_progress_follows_reports.
  simpl. repeat constructor; lia.
Defined.

(** ** Stopping at a terminal status *)

Lemma terminal_effect_none (h : Home) d :
  jobStatus h = Some d -> terminalStatus (status d) = true ->
  jobPollEffect h = None.
Proof.
  intros J T. unfold jobPollEffect, statusOf. rewrite J. simpl.
  destruct (jobId h) as [j |]; [| reflexivity].
  unfold terminalStatus in T. apply orb_true_iff in T.
  destruct T as [T | T]; rewrite T; simpl;
    rewrite ?andb_false_r; reflexivity.
Qed.

(** The polling effect of the component stops at the first terminal
    status it reads: that tick is the last one, whatever answers the
    endpoint would still give. *)
Lemma jobPollRun_stops_at_terminal job d rest (h : Home) :
  terminalStatus (status d) = true ->
  exists h',
    jobPollRun (Resolved d :: rest) (Some job) h = [(h', [HttpGet (statusUrl job)])] /\
    jobStatus h' = Some d /\ loading h' = false.
Proof.
  intros T.
  destruct (jobPollTick_terminal job h d T) as (h' & E & J & L & _).
  exists h'. split; [| split; assumption].
  simpl. rewrite E.
  rewrite (terminal_effect_none h' d J T).
  destruct (sameDeps h h'); rewrite jobPollRun_no_interval; reflexivity.
Qed.


Lemma checkStatus_terminal job d (h : Home) :
  terminalStatus (status d) = true ->
  exists h' t,
    checkStatus job (Resolved d) h = (Ret false, h', t) /\ queries t = 1%nat.
Proof.
  intros T. unfold checkStatus, try_catch. run. rewrite T. run.
  unfold when.
  destruct (result d) as [res |]; run;
    [ destruct (Js.seq (status d) "completed"); run;
      [ destruct (is_true (used_custom_model res));
        destruct (is_true (used_custom_voice res)); run |] |];
    do 2 eexists; split; reflexivity.
Qed.

(** [startCheckingStatus] stops at the first terminal status too. *)
Lemma startCheckingStatus_stops_at_terminal job d rest (h : Home) :
  terminalStatus (status d) = true ->
  queries (trace_of (startCheckingStatus job (Resolved d :: rest) h)) = 1%nat /\
  outcome_of (startCheckingStatus job (Resolved d :: rest) h) = Ret tt.
Proof.
  intros T. destruct (checkStatus_terminal job d h T) as (h' & t & E & Q).
  assert (R : startCheckingStatus job (Resolved d :: rest) h = (Ret tt, h', t)).
  { cbn [startCheckingStatus]. unfold bind at 1. rewrite E.
    cbn. now rewrite app_nil_r. }
  rewrite R. split; [exact Q | reflexivity].
Qed.

(** ** The ad poll *)

Lemma adCheckStatus_one_query job r (h : Home) :
  exists h' t,
    adCheckStatus job r h = (Ret tt, h', t) /\ queries t = 1%nat.
Proof.
  destruct r as [d | e].
  - unfold adCheckStatus, try_catch. run. unfold when.
    destruct (terminalStatus (status d)); run; do 2 eexists; split; reflexivity.
  - do 2 eexists. split; reflexivity.
Qed.

(** Before the five-minute timer fires the ad interval sends one query
    for every tick, whatever the ticks before it have read. *)
Lemma adInterval_polls_every_tick job answers :
  forall (elapsed : Z) (h : Home),
    elapsed + 2000 * Z.of_nat (List.length answers) < 298000 ->
    exists h' t,
      adInterval job answers elapsed h = (Pending, h', t) /\
      queries t = List.length answers.
Proof.
  induction answers as [| r rest IH]; intros elapsed h B.
  - exists h, []. simpl in *.
    destruct (Z.ltb_spec (elapsed + 2000) 300000); [split; reflexivity | lia].
  - cbn [List.length] in B.
    destruct (adCheckStatus_one_query job r h) as (h1 & t1 & E1 & Q1).
    destruct (IH (elapsed + 2000) h1 ltac:(lia)) as (h' & t & E & Q).
    exists h', (Wait 2000 :: t1 ++ t). split.
    + cbn [adInterval].
      destruct (Z.ltb_spec (elapsed + 2000) 300000); [| lia].
      run. unfold bind at 1. rewrite E1. rewrite E. reflexivity.
    + unfold queries in *. cbn [filter is_get].
      rewrite filter_app, length_app, Q1, Q. reflexivity.
Qed.

(** C5: evaluation at the failing input.  The ad job is already
    "completed" at the first check of [handleAdGeneration]; the interval
    created next is cleared only by the five-minute timer, so the two
    ticks that follow query the status of the finished job again (three
    queries in all, and the loop is still alive, waiting for the next
    tick). *)
Theorem C5_ad_poll_continues_after_terminal :
  let r := handleAdGeneration (Resolved (mkAdResponse true "job-1"))
             [Sample.job "completed" 100; Sample.job "completed" 100;
              Sample.job "completed" 100]
             Sample.adForm in
  outcome_of r = Pending /\
  queries (trace_of r) = 3%nat /\
  trace_of r
  = [HttpPost (api ++ "/generate-ad")%string;
     HttpGet (statusUrl "job-1");
     Wait 2000; HttpGet (statusUrl "job-1");
     Wait 2000; HttpGet (statusUrl "job-1")].
Proof. vm_compute. repeat split. Qed.

(** C6: evaluation at the failing input.  The first status query of
    [startCheckingStatus] is rejected: polling stops (one query, no
    rescheduling) and [loading] is cleared, but no error message is set
    and no failed job is recorded. *)
Theorem C6_startCheckingStatus_sets_no_error :
  let r := startCheckingStatus "job-1"
             [Sample.networkError; Sample.job "completed" 100]
             Sample.launched in
  outcome_of r = Ret tt /\
  trace_of r = [HttpGet (statusUrl "job-1"); ConsoleError "Error checking job status:"] /\
  loading (home_of r) = false /\
  error (home_of r) = None /\
  jobStatus (home_of r) = None.
Proof. vm_compute. repeat split. Qed.

(** The same holds from every state: a rejected query ends
    [startCheckingStatus] with [loading] cleared and nothing else
    changed. *)
Lemma startCheckingStatus_rejected job e rest (h : Home) :
  startCheckingStatus job (Rejected e :: rest) h
  = (Ret tt, with_loading false h,
     [HttpGet (statusUrl job); ConsoleError "Error checking job status:"]).
Proof. reflexivity. Qed.

(* ===================================================================== *)
(** * Properties: voice capture and clone coordinator                     *)
(* ===================================================================== *)

Lemma truthy_nonempty (s : string) : Js.truthy s = true <-> s <> "".
Proof.
  unfold Js.truthy. destruct (String.eqb_spec s ""); simpl; split;
    congruence.
Qed.

(** The id of a new voice entry is never empty: an absent or empty
    [voice_id] is replaced by "custom-<timestamp>". *)
Lemma newVoice_id_nonempty (now : Z) (r : VoiceUploadResponse) :
  id (newVoice now r) <> "".
Proof.
  unfold newVoice, Js.or_else. simpl.
  destruct (vu_voice_id r) as [s |]; [| discriminate].
  destruct (Js.truthy s) eqn:T; [| discriminate].
  now apply truthy_nonempty.
Qed.

(** Appending the entry and selecting it. *)
Lemma useUploadedVoice_run (now : Z) (r : VoiceUploadResponse) (h : Home) :
  useUploadedVoice now r h
  = (Ret tt,
     with_selectedVoice (Some (id (newVoice now r)))
       (with_uploadedVoices (uploadedVoices h ++ [newVoice now r]) h),
     []).
Proof.
  unfold useUploadedVoice. cbv zeta. run.
  pose proof (proj2 (truthy_nonempty _) (newVoice_id_nonempty now r)) as T.
  rewrite T. reflexivity.
Qed.

(** C10: a successful upload response that becomes a voice entry
    (a dropped file, or a recording whose cloning was declined) yields an
    entry with a non-empty id, which is "custom-<timestamp>" when the
    response has no [voice_id]; the entry is appended to the uploaded
    voices, all earlier entries kept in place, and its id becomes the
    selected voice. *)
Theorem C10_uploaded_voice_entry (now : Z) (r : VoiceUploadResponse) (h : Home) :
  vu_success r = true ->
  id (newVoice now r) <> "" /\
  (vu_voice_id r = None ->
     id (newVoice now r) = ("custom-" ++ Js.toString now)%string) /\
  (forall f files,
     let h' := home_of (handleVoiceUpload (f :: files) now (Resolved r) h) in
     uploadedVoices h' = uploadedVoices h ++ [newVoice now r] /\
     selectedVoice h' = Some (id (newVoice now r))) /\
  (forall nameAnswer clone voices,
     let h' := home_of (uploadVoiceRecording now (Resolved r) false
                          nameAnswer clone voices h) in
     uploadedVoices h' = uploadedVoices h ++ [newVoice now r] /\
     selectedVoice h' = Some (id (newVoice now r))).
Proof.
  intros S. split; [apply newVoice_id_nonempty |]. split; [| split].
  - intros V. unfold newVoice. simpl. rewrite V. reflexivity.
  - intros f files h'. subst h'.
    unfold handleVoiceUpload, try_catch. run. rewrite S. unfold when.
    rewrite useUploadedVoice_run. split; reflexivity.
  - intros nameAnswer clone voices h'. subst h'.
    unfold uploadVoiceRecording, try_catch. run. rewrite S. unfold when. run.
    rewrite useUploadedVoice_run. split; reflexivity.
Qed.

Lemma C10_uploaded_voice_entry_witness :
  vu_success Sample.recording = true /\
  uploadedVoices
    (home_of (handleVoiceUpload ["sample.mp3"] 1714000000000
                (Resolved Sample.recording) initialHome))
  = [mkVoiceFile "custom-1714000000000" "recording_1.wav"
       "/api/voices/recording_1.wav"] /\
  selectedVoice
    (home_of (uploadVoiceRecording 1714000000000 (Resolved Sample.recording) false
                None Sample.cloneRefused Sample.noVoices initialHome))
  = Some "custom-1714000000000".
Proof.
  destruct (C10_uploaded_voice_entry 1714000000000 Sample.recording initialHome
              eq_refl) as (_ & _ & Hfile & Hrec).
  split; [reflexivity |]. split.
  - destruct (Hfile "sample.mp3" []) as [U _]. rewrite U. reflexivity.
  - destruct (Hrec None Sample.cloneRefused Sample.noVoices) as [_ V].
    rewrite V. reflexivity.
Defined.

(** C8, as the claim states it, fails: when the user accepts cloning the
    raw upload is never entered in a voice list, so after a refused clone
    request the user has been alerted but no voice is listed or
    selected. *)
Lemma C8_counterexample :
  let r := uploadVoiceRecording 1714000000000 (Resolved Sample.recording) true
             (Some "My Custom Voice") Sample.cloneRefused Sample.noVoices
             initialHome in
  In (Alert "Failed to clone voice: quota exceeded") (trace_of r) /\
  uploadedVoices (home_of r) = [] /\
  availableVoices (home_of r) = [] /\
  selectedVoice (home_of r) = None.
Proof. vm_compute. repeat split. do 4 right. left. reflexivity. Qed.

(** A failed clone request: the handler alerts the user and leaves the
    state as it was, but for [loading] and [error]. *)
Lemma cloneVoice_failed (path vname : string)
    (clone : NetResult CloneVoiceResponse) (voices : NetResult VoicesResponse)
    (h : Home) :
  Js.truthy vname = true ->
  cloneFailed clone = true ->
  exists msg t,
    cloneVoice path (Some vname) clone voices h
    = (Ret tt, with_loading false (with_error None (with_loading true h)),
       t ++ [Alert msg]) /\
    String.prefix "Failed to clone voice" msg = true.
Proof.
  intros N F. unfold cloneVoice, try_finally, try_catch. run. rewrite N.
  destruct clone as [c | e]; simpl in F.
  - apply negb_true_iff in F. run. rewrite F. run.
    exists ("Failed to clone voice: " ++ Js.or_else (cv_error c) "Unknown error")%string,
      [Prompt "Enter a name for your cloned voice:";
       HttpPost (api ++ "/clone-voice")%string].
    split; reflexivity.
  - run.
    exists "Failed to clone voice. Please try again.",
      [Prompt "Enter a name for your cloned voice:";
       HttpPost (api ++ "/clone-voice")%string;
       ConsoleError "Error cloning voice:"].
    split; reflexivity.
Qed.

Lemma uploadVoiceRecording_clone (now : Z) (r : VoiceUploadResponse)
    (nameAnswer : option string)
    (clone : NetResult CloneVoiceResponse) (voices : NetResult VoicesResponse)
    (h h' : Home) (t : list event) :
  vu_success r = true ->
  cloneVoice (vu_filepath r) nameAnswer clone voices h = (Ret tt, h', t) ->
  uploadVoiceRecording now (Resolved r) true nameAnswer clone voices h
  = (Ret tt, h',
     HttpPost (api ++ "/upload-voice")%string
       :: Confirm "Voice uploaded successfully! Would you like to clone this voice for high-quality AI narration?"
       :: t).
Proof.
  intros S E. unfold uploadVoiceRecording, try_catch. run. rewrite S.
  unfold when. run. rewrite E. reflexivity.
Qed.

(** C8 (amended): when a clone attempt fails after a successful voice
    upload (cloning accepted, a name given; the clone request is refused
    or rejected), the user is notified by an alert that the clone failed,
    loading is cleared, and the uploaded voices, the available voices and
    the selected voice are exactly what they were before the upload: the
    raw upload is entered in the voice list only when cloning is
    declined. *)
Theorem C8_failed_clone_notifies_and_keeps_lists
    (now : Z) (r : VoiceUploadResponse) (vname : string)
    (clone : NetResult CloneVoiceResponse) (voices : NetResult VoicesResponse)
    (h : Home) :
  vu_success r = true ->
  Js.truthy vname = true ->
  cloneFailed clone = true ->
  let run := uploadVoiceRecording now (Resolved r) true (Some vname) clone voices h in
  outcome_of run = Ret tt /\
  (exists msg, In (Alert msg) (trace_of run) /\
               String.prefix "Failed to clone voice" msg = true) /\
  uploadedVoices (home_of run) = uploadedVoices h /\
  availableVoices (home_of run) = availableVoices h /\
  selectedVoice (home_of run) = selectedVoice h /\
  loading (home_of run) = false.
Proof.
  intros S N F run. subst run.
  destruct (cloneVoice_failed (vu_filepath r) vname clone voices h N F)
    as (msg & t & E & P).
  rewrite (uploadVoiceRecording_clone now r (Some vname) clone voices h _ _ S E).
  split; [reflexivity |]. split; [| repeat split].
  exists msg. split; [| exact P].
  unfold trace_of. simpl. right. right. apply in_or_app. right. left. reflexivity.
Qed.

Lemma C8_failed_clone_notifies_and_keeps_lists_witness :
  vu_success Sample.recording = true /\
  Js.truthy "My Custom Voice" = true /\
  cloneFailed Sample.cloneRefused = true /\
  uploadedVoices
    (home_of (uploadVoiceRecording 1714000000000 (Resolved Sample.recording) true
                (Some "My Custom Voice") Sample.cloneRefused Sample.noVoices
                initialHome))
  = [].
Proof.
  repeat (split; [reflexivity |]).
  destruct (C8_failed_clone_notifies_and_keeps_lists 1714000000000 Sample.recording
              "My Custom Voice" Sample.cloneRefused Sample.noVoices initialHome
              eq_refl eq_refl eq_refl) as (_ & _ & U & _).
  rewrite U. reflexivity.
Defined.

(* ===================================================================== *)
(** * Further properties: training assets                                 *)
(* ===================================================================== *)

Lemma with_trainingImages_same (h : Home) :
  with_trainingImages (trainingImages h) h = h.
Proof. destruct h; reflexivity. Qed.

Lemma newImages_length files : forall k stamp,
  List.length (newImages files k stamp) = List.length files.
Proof.
  induction files as [| f rest IH]; intros k stamp; simpl;
    [reflexivity | now rewrite IH].
Qed.

Lemma newImages_nth files : forall k stamp n f,
  nth_error files n = Some f ->
  nth_error (newImages files k stamp) n
  = Some {| ti_id := imageId (fst (stamp (k + n)%nat)) (snd (stamp (k + n)%nat));
            ti_file := file_name f;
            ti_type := mediaTypeOf f |}.
Proof.
  induction files as [| f0 rest IH]; intros k stamp n f E.
  - destruct n; discriminate.
  - destruct n as [| n]; simpl in *.
    + inversion E; subst. now rewrite Nat.add_0_r.
    + rewrite (IH (S k) stamp n f E).
      now replace (S k + n)%nat with (k + S n)%nat by lia.
Qed.

(** X1: dropping files on the training zone adds one asset per file
    after the assets already there, which keep their places; the [n]-th
    new asset carries the name of the [n]-th file, the id drawn for it,
    and the type "image" exactly when the MIME type of the file starts
    with "image/".  Nothing is sent to the server. *)
Theorem X1_upload_appends_assets
    (acceptedFiles : list File) (stamp : nat -> Z * string) (h : Home) :
  let r := handleTrainingImagesUpload acceptedFiles stamp h in
  let after := trainingImages (home_of r) in
  trace_of r = [] /\
  List.length after
  = (List.length (trainingImages h) + List.length acceptedFiles)%nat /\
  firstn (List.length (trainingImages h)) after = trainingImages h /\
  (forall n file,
     nth_error acceptedFiles n = Some file ->
     exists img,
       nth_error after (List.length (trainingImages h) + n) = Some img /\
       ti_file img = file_name file /\
       ti_id img = imageId (fst (stamp n)) (snd (stamp n)) /\
       (ti_type img = image <-> String.prefix "image/" (file_type file) = true)).
Proof.
  cbv zeta. unfold handleTrainingImagesUpload, setTrainingImages, modify,
    home_of, trace_of. simpl.
  split; [reflexivity |]. split; [| split].
  - now rewrite length_app, newImages_length.
  - rewrite firstn_app, Nat.sub_diag, firstn_all. simpl. apply app_nil_r.
  - intros n file E. eexists. split.
    + rewrite nth_error_app2 by lia.
      replace (List.length (trainingImages h) + n - List.length (trainingImages h))%nat
        with n by lia.
      exact (newImages_nth acceptedFiles 0 stamp n file E).
    + simpl. repeat split; unfold mediaTypeOf;
        destruct (String.prefix "image/" (file_type file)); congruence.
Qed.

Lemma X1_upload_appends_assets_witness :
  trainingImages
    (home_of (handleTrainingImagesUpload [Sample2.photoFile; Sample2.clipFile]
                Sample2.stamp Sample.twoAssets))
  = [Sample.media "a"; Sample.media "b";
     mkTrainingImage "img_1714000000000_ax3f9q2k7" "portrait.png" image;
     mkTrainingImage "img_1714000000001_bx3f9q2k7" "clip.mp4" video] /\
  exists img,
    nth_error
      (trainingImages
         (home_of (handleTrainingImagesUpload [Sample2.photoFile; Sample2.clipFile]
                     Sample2.stamp Sample.twoAssets))) 3 = Some img /\
    ti_file img = "clip.mp4".
Proof.
  split; [reflexivity |].
  destruct (X1_upload_appends_assets [Sample2.photoFile; Sample2.clipFile]
              Sample2.stamp Sample.twoAssets) as (_ & _ & _ & H).
  destruct (H 1%nat Sample2.clipFile eq_refl) as (img & E & F & _).
  exists img. split; [exact E | exact F].
Defined.

Section RemoveAsset.

Variable target : string.

Lemma keep_true img : keep target img = true <-> ti_id img <> target.
Proof.
  unfold keep, Js.seq. destruct (String.eqb_spec (ti_id img) target);
    simpl; split; congruence.
Qed.

Lemma removeTrainingImage_run (h : Home) :
  removeTrainingImage target h
  = (Ret tt, with_trainingImages (filter (keep target) (trainingImages h)) h, []).
Proof. reflexivity. Qed.

Lemma filter_absent (l : list TrainingImage) :
  ~ In target (map ti_id l) -> filter (keep target) l = l.
Proof.
  induction l as [| img l IH]; intros N; [reflexivity |].
  simpl in *.
  assert (K : keep target img = true).
  { apply keep_true. intros E. apply N. left. exact E. }
  rewrite K. rewrite IH; [reflexivity |].
  intros I. apply N. right. exact I.
Qed.

Lemma filter_removes_one (l : list TrainingImage) :
  NoDup (map ti_id l) -> In target (map ti_id l) ->
  S (List.length (filter (keep target) l)) = List.length l.
Proof.
  induction l as [| img l IH]; intros D I; [destruct I |].
  simpl in D, I. inversion D as [| ? ? Nin D']; subst.
  simpl. destruct (keep target img) eqn:K.
  - apply keep_true in K. destruct I as [E | I]; [contradiction |].
    simpl. now rewrite IH.
  - assert (E : ti_id img = target).
    { destruct (String.eqb_spec (ti_id img) target) as [E | N]; [exact E |].
      apply keep_true in N. congruence. }
    rewrite filter_absent; [reflexivity |]. now rewrite <- E.
Qed.

Lemma filter_keeps_nodup (l : list TrainingImage) :
  NoDup (map ti_id l) -> NoDup (map ti_id (filter (keep target) l)).
Proof.
  induction l as [| img l IH]; intros D; [constructor |].
  simpl in D. inversion D as [| ? ? Nin D']; subst.
  simpl. destruct (keep target img); [| now apply IH].
  simpl. constructor; [| now apply IH].
  intros I. apply Nin. apply in_map_iff in I. destruct I as (x & E & Hx).
  apply filter_In in Hx. apply in_map_iff. exists x. tauto.
Qed.

End RemoveAsset.

(** X2: removing a training asset by id.  No asset with that id is left
    and every asset with another id stays; when the ids are distinct and
    the id is present, exactly one asset goes and the ids stay distinct;
    when the id is absent, the list is unchanged. *)
Theorem X2_remove_asset (id0 : string) (h : Home) :
  let h' := home_of (removeTrainingImage id0 h) in
  ~ In id0 (assetIds h') /\
  (forall img, ti_id img <> id0 ->
     (In img (trainingImages h') <-> In img (trainingImages h))) /\
  (~ In id0 (assetIds h) -> h' = h) /\
  (NoDup (assetIds h) -> In id0 (assetIds h) ->
     S (List.length (trainingImages h')) = List.length (trainingImages h) /\
     NoDup (assetIds h')).
Proof.
  cbv zeta. rewrite removeTrainingImage_run. unfold home_of, assetIds. simpl.
  split; [| split; [| split]].
  - intros I. apply in_map_iff in I. destruct I as (x & E & Hx).
    apply filter_In in Hx. destruct Hx as [_ K].
    apply keep_true in K. contradiction.
  - intros img N. rewrite filter_In. rewrite keep_true. tauto.
  - intros N. rewrite filter_absent by exact N. apply with_trainingImages_same.
  - intros D I. split; [now apply filter_removes_one | now apply filter_keeps_nodup].
Qed.

Lemma X2_remove_asset_witness :
  NoDup (assetIds Sample.threeAssets) /\
  In "b" (assetIds Sample.threeAssets) /\
  trainingImages (home_of (removeTrainingImage "b" Sample.threeAssets))
  = [Sample.media "a"; Sample.media "c"] /\
  S (List.length
       (trainingImages (home_of (removeTrainingImage "b" Sample.threeAssets))))
  = List.length (trainingImages Sample.threeAssets).
Proof.
  assert (D : NoDup (assetIds Sample.threeAssets)).
  { unfold assetIds. simpl. repeat constructor; simpl; intuition discriminate. }
  assert (I : In "b" (assetIds Sample.threeAssets)) by (simpl; auto).
  destruct (X2_remove_asset "b" Sample.threeAssets) as (_ & _ & _ & H).
  destruct (H D I) as [L _].
  split; [exact D |]. split; [exact I |]. split; [reflexivity | exact L].
Defined.

(** X3: round trip.  Dropping one file and then removing the asset made
    for it gives back the component state from before the drop, provided
    the id drawn for the file is not the id of an asset already there. *)
Theorem X3_upload_then_remove (file : File) (stamp : nat -> Z * string) (h : Home) :
  ~ In (imageId (fst (stamp 0%nat)) (snd (stamp 0%nat))) (assetIds h) ->
  home_of
    (removeTrainingImage (imageId (fst (stamp 0%nat)) (snd (stamp 0%nat)))
       (home_of (handleTrainingImagesUpload [file] stamp h)))
  = h.
Proof.
  intros N. rewrite removeTrainingImage_run.
  unfold handleTrainingImagesUpload, setTrainingImages, modify, home_of.
  cbn [fst snd trainingImages with_trainingImages newImages].
  rewrite filter_app, (filter_absent _ _ N).
  cbn [filter]. unfold keep at 1. cbn [ti_id].
  unfold Js.seq. rewrite String.eqb_refl. cbn [negb]. rewrite app_nil_r.
  destruct h; reflexivity.
Qed.

Lemma X3_upload_then_remove_witness :
  ~ In "img_1714000000000_ax3f9q2k7" (assetIds Sample.twoAssets) /\
  home_of
    (removeTrainingImage "img_1714000000000_ax3f9q2k7"
       (home_of (handleTrainingImagesUpload [Sample2.photoFile] Sample2.stamp
                   Sample.twoAssets)))
  = Sample.twoAssets.
Proof.
  assert (N : ~ In (imageId (fst (Sample2.stamp 0%nat)) (snd (Sample2.stamp 0%nat)))
                (assetIds Sample.twoAssets)).
  { simpl. intuition discriminate. }
  split; [exact N |].
  exact (X3_upload_then_remove Sample2.photoFile Sample2.stamp Sample.twoAssets N).
Defined.

(* ===================================================================== *)
(** * Further properties: training lifecycle controller                   *)
(* ===================================================================== *)

Lemma startTraining_local_reject up st answers (h : Home) :
  (List.length (trainingImages h) < 3)%nat ->
  startTraining up st answers h
  = (Ret tt,
     with_error (Some "Please upload at least 3 images or videos for training") h,
     []).
Proof.
  intros L. unfold startTraining. run.
  destruct (Z.ltb_spec (Z.of_nat (List.length (trainingImages h))) 3) as [_ | C];
    [reflexivity | lia].
Qed.

(** X4: [startTraining] goes to the network exactly when there are at
    least three training assets: its trace of effects is empty if and
    only if there are fewer than three. *)
Theorem X4_training_network_iff
    (upload start : NetResult TrainingModelResponse)
    (answers : list (NetResult TrainingStatusResponse)) (h : Home) :
  trace_of (startTraining upload start answers h) = [] <->
  (List.length (trainingImages h) < 3)%nat.
Proof.
  split.
  - intros E. destruct (Nat.lt_ge_cases (List.length (trainingImages h)) 3) as [L | G];
      [exact L |].
    destruct (startTraining_uploads upload start answers h G) as [t T].
    rewrite T in E. discriminate.
  - intros L. now rewrite startTraining_local_reject.
Qed.

(** X5: with exactly three assets of distinct ids, removing one of them
    takes the controller below its minimum: a training started next is
    refused at once, with the error message and without any request. *)
Theorem X5_remove_blocks_training (id0 : string)
    (upload start : NetResult TrainingModelResponse)
    (answers : list (NetResult TrainingStatusResponse)) (h : Home) :
  List.length (trainingImages h) = 3%nat ->
  NoDup (assetIds h) -> In id0 (assetIds h) ->
  let r := startTraining upload start answers (home_of (removeTrainingImage id0 h)) in
  trace_of r = [] /\
  error (home_of r) = Some "Please upload at least 3 images or videos for training" /\
  trainingInProgress (home_of r) = trainingInProgress h.
Proof.
  intros L D I r. subst r.
  rewrite removeTrainingImage_run. unfold home_of, trace_of. cbn [fst snd].
  pose proof (filter_removes_one id0 (trainingImages h) D I) as R.
  rewrite startTraining_local_reject
    by (cbn [trainingImages with_trainingImages]; lia).
  cbn. repeat split.
Qed.

Lemma X5_remove_blocks_training_witness :
  List.length (trainingImages Sample.threeAssets) = 3%nat /\
  trace_of
    (startTraining Sample.accepted Sample.accepted [Sample.phase "completed"]
       (home_of (removeTrainingImage "c" Sample.threeAssets)))
  = [].
Proof.
  assert (D : NoDup (assetIds Sample.threeAssets)).
  { unfold assetIds. simpl. repeat constructor; simpl; intuition discriminate. }
  assert (I : In "c" (assetIds Sample.threeAssets)) by (simpl; auto).
  destruct (X5_remove_blocks_training "c" Sample.accepted Sample.accepted
              [Sample.phase "completed"] Sample.threeAssets eq_refl D I) as (T & _).
  split; [reflexivity | exact T].
Defined.



Lemma differsInProgressOnly_refl (h : Home) : differsInProgressOnly h h.
Proof. unfold differsInProgressOnly. destruct h; reflexivity. Qed.

Lemma differsInProgressOnly_trans (h1 h2 h3 : Home) :
  differsInProgressOnly h1 h2 -> differsInProgressOnly h2 h3 ->
  differsInProgressOnly h1 h3.
Proof.
  unfold differsInProgressOnly. intros E1 E2. rewrite E2 at 1. rewrite E1.
  reflexivity.
Qed.

Lemma trainingSwitch_progressing_keeps model (st : string) (c : bool) (h : Home) :
  terminalStatus st = false ->
  exists h',
    trainingSwitch model st c h = (Ret c, h', []) /\ differsInProgressOnly h h'.
Proof.
  unfold terminalStatus. intros T.
  apply orb_false_iff in T. destruct T as [Tc Tf].
  unfold trainingSwitch.
  destruct (Js.seq st "preprocessing");
    [eexists; split; [reflexivity | reflexivity] |].
  destruct (Js.seq st "feature_extraction");
    [eexists; split; [reflexivity | reflexivity] |].
  destruct (Js.seq st "training");
    [eexists; split; [reflexivity | reflexivity] |].
  destruct (Js.seq st "finetuning");
    [eexists; split; [reflexivity | reflexivity] |].
  rewrite Tc, Tf. exists h. split; [reflexivity | apply differsInProgressOnly_refl].
Qed.

Lemma trainingPollBody_progressing_keeps model r (a : Z) (h : Home) :
  progressing r = true ->
  exists h',
    trainingPollBody model r false a h
    = (Ret (false, a + 1), h', [Wait 10000; HttpGet (trainingStatusUrl model)]) /\
    differsInProgressOnly h h'.
Proof.
  destruct r as [resp | e]; simpl; [| discriminate].
  intros P. apply andb_true_iff in P. destruct P as [S T].
  apply negb_true_iff in T.
  destruct (trainingSwitch_progressing_keeps model (ts_model_status resp) false h T)
    as (h' & E & K).
  exists h'. split; [| exact K].
  unfold trainingPollBody. run. rewrite S. cbn [negb].
  unfold bind. rewrite E. reflexivity.
Qed.

(** The loop over a run of progressing answers: one round each, and a
    state that differs in the training progress only. *)
Lemma trainingPoll_prefix model pre tail :
  forall (a : Z) (h : Home),
    forallb progressing pre = true ->
    a + Z.of_nat (List.length pre) <= 30 ->
    exists h1,
      differsInProgressOnly h h1 /\
      trainingPoll model (pre ++ tail) false a h
      = prepend (pollRounds model (List.length pre))
          (trainingPoll model tail false (a + Z.of_nat (List.length pre)) h1).
Proof.
  induction pre as [| r pre IH]; intros a h P B.
  - exists h. split; [apply differsInProgressOnly_refl |].
    cbn [List.length app pollRounds repeat List.concat]. rewrite prepend_nil.
    now rewrite Z.add_0_r.
  - simpl in P. apply andb_true_iff in P. destruct P as [Pr Ppre].
    cbn [List.length] in B.
    destruct (trainingPollBody_progressing_keeps model r a h Pr) as (h0 & E0 & K0).
    destruct (IH (a + 1) h0 Ppre ltac:(lia)) as (h1 & K1 & E1).
    exists h1. split; [eapply differsInProgressOnly_trans; eassumption |].
    cbn [app]. rewrite trainingPoll_cons by lia. unfold bind at 1.
    rewrite E0. cbn [fst snd]. rewrite E1. rewrite prepend_prepend.
    replace (a + 1 + Z.of_nat (List.length pre))
      with (a + Z.of_nat (List.length (r :: pre))) by (cbn [List.length]; lia).
    reflexivity.
Qed.

Lemma length_pollRounds model (n : nat) :
  List.length (pollRounds model n) = (2 * n)%nat.
Proof.
  unfold pollRounds. induction n as [| n IH]; [reflexivity |].
  simpl in *. rewrite IH. lia.
Qed.

Lemma trainingPoll_completed model resp rest (a : Z) (h : Home) :
  a < 30 -> ts_success resp = true -> ts_model_status resp = "completed" ->
  trainingPoll model (Resolved resp :: rest) false a h
  = (Ret true, with_modelId (Some model) (with_trainingProgress 100 h),
     [Wait 10000; HttpGet (trainingStatusUrl model)]).
Proof.
  intros Ha S C. rewrite trainingPoll_cons by exact Ha.
  destruct resp as [s0 st0 e0]. simpl in S, C. subst s0 st0.
  unfold bind at 1.
  change (trainingPollBody model
            (Resolved (mkTrainingStatusResponse true "completed" e0)) false a h)
    with (Ret (true, a + 1),
          with_modelId (Some model) (with_trainingProgress 100 h),
          [Wait 10000; HttpGet (trainingStatusUrl model)]).
  cbn [fst snd]. rewrite trainingPoll_done by reflexivity. reflexivity.
Qed.

Lemma trainingPoll_failed model resp rest (a : Z) (h : Home) :
  a < 30 -> ts_success resp = true -> ts_model_status resp = "failed" ->
  trainingPoll model (Resolved resp :: rest) false a h
  = (Throw (ErrorObj "Training failed. Please try again."), h,
     [Wait 10000; HttpGet (trainingStatusUrl model)]).
Proof.
  intros Ha S C. rewrite trainingPoll_cons by exact Ha.
  destruct resp as [s0 st0 e0]. simpl in S, C. subst s0 st0.
  reflexivity.
Qed.

(** X7: a training that completes.  After fewer than thirty answers with
    a non-terminal phase, the answer "completed" ends the loop: the model
    id returned by the upload becomes the trained model, the progress is
    100, the in-progress flag and the error are cleared, and no query is
    sent after the one that read "completed". *)
Theorem X7_training_completes
    up st pre resp rest (h : Home) :
  (3 <= List.length (trainingImages h))%nat ->
  tm_success up = true -> tm_success st = true ->
  forallb progressing pre = true ->
  (List.length pre < 30)%nat ->
  ts_success resp = true -> ts_model_status resp = "completed" ->
  let r := startTraining (Resolved up) (Resolved st)
             (pre ++ Resolved resp :: rest) h in
  outcome_of r = Ret tt /\
  modelId (home_of r) = Some (tm_model_id up) /\
  trainingProgress (home_of r) = 100 /\
  trainingInProgress (home_of r) = false /\
  error (home_of r) = None /\
  queries (trace_of r) = S (List.length pre).
Proof.
  intros L Hup Hst P N S C r. subst r.
  rewrite startTraining_after_launch by assumption.
  destruct (trainingPoll_prefix (tm_model_id up) pre (Resolved resp :: rest) 0
              (pollingState h) P ltac:(lia)) as (h1 & K & E).
  rewrite E. rewrite trainingPoll_completed by (assumption || lia).
  unfold differsInProgressOnly in K. rewrite K.
  unfold prepend, trainingEnd, outcome_of, home_of, trace_of. cbn [fst snd].
  split; [reflexivity |]. split; [reflexivity |]. split; [reflexivity |].
  split; [reflexivity |]. split; [reflexivity |].
  unfold queries.
  rewrite !filter_app, !length_app.
  fold (queries (pollRounds (tm_model_id up) (List.length pre))).
  rewrite queries_pollRounds. cbn. lia.
Qed.

Lemma X7_training_completes_witness :
  (3 <= List.length (trainingImages Sample.threeAssets))%nat /\
  (List.length [Sample.phase "preprocessing"; Sample.phase "training"] < 30)%nat /\
  modelId
    (home_of (startTraining Sample.accepted Sample.accepted
                ([Sample.phase "preprocessing"; Sample.phase "training"]
                   ++ Sample.phase "completed" :: [Sample.phase "failed"])
                Sample.threeAssets))
  = Some "model-1".
Proof.
  assert (L : (3 <= List.length (trainingImages Sample.threeAssets))%nat)
    by (simpl; lia).
  assert (N : (List.length [Sample.phase "preprocessing"; Sample.phase "training"]
               < 30)%nat) by (simpl; lia).
  destruct (X7_training_completes
              (mkTrainingModelResponse true "model-1" None)
              (mkTrainingModelResponse true "model-1" None)
              [Sample.phase "preprocessing"; Sample.phase "training"]
              (mkTrainingStatusResponse true "completed" None)
              [Sample.phase "failed"] Sample.threeAssets
              L eq_refl eq_refl eq_refl N eq_refl eq_refl) as (_ & M & _).
  split; [exact L |]. split; [exact N | exact M].
Defined.

(** X8: a training that fails.  After fewer than thirty answers with a
    non-terminal phase, the answer "failed" ends the loop at once: the
    controller reports "Training failed. Please try again.", leaves the
    in-progress state, keeps the trained-model reference it had, and
    sends no further query. *)
Theorem X8_training_fails
    up st pre resp rest (h : Home) :
  (3 <= List.length (trainingImages h))%nat ->
  tm_success up = true -> tm_success st = true ->
  forallb progressing pre = true ->
  (List.length pre < 30)%nat ->
  ts_success resp = true -> ts_model_status resp = "failed" ->
  let r := startTraining (Resolved up) (Resolved st)
             (pre ++ Resolved resp :: rest) h in
  outcome_of r = Ret tt /\
  error (home_of r) = Some "Training failed. Please try again." /\
  trainingInProgress (home_of r) = false /\
  modelId (home_of r) = modelId h /\
  queries (trace_of r) = S (List.length pre).
Proof.
  intros L Hup Hst P N S C r. subst r.
  rewrite startTraining_after_launch by assumption.
  destruct (trainingPoll_prefix (tm_model_id up) pre (Resolved resp :: rest) 0
              (pollingState h) P ltac:(lia)) as (h1 & K & E).
  rewrite E. rewrite trainingPoll_failed by (assumption || lia).
  unfold differsInProgressOnly in K. rewrite K.
  unfold prepend, trainingEnd, outcome_of, home_of, trace_of. cbn [fst snd].
  split; [reflexivity |]. split; [reflexivity |]. split; [reflexivity |].
  split; [reflexivity |].
  unfold queries.
  rewrite !filter_app, !length_app.
  fold (queries (pollRounds (tm_model_id up) (List.length pre))).
  rewrite queries_pollRounds. cbn. lia.
Qed.

Lemma X8_training_fails_witness :
  (3 <= List.length (trainingImages Sample.threeAssets))%nat /\
  (List.length [Sample.phase "preprocessing"] < 30)%nat /\
  error
    (home_of (startTraining Sample.accepted Sample.accepted
                ([Sample.phase "preprocessing"]
                   ++ Sample.phase "failed" :: [Sample.phase "completed"])
                Sample.threeAssets))
  = Some "Training failed. Please try again.".
Proof.
  assert (L : (3 <= List.length (trainingImages Sample.threeAssets))%nat)
    by (simpl; lia).
  assert (N : (List.length [Sample.phase "preprocessing"] < 30)%nat) by (simpl; lia).
  destruct (X8_training_fails
              (mkTrainingModelResponse true "model-1" None)
              (mkTrainingModelResponse true "model-1" None)
              [Sample.phase "preprocessing"]
              (mkTrainingStatusResponse true "failed" None)
              [Sample.phase "completed"] Sample.threeAssets
              L eq_refl eq_refl eq_refl N eq_refl eq_refl) as (_ & M & _).
  split; [exact L |]. split; [exact N | exact M].
Defined.


(* ===================================================================== *)
(** * Further properties: voices                                          *)
(* ===================================================================== *)

Lemma voiceOptions_concat (voices : list Voice) :
  List.concat (map snd (voiceOptions voices))
  = filter (fun voice => Js.seq (category voice) "professional") voices
    ++ filter (fun voice => Js.seq (category voice) "casual") voices
    ++ filter otherCategory voices
    ++ filter (fun voice => Js.seq (category voice) "custom") voices.
Proof. unfold voiceOptions. simpl. now rewrite app_nil_r. Qed.

Lemma voiceOptions_permutation (voices : list Voice) :
  Permutation (List.concat (map snd (voiceOptions voices))) voices.
Proof.
  rewrite voiceOptions_concat.
  induction voices as [| v vs IH]; [constructor |].
  destruct v as [i n c g]. cbn [filter]. unfold otherCategory at 1, Js.seq.
  cbn [category existsb].
  destruct (String.eqb_spec c "professional") as [-> | N1].
  - cbn. apply perm_skip. exact IH.
  - destruct (String.eqb_spec c "casual") as [-> | N2].
    + cbn. apply Permutation_sym, Permutation_cons_app, Permutation_sym. exact IH.
    + destruct (String.eqb_spec c "custom") as [-> | N3].
      * cbn. rewrite !app_assoc.
        apply Permutation_sym, Permutation_cons_app, Permutation_sym.
        rewrite <- !app_assoc. exact IH.
      * assert (E1 : String.eqb "professional" c = false)
          by (apply String.eqb_neq; congruence).
        assert (E2 : String.eqb "casual" c = false)
          by (apply String.eqb_neq; congruence).
        assert (E3 : String.eqb "custom" c = false)
          by (apply String.eqb_neq; congruence).
        rewrite E1, E2, E3. cbn. rewrite (app_assoc _ _ (_ :: _)).
        apply Permutation_sym, Permutation_cons_app, Permutation_sym.
        rewrite <- app_assoc. exact IH.
Qed.

Lemma listed_voice_is_option (voices : list Voice) (v : Voice) :
  In v voices -> In (voice_id v) (optionValues voices).
Proof.
  intros I. unfold optionValues. apply in_map.
  eapply Permutation_in; [apply Permutation_sym, voiceOptions_permutation | exact I].
Qed.

(** X9: the four groups of the voice dropdown partition the available
    voices: the options, read top to bottom, are a rearrangement of the
    list of voices, so every voice is offered, and offered once; when the
    voice ids are distinct, so are the option values (and keys). *)
Theorem X9_voice_options_partition (voices : list Voice) :
  Permutation (List.concat (map snd (voiceOptions voices))) voices /\
  (NoDup (map voice_id voices) -> NoDup (optionValues voices)).
Proof.
  split; [apply voiceOptions_permutation |].
  intros D. unfold optionValues.
  eapply Permutation_NoDup; [| exact D].
  apply Permutation_map, Permutation_sym, voiceOptions_permutation.
Qed.

Lemma X9_voice_options_partition_witness :
  optionValues [Sample2.voiceCustom; Sample2.voiceNarr; Sample2.voicePro;
                Sample2.voiceCasual; Sample2.voiceProF]
  = ["v-pro"; "v-prof"; "v-cas"; "v-nar"; "v-cus"] /\
  NoDup (optionValues [Sample2.voiceCustom; Sample2.voiceNarr; Sample2.voicePro;
                       Sample2.voiceCasual; Sample2.voiceProF]).
Proof.
  split; [reflexivity |].
  apply (X9_voice_options_partition
           [Sample2.voiceCustom; Sample2.voiceNarr; Sample2.voicePro;
            Sample2.voiceCasual; Sample2.voiceProF]).
  simpl. repeat constructor; simpl; intuition discriminate.
Defined.

(** The state after a successful answer of the voices endpoint. *)
Lemma fetchVoices_ok resp vs (h : Home) :
  vs_success resp = true -> vs_voices resp = Some vs ->
  fetchVoices (Resolved resp) h
  = (Ret tt,
     match find isDefaultVoice vs with
     | Some defaultVoice =>
         with_advancedVideoVoiceId (Some (voice_id defaultVoice))
           (with_availableVoices vs h)
     | None =>
         match vs with
         | v0 :: _ =>
             with_advancedVideoVoiceId (Some (voice_id v0))
               (with_availableVoices vs h)
         | [] => with_availableVoices vs h
         end
     end,
     [HttpGet (api ++ "/voices/available")%string]).
Proof.
  intros S V. unfold fetchVoices, try_catch. run. rewrite V, S. unfold when. run.
  destruct (find isDefaultVoice vs) as [d |]; [run; reflexivity |].
  destruct vs as [| v0 rest]; run; reflexivity.
Qed.

(** X10: after a successful fetch of a non-empty voice list, the list is
    the available voices and the default voice of the advanced video form
    is one of them, so its id is the value of an option of the dropdown:
    the first professional male voice when there is one, the first voice
    of the list otherwise. *)
Theorem X10_default_voice_is_listed resp vs (h : Home) :
  vs_success resp = true -> vs_voices resp = Some vs -> vs <> [] ->
  let h' := home_of (fetchVoices (Resolved resp) h) in
  availableVoices h' = vs /\
  exists v,
    In v vs /\
    advancedVideoVoiceId h' = Some (voice_id v) /\
    In (voice_id v) (optionValues (availableVoices h')) /\
    ((exists w, In w vs /\ isDefaultVoice w = true) ->
       isDefaultVoice v = true /\ find isDefaultVoice vs = Some v) /\
    ((forall w, In w vs -> isDefaultVoice w = false) -> hd_error vs = Some v).
Proof.
  intros S V N h'. subst h'. rewrite (fetchVoices_ok resp vs h S V).
  unfold home_of. cbn [fst snd].
  destruct (find isDefaultVoice vs) as [d |] eqn:F.
  - apply find_some in F. destruct F as [Id Dd].
    split; [reflexivity |]. exists d.
    split; [exact Id |]. split; [reflexivity |].
    split; [apply listed_voice_is_option; exact Id |].
    split; [intros _; split; [exact Dd | reflexivity] |].
    intros A. rewrite (A d Id) in Dd. discriminate.
  - destruct vs as [| v0 rest]; [congruence |].
    split; [reflexivity |]. exists v0.
    split; [left; reflexivity |]. split; [reflexivity |].
    split; [apply listed_voice_is_option; left; reflexivity |].
    split; [| intros _; reflexivity].
    intros (w & Iw & Dw). rewrite (find_none _ _ F w Iw) in Dw. discriminate.
Qed.

Lemma X10_default_voice_is_listed_witness :
  advancedVideoVoiceId
    (home_of (fetchVoices
                (Resolved (mkVoicesResponse true
                             (Some [Sample2.voiceCasual; Sample2.voiceProF;
                                    Sample2.voicePro])))
                initialHome))
  = Some "v-pro" /\
  exists v,
    In v [Sample2.voiceCasual; Sample2.voiceProF; Sample2.voicePro] /\
    advancedVideoVoiceId
      (home_of (fetchVoices
                  (Resolved (mkVoicesResponse true
                               (Some [Sample2.voiceCasual; Sample2.voiceProF;
                                      Sample2.voicePro])))
                  initialHome))
    = Some (voice_id v).
Proof.
  split; [reflexivity |].
  destruct (X10_default_voice_is_listed
              (mkVoicesResponse true
                 (Some [Sample2.voiceCasual; Sample2.voiceProF; Sample2.voicePro]))
              [Sample2.voiceCasual; Sample2.voiceProF; Sample2.voicePro]
              initialHome eq_refl eq_refl ltac:(discriminate))
    as (_ & v & I & E & _).
  exists v. split; [exact I | exact E].
Defined.

(** X11: a fetch of the voices that fails (the request is rejected, the
    answer has [success: false], or it has no list) changes nothing in
    the component and does not throw; a successful answer with an empty
    list empties the available voices and keeps the default voice id that
    was chosen before. *)
Theorem X11_fetch_voices_failure (h : Home) :
  (forall e,
     fetchVoices (Rejected e) h
     = (Ret tt, h,
        [HttpGet (api ++ "/voices/available")%string;
         ConsoleError "Error fetching voices:"])) /\
  (forall resp,
     vs_success resp = false \/ vs_voices resp = None ->
     fetchVoices (Resolved resp) h
     = (Ret tt, h, [HttpGet (api ++ "/voices/available")%string])) /\
  (forall resp,
     vs_success resp = true -> vs_voices resp = Some [] ->
     let h' := home_of (fetchVoices (Resolved resp) h) in
     availableVoices h' = [] /\ advancedVideoVoiceId h' = advancedVideoVoiceId h).
Proof.
  split; [| split].
  - intros e. reflexivity.
  - intros resp F. unfold fetchVoices, try_catch. run.
    destruct (vs_voices resp) as [vs |]; [| run; reflexivity].
    destruct F as [F | F]; [| discriminate].
    rewrite F. unfold when. run. reflexivity.
  - intros resp S V h'. subst h'. rewrite (fetchVoices_ok resp [] h S V).
    split; reflexivity.
Qed.

Lemma X11_fetch_voices_failure_witness :
  fetchVoices (Resolved (mkVoicesResponse false (Some [Sample2.voicePro])))
    Sample.watching
  = (Ret tt, Sample.watching, [HttpGet (api ++ "/voices/available")%string]).
Proof.
  destruct (X11_fetch_voices_failure Sample.watching) as (_ & H & _).
  apply H. left. reflexivity.
Defined.

(* ===================================================================== *)
(** * Further properties: the status label                                *)
(* ===================================================================== *)

(** X12: the status label of the progress panel has the length of the
    status; it is the status itself when the status has no underscore,
    and otherwise it has one underscore less and one space more: only the
    first underscore is replaced, so a status with two underscores is
    shown with one of them left. *)
Theorem X12_status_label (status : string) :
  String.length (statusLabel status) = String.length status /\
  (occurrences "_" status = 0%nat -> statusLabel status = status) /\
  occurrences "_" (statusLabel status) = Nat.pred (occurrences "_" status) /\
  (occurrences "_" status <> 0%nat ->
     occurrences " " (statusLabel status) = S (occurrences " " status)).
Proof.
  unfold statusLabel.
  induction status as [| a rest (IHl & IHs & IHu & IHp)].
  - repeat split; intros; try reflexivity. contradiction.
  - cbn [replaceFirst occurrences].
    destruct (Ascii.eqb_spec a "_") as [-> | N].
    + cbn. repeat split; intros; try reflexivity. discriminate.
    + cbn [String.length occurrences].
      destruct (Ascii.eqb_spec a "_") as [E | _]; [contradiction |].
      split; [now rewrite IHl |]. split; [intros Z; now rewrite IHs |].
      split; [exact IHu |].
      intros P. destruct (Ascii.eqb a " "); rewrite IHp; auto.
Qed.

Lemma X12_status_label_witness :
  occurrences "_" "generating_ad_script" <> 0%nat /\
  statusLabel "generating_ad_script" = "generating ad_script" /\
  statusLabel "adding_voiceover" = "adding voiceover" /\
  occurrences " " (statusLabel "generating_ad_script") = 1%nat.
Proof.
  destruct (X12_status_label "generating_ad_script") as (_ & _ & _ & H).
  assert (N : occurrences "_" "generating_ad_script" <> 0%nat) by discriminate.
  split; [exact N |]. split; [reflexivity |]. split; [reflexivity |].
  rewrite (H N). reflexivity.
Defined.


(* ===================================================================== *)
(** * Further properties: the self-rescheduling pollers                   *)
(* ===================================================================== *)

Lemma differsInJobStatusOnly_refl (h : Home) : differsInJobStatusOnly h h.
Proof. unfold differsInJobStatusOnly. destruct h; reflexivity. Qed.

Lemma differsInJobStatusOnly_set (h h1 : Home) d :
  differsInJobStatusOnly h h1 ->
  differsInJobStatusOnly h (with_jobStatus (Some d) h1).
Proof. unfold differsInJobStatusOnly. intros E. rewrite E. reflexivity. Qed.

Lemma queries_statusRounds job (n : nat) : queries (statusRounds job n) = n.
Proof.
  unfold queries, statusRounds.
  induction n as [| n IH]; [reflexivity |].
  simpl. now rewrite IH.
Qed.

Lemma queries_app (t1 t2 : list event) :
  queries (t1 ++ t2) = (queries t1 + queries t2)%nat.
Proof. unfold queries. now rewrite filter_app, length_app. Qed.

Section StartCheckingStatus.

Variable job : string.

Lemma checkStatus_running d (h : Home) :
  terminalStatus (status d) = false ->
  checkStatus job (Resolved d) h
  = (Ret true, with_jobStatus (Some d) h, [HttpGet (statusUrl job)]).
Proof.
  intros T. unfold checkStatus, try_catch. run. rewrite T. run. reflexivity.
Qed.

Lemma checkStatus_terminal_state d (h : Home) :
  terminalStatus (status d) = true ->
  exists t,
    checkStatus job (Resolved d) h
    = (Ret false, with_loading false (with_jobStatus (Some d) h),
       HttpGet (statusUrl job) :: t) /\
    queries t = 0%nat.
Proof.
  intros T. unfold checkStatus, try_catch. run. rewrite T. run.
  unfold when.
  destruct (result d) as [res |]; run;
    [ destruct (Js.seq (status d) "completed"); run;
      [ destruct (is_true (used_custom_model res));
        destruct (is_true (used_custom_voice res)); run |] |];
    eexists; split; reflexivity.
Qed.

Lemma startCheckingStatus_prefix pre tail :
  forall h : Home,
    forallb running pre = true ->
    exists h1,
      differsInJobStatusOnly h h1 /\
      startCheckingStatus job (pre ++ tail) h
      = prepend (statusRounds job (List.length pre))
          (startCheckingStatus job tail h1).
Proof.
  induction pre as [| r pre IH]; intros h P.
  - exists h. split; [apply differsInJobStatusOnly_refl |].
    cbn [List.length app statusRounds repeat List.concat]. now rewrite prepend_nil.
  - simpl in P. apply andb_true_iff in P. destruct P as [Pr Ppre].
    destruct r as [d | e]; [| discriminate]. simpl in Pr.
    apply negb_true_iff in Pr.
    destruct (IH (with_jobStatus (Some d) h) Ppre) as (h1 & K & E).
    exists h1. split.
    + unfold differsInJobStatusOnly in *. rewrite K. reflexivity.
    + cbn [app startCheckingStatus]. unfold bind at 1.
      rewrite (checkStatus_running d h Pr). cbn [prepend app].
      run. rewrite E. rewrite !prepend_prepend. reflexivity.
Qed.

(** Whatever the answer, one invocation of [checkStatus] ends normally
    and leaves the error message and the job id alone. *)
Lemma checkStatus_keeps r (h : Home) :
  exists b h' t,
    checkStatus job r h = (Ret b, h', t) /\
    error h' = error h /\ jobId h' = jobId h.
Proof.
  destruct r as [d | e].
  - destruct (terminalStatus (status d)) eqn:T.
    + destruct (checkStatus_terminal_state d h T) as (t & E & _).
      do 3 eexists. split; [exact E | split; reflexivity].
    + do 3 eexists. split; [apply checkStatus_running; exact T | split; reflexivity].
  - do 3 eexists. split; [reflexivity | split; reflexivity].
Qed.

Lemma startCheckingStatus_keeps answers :
  forall h : Home,
    (forall e, outcome_of (startCheckingStatus job answers h) <> Throw e) /\
    error (home_of (startCheckingStatus job answers h)) = error h /\
    jobId (home_of (startCheckingStatus job answers h)) = jobId h.
Proof.
  induction answers as [| r rest IH]; intros h.
  - repeat split. intros e. discriminate.
  - destruct (checkStatus_keeps r h) as (b & h1 & t & E & Ke & Kj).
    cbn [startCheckingStatus]. unfold bind at 1 3 5. rewrite E.
    destruct b.
    + run. destruct (IH h1) as (N & Ie & Ij).
      destruct (startCheckingStatus job rest h1) as [[o h2] t2].
      unfold outcome_of, home_of in *. cbn in *.
      repeat split; [intros e; apply N | congruence | congruence].
    + cbn. repeat split; [intros e; discriminate | exact Ke | exact Kj].
Qed.

End StartCheckingStatus.

(** The run of [startCheckingStatus] up to the first terminal read. *)
Lemma startCheckingStatus_until_terminal_run
    (job : string) pre d rest (h : Home) :
  forallb running pre = true ->
  terminalStatus (status d) = true ->
  exists t,
    startCheckingStatus job (pre ++ Resolved d :: rest) h
    = (Ret tt, with_loading false (with_jobStatus (Some d) h), t) /\
    queries t = S (List.length pre).
Proof.
  intros P T.
  destruct (startCheckingStatus_prefix job pre (Resolved d :: rest) h P)
    as (h1 & K & E).
  destruct (checkStatus_terminal_state job d h1 T) as (t & C & Q).
  exists (statusRounds job (List.length pre) ++ (HttpGet (statusUrl job) :: t) ++ []).
  split.
  - rewrite E. cbn [startCheckingStatus]. unfold bind at 1. rewrite C.
    unfold differsInJobStatusOnly in K. rewrite K. reflexivity.
  - rewrite !queries_app, queries_statusRounds.
    change (queries (HttpGet (statusUrl job) :: t)) with (S (queries t)).
    rewrite Q. cbn. lia.
Qed.

(** X13: [startCheckingStatus] polls until the first terminal status.
    After any number of reads of a running job, a read of "completed" or
    "failed" is stored as the job status, clears [loading] and ends the
    polling: one query per read, none after the terminal one.  The error
    message of the component is what it was before, also when the job
    failed. *)
Theorem X13_startCheckingStatus_until_terminal
    (job : string) pre d rest (h : Home) :
  forallb running pre = true ->
  terminalStatus (status d) = true ->
  let r := startCheckingStatus job (pre ++ Resolved d :: rest) h in
  outcome_of r = Ret tt /\
  queries (trace_of r) = S (List.length pre) /\
  jobStatus (home_of r) = Some d /\
  loading (home_of r) = false /\
  error (home_of r) = error h /\
  jobId (home_of r) = jobId h.
Proof.
  intros P T r. subst r.
  destruct (startCheckingStatus_until_terminal_run job pre d rest h P T)
    as (t & E & Q).
  rewrite E. unfold outcome_of, home_of, trace_of. cbn [fst snd].
  repeat split. exact Q.
Qed.

Lemma X13_startCheckingStatus_until_terminal_witness :
  let r := startCheckingStatus "job-1"
             ([Sample.job "generating_script" 10; Sample.job "generating_video" 40]
                ++ Resolved Sample2.failedJob :: [Sample.job "completed" 100])
             Sample.launched in
  queries (trace_of r) = 3%nat /\
  jobStatus (home_of r) = Some Sample2.failedJob /\
  error (home_of r) = None.
Proof.
  destruct (X13_startCheckingStatus_until_terminal "job-1"
              [Sample.job "generating_script" 10; Sample.job "generating_video" 40]
              Sample2.failedJob [Sample.job "completed" 100] Sample.launched
              eq_refl eq_refl) as (_ & Q & J & _ & E & _).
  split; [exact Q |]. split; [exact J | exact E].
Defined.

(** X14: whatever the status endpoint answers, and however long the
    polling goes on, [startCheckingStatus] never throws and never changes
    the error message or the job id of the component. *)
Theorem X14_startCheckingStatus_never_reports
    (job : string) (answers : list (NetResult JobStatus)) (h : Home) :
  (forall e, outcome_of (startCheckingStatus job answers h) <> Throw e) /\
  error (home_of (startCheckingStatus job answers h)) = error h /\
  jobId (home_of (startCheckingStatus job answers h)) = jobId h.
Proof. apply startCheckingStatus_keeps. Qed.

Lemma last_cons_default {A} (a d : A) (l : list A) :
  last (a :: l) d = last l a.
Proof.
  revert a d. induction l as [| b l IH]; intros a d; [reflexivity |].
  change (last (a :: b :: l) d) with (last (b :: l) d).
  rewrite IH. symmetry. apply IH.
Qed.

Section AdvancedPoll.

Variable job : string.

Lemma advancedCheckStatus_running d (h : Home) :
  terminalStatus (status d) = false ->
  advancedCheckStatus job (Resolved d) h
  = (Ret true, with_jobStatus (Some d) h, [HttpGet (statusUrl job)]).
Proof.
  intros T. unfold advancedCheckStatus, try_catch. run. rewrite T. run. reflexivity.
Qed.

Lemma advancedCheckStatus_terminal d (h : Home) :
  terminalStatus (status d) = true ->
  advancedCheckStatus job (Resolved d) h
  = (Ret false,
     (if Js.seq (status d) "failed"
      then with_error (Some (Js.or_else (job_error d) "Failed to generate video"))
             (with_loading false (with_jobStatus (Some d) h))
      else with_loading false (with_jobStatus (Some d) h)),
     [HttpGet (statusUrl job)]).
Proof.
  intros T. unfold advancedCheckStatus, try_catch. run. rewrite T. run.
  unfold when. destruct (Js.seq (status d) "failed"); run; reflexivity.
Qed.

Lemma advancedCheckStatus_rejected e (h : Home) :
  advancedCheckStatus job (Rejected e) h
  = (Ret false,
     with_error (Some "Failed to check video generation status")
       (with_loading false h),
     [HttpGet (statusUrl job); ConsoleError "Error checking job status:"]).
Proof. reflexivity. Qed.

Lemma advancedPoll_prefix pre tail :
  forall h : Home,
    forallb running pre = true ->
    exists h1,
      differsInJobStatusOnly h h1 /\
      advancedPoll job (pre ++ tail) h
      = prepend (statusRounds job (List.length pre)) (advancedPoll job tail h1).
Proof.
  induction pre as [| r pre IH]; intros h P.
  - exists h. split; [apply differsInJobStatusOnly_refl |].
    cbn [List.length app statusRounds repeat List.concat]. now rewrite prepend_nil.
  - simpl in P. apply andb_true_iff in P. destruct P as [Pr Ppre].
    destruct r as [d | e]; [| discriminate]. simpl in Pr.
    apply negb_true_iff in Pr.
    destruct (IH (with_jobStatus (Some d) h) Ppre) as (h1 & K & E).
    exists h1. split.
    + unfold differsInJobStatusOnly in *. rewrite K. reflexivity.
    + cbn [app advancedPoll]. unfold bind at 1.
      rewrite (advancedCheckStatus_running d h Pr). cbn [prepend app].
      run. rewrite E. rewrite !prepend_prepend. reflexivity.
Qed.

(** The run of the advanced-video poll up to the first terminal read. *)
Lemma advancedPoll_until_terminal_run pre d rest (h : Home) :
  forallb running pre = true ->
  terminalStatus (status d) = true ->
  exists t,
    advancedPoll job (pre ++ Resolved d :: rest) h
    = (Ret tt,
       (if Js.seq (status d) "failed"
        then with_error (Some (Js.or_else (job_error d) "Failed to generate video"))
               (with_loading false (with_jobStatus (Some d) h))
        else with_loading false (with_jobStatus (Some d) h)),
       t) /\
    queries t = S (List.length pre).
Proof.
  intros P T.
  destruct (advancedPoll_prefix pre (Resolved d :: rest) h P) as (h1 & K & E).
  exists (statusRounds job (List.length pre) ++ [HttpGet (statusUrl job)] ++ []).
  split.
  - rewrite E. cbn [advancedPoll]. unfold bind at 1.
    rewrite (advancedCheckStatus_terminal d h1 T).
    unfold differsInJobStatusOnly in K. rewrite K.
    destruct (Js.seq (status d) "failed"); reflexivity.
  - rewrite !queries_app, queries_statusRounds. cbn. lia.
Qed.

(** The run of the advanced-video poll up to the first rejected query. *)
Lemma advancedPoll_until_rejection_run pre e rest (h : Home) :
  forallb running pre = true ->
  exists h1 t,
    differsInJobStatusOnly h h1 /\
    advancedPoll job (pre ++ Rejected e :: rest) h
    = (Ret tt,
       with_error (Some "Failed to check video generation status")
         (with_loading false h1),
       t) /\
    queries t = S (List.length pre).
Proof.
  intros P.
  destruct (advancedPoll_prefix pre (Rejected e :: rest) h P) as (h1 & K & E).
  exists h1,
    (statusRounds job (List.length pre)
       ++ [HttpGet (statusUrl job); ConsoleError "Error checking job status:"] ++ []).
  split; [exact K |]. split.
  - rewrite E. reflexivity.
  - rewrite !queries_app, queries_statusRounds. cbn. lia.
Qed.

End AdvancedPoll.

(** X15: the poll of the advanced video handler runs to the first
    terminal status: after any number of reads of a running job, a read of
    "completed" or "failed" is stored as the job status, clears [loading]
    and ends the polling, with one query per read.  A failed job sets the
    error to the error text of the job, or to "Failed to generate video"
    when the job has none; a completed job leaves the error as it was. *)
Theorem X15_advanced_poll_until_terminal
    (job : string) pre d rest (h : Home) :
  forallb running pre = true ->
  terminalStatus (status d) = true ->
  let r := advancedPoll job (pre ++ Resolved d :: rest) h in
  outcome_of r = Ret tt /\
  queries (trace_of r) = S (List.length pre) /\
  jobStatus (home_of r) = Some d /\
  loading (home_of r) = false /\
  jobId (home_of r) = jobId h /\
  error (home_of r)
  = (if Js.seq (status d) "failed"
     then Some (Js.or_else (job_error d) "Failed to generate video")
     else error h).
Proof.
  intros P T r. subst r.
  destruct (advancedPoll_until_terminal_run job pre d rest h P T) as (t & E & Q).
  rewrite E. unfold outcome_of, home_of, trace_of. cbn [fst snd].
  destruct (Js.seq (status d) "failed"); repeat split; exact Q.
Qed.

Lemma X15_advanced_poll_until_terminal_witness :
  let r := advancedPoll "job-1"
             ([Sample.job "generating_video" 40]
                ++ Resolved Sample2.failedJob :: [Sample.job "completed" 100])
             Sample.watching in
  queries (trace_of r) = 2%nat /\
  error (home_of r) = Some "render node crashed" /\
  loading (home_of r) = false.
Proof.
  destruct (X15_advanced_poll_until_terminal "job-1"
              [Sample.job "generating_video" 40] Sample2.failedJob
              [Sample.job "completed" 100] Sample.watching eq_refl eq_refl)
    as (_ & Q & _ & L & _ & E).
  split; [exact Q |]. split; [exact E | exact L].
Defined.

(** X16: a rejected status query ends the poll of the advanced video
    handler: after any number of reads of a running job, the first
    rejected query clears [loading], sets the error to "Failed to check
    video generation status" and is the last query sent; the job status
    stays the last one read and the job id is unchanged. *)
Theorem X16_advanced_poll_rejection
    (job : string) pre e rest (h : Home) :
  forallb running pre = true ->
  let r := advancedPoll job (pre ++ Rejected e :: rest) h in
  outcome_of r = Ret tt /\
  queries (trace_of r) = S (List.length pre) /\
  loading (home_of r) = false /\
  error (home_of r) = Some "Failed to check video generation status" /\
  jobId (home_of r) = jobId h /\
  jobStatus (home_of r)
  = last (map Some (flat_map (fun a => match a with
                                       | Resolved d => [d]
                                       | Rejected _ => []
                                       end) pre))
      (jobStatus h).
Proof.
  intros P r. subst r.
  revert h. induction pre as [| a pre IH]; intros h.
  - cbn. repeat split.
  - simpl in P. apply andb_true_iff in P. destruct P as [Pa Ppre].
    destruct a as [d | e0]; [| discriminate]. simpl in Pa.
    apply negb_true_iff in Pa.
    assert (S1 : advancedPoll job ((Resolved d :: pre) ++ Rejected e :: rest) h
                 = prepend [HttpGet (statusUrl job); Wait 2000]
                     (advancedPoll job (pre ++ Rejected e :: rest)
                        (with_jobStatus (Some d) h))).
    { cbn [app advancedPoll]. unfold bind at 1.
      rewrite (advancedCheckStatus_running job d h Pa). cbn [prepend app].
      run. rewrite ?prepend_prepend. reflexivity. }
    rewrite S1.
    destruct (IH Ppre (with_jobStatus (Some d) h)) as (O & Q & L & E & J & St).
    destruct (advancedPoll job (pre ++ Rejected e :: rest)
                (with_jobStatus (Some d) h)) as [[o h'] t].
    unfold outcome_of, home_of, trace_of, prepend in *. cbn [fst snd] in *.
    split; [exact O |]. split; [rewrite queries_app, Q; reflexivity |].
    split; [exact L |]. split; [exact E |]. split; [exact J |].
    rewrite St. cbn [flat_map map app]. now rewrite last_cons_default.
Qed.

Lemma X16_advanced_poll_rejection_witness :
  let r := advancedPoll "job-1"
             ([Sample.job "generating_script" 10; Sample.job "generating_video" 40]
                ++ Sample.networkError :: [Sample.job "completed" 100])
             Sample.watching in
  queries (trace_of r) = 3%nat /\
  error (home_of r) = Some "Failed to check video generation status" /\
  option_map progress (jobStatus (home_of r)) = Some 40.
Proof.
  destruct (X16_advanced_poll_rejection "job-1"
              [Sample.job "generating_script" 10; Sample.job "generating_video" 40]
              (ErrorObj "Network Error") [Sample.job "completed" 100]
              Sample.watching eq_refl) as (_ & Q & _ & E & _ & St).
  split; [exact Q |]. split; [exact E |].
  change (@Sample.networkError JobStatus) with (@Rejected JobStatus (ErrorObj "Network Error")).
  rewrite St. reflexivity.
Defined.

(* ===================================================================== *)
(** * Further properties: the polling effect                              *)
(* ===================================================================== *)

Lemma jobPollEffect_some (h : Home) (job : string) :
  jobPollEffect h = Some job -> jobId h = Some job /\ Js.truthy job = true.
Proof.
  unfold jobPollEffect. destruct (jobId h) as [j |]; [| discriminate].
  destruct (Js.truthy j) eqn:T; simpl; [| discriminate].
  destruct (status_differs (statusOf h) "completed" &&
            status_differs (statusOf h) "failed"); [| discriminate].
  intros E. inversion E; subst. split; [reflexivity | exact T].
Qed.

Lemma jobPollEffect_running (h : Home) (job : string) d :
  jobId h = Some job -> Js.truthy job = true ->
  terminalStatus (status d) = false ->
  jobPollEffect (with_jobStatus (Some d) h) = Some job.
Proof.
  intros J T R. unfold jobPollEffect, statusOf. simpl. rewrite J, T.
  unfold terminalStatus in R. apply orb_false_iff in R. destruct R as [Rc Rf].
  rewrite Rc, Rf. reflexivity.
Qed.

Lemma jobPollRun_running_step job d rest (h : Home) :
  jobId h = Some job -> Js.truthy job = true ->
  terminalStatus (status d) = false ->
  jobPollRun (Resolved d :: rest) (Some job) h
  = (with_jobStatus (Some d) h, [HttpGet (statusUrl job)])
      :: jobPollRun rest (Some job) (with_jobStatus (Some d) h).
Proof.
  intros J T R. cbn [jobPollRun]. rewrite (jobPollTick_running job h d R).
  rewrite (jobPollEffect_running h job d J T R).
  destruct (sameDeps h (with_jobStatus (Some d) h)); reflexivity.
Qed.

Lemma jobPollTick_terminal_state job d (h : Home) :
  terminalStatus (status d) = true ->
  jobPollTick job (Resolved d) h
  = (Ret true,
     (if Js.seq (status d) "failed"
      then with_error (Some (failureMessage d))
             (with_loading false (with_jobStatus (Some d) h))
      else with_loading false (with_jobStatus (Some d) h)),
     [HttpGet (statusUrl job)]).
Proof.
  intros T. unfold jobPollTick, try_catch, failureMessage. run. rewrite T. run.
  unfold when. destruct (Js.seq (status d) "failed"); run; reflexivity.
Qed.

Lemma jobPollRun_terminal_step job d rest (h : Home) :
  terminalStatus (status d) = true ->
  jobPollRun (Resolved d :: rest) (Some job) h
  = [((if Js.seq (status d) "failed"
       then with_error (Some (failureMessage d))
              (with_loading false (with_jobStatus (Some d) h))
       else with_loading false (with_jobStatus (Some d) h)),
      [HttpGet (statusUrl job)])].
Proof.
  intros T. cbn [jobPollRun]. rewrite (jobPollTick_terminal_state job d h T).
  set (h' := if Js.seq (status d) "failed"
             then with_error (Some (failureMessage d))
                    (with_loading false (with_jobStatus (Some d) h))
             else with_loading false (with_jobStatus (Some d) h)).
  assert (J : jobStatus h' = Some d)
    by (subst h'; destruct (Js.seq (status d) "failed"); reflexivity).
  rewrite (terminal_effect_none h' d J T).
  destruct (sameDeps h h'); rewrite jobPollRun_no_interval; reflexivity.
Qed.

Lemma jobPollRun_prefix job pre tail :
  forall h : Home,
    jobId h = Some job -> Js.truthy job = true ->
    forallb running pre = true ->
    exists ticks h1,
      jobPollRun (pre ++ tail) (Some job) h
      = ticks ++ jobPollRun tail (Some job) h1 /\
      List.length ticks = List.length pre /\
      Forall (fun x => snd x = [HttpGet (statusUrl job)]) ticks /\
      differsInJobStatusOnly h h1.
Proof.
  induction pre as [| r pre IH]; intros h J T P.
  - exists [], h. repeat split; [constructor | apply differsInJobStatusOnly_refl].
  - simpl in P. apply andb_true_iff in P. destruct P as [Pr Ppre].
    destruct r as [d | e]; [| discriminate]. simpl in Pr.
    apply negb_true_iff in Pr.
    destruct (IH (with_jobStatus (Some d) h) J T Ppre) as (ticks & h1 & E & L & F & K).
    exists ((with_jobStatus (Some d) h, [HttpGet (statusUrl job)]) :: ticks), h1.
    split; [| split; [| split]].
    + cbn [app]. rewrite (jobPollRun_running_step job d _ h J T Pr).
      rewrite E. reflexivity.
    + cbn [List.length]. now rewrite L.
    + constructor; [reflexivity | exact F].
    + unfold differsInJobStatusOnly in *. rewrite K. reflexivity.
Qed.

(** X17: the polling effect runs to the first terminal status.  When
    the effect is armed for a job, then after any number of ticks that
    read a running job, the tick that reads "completed" or "failed" is the
    last one: each tick sent one query, the terminal status is stored,
    [loading] is cleared, and a failed job sets the error to the error
    text of the job, or to "Video generation failed" when it has none. *)
Theorem X17_job_poll_until_terminal
    (job : string) pre d rest (h : Home) :
  jobPollEffect h = Some job ->
  forallb running pre = true ->
  terminalStatus (status d) = true ->
  exists ticks h',
    jobPoll (pre ++ Resolved d :: rest) h
    = ticks ++ [(h', [HttpGet (statusUrl job)])] /\
    List.length ticks = List.length pre /\
    Forall (fun x => snd x = [HttpGet (statusUrl job)]) ticks /\
    jobStatus h' = Some d /\
    loading h' = false /\
    jobId h' = jobId h /\
    error h' = (if Js.seq (status d) "failed"
                then Some (failureMessage d) else error h).
Proof.
  intros A P T. unfold jobPoll. rewrite A.
  destruct (jobPollEffect_some h job A) as [J Tr].
  destruct (jobPollRun_prefix job pre (Resolved d :: rest) h J Tr P)
    as (ticks & h1 & E & L & F & K).
  rewrite (jobPollRun_terminal_step job d rest h1 T) in E.
  unfold differsInJobStatusOnly in K.
  exists ticks. eexists. split; [exact E |].
  split; [exact L |]. split; [exact F |].
  rewrite K. destruct (Js.seq (status d) "failed"); repeat split.
Qed.

Lemma X17_job_poll_until_terminal_witness :
  jobPollEffect Sample.watching = Some "job-1" /\
  exists ticks h',
    jobPoll ([Sample.job "generating_script" 10; Sample.job "generating_video" 40]
               ++ Resolved Sample2.failedJob :: [Sample.job "completed" 100])
      Sample.watching
    = ticks ++ [(h', [HttpGet (statusUrl "job-1")])] /\
    List.length ticks = 2%nat /\
    error h' = Some "render node crashed".
Proof.
  split; [reflexivity |].
  destruct (X17_job_poll_until_terminal "job-1"
              [Sample.job "generating_script" 10; Sample.job "generating_video" 40]
              Sample2.failedJob [Sample.job "completed" 100] Sample.watching
              eq_refl eq_refl eq_refl)
    as (ticks & h' & E & L & _ & _ & _ & _ & Er).
  exists ticks, h'. split; [exact E |]. split; [exact L | exact Er].
Defined.



(* ===================================================================== *)
(** * Further properties: the launchers                                   *)
(* ===================================================================== *)

Lemma truthy_empty (s : string) : Js.truthy s = false <-> s = "".
Proof.
  unfold Js.truthy. destruct (String.eqb_spec s ""); simpl; split; congruence.
Qed.

Lemma try_catch_trace_post {A} (u : string) (launch : NetResult A)
    (k : A -> M unit) (handler : Thrown -> M unit) (h : Home) :
  exists t,
    trace_of (try_catch
                (setLoading true ;; setError None ;;
                 response <- axios_post u launch ;; k response)
                handler h)
    = HttpPost u :: t.
Proof.
  unfold try_catch. run.
  destruct launch as [d | e].
  - rewrite bind_axios_post_resolved.
    destruct (k d (with_error None (with_loading true h))) as [[o h1] t1].
    cbn [prepend app].
    destruct o; [eexists; reflexivity | | eexists; reflexivity].
    destruct (handler e h1) as [[o2 h2] t2]. eexists; reflexivity.
  - rewrite bind_axios_post_rejected.
    destruct (handler e (with_error None (with_loading true h))) as [[o2 h2] t2].
    eexists; reflexivity.
Qed.

Lemma launchForEffect_posts (u log failure : string)
    (launch : NetResult VideoResponse) (h : Home) :
  exists t, trace_of (launchForEffect u log failure launch h) = HttpPost u :: t.
Proof.
  unfold launchForEffect. run. unfold try_catch.
  destruct launch as [d | e]; run.
  - destruct (vr_job_id d) as [j |]; [destruct (Js.truthy j) |]; run;
      eexists; reflexivity.
  - eexists; reflexivity.
Qed.

(** X19: each launcher sends its request exactly when its required
    field is filled in.  With an empty prompt (for the ad: an empty brand
    name or an empty ad text) the handler has no effect on the outside
    world; otherwise its first effect is the POST of the launch
    request. *)
Theorem X19_launchers_send_iff_filled (h : Home) :
  (forall textPrompt launch answers,
     (trace_of (handleTextToVideoGeneration textPrompt launch answers h) = []
      <-> textPrompt = "") /\
     (textPrompt <> "" ->
      exists t,
        trace_of (handleTextToVideoGeneration textPrompt launch answers h)
        = HttpPost (api ++ "/generate-video-from-text")%string :: t)) /\
  (forall prompt launch answers,
     (trace_of (handleAdvancedVideoGeneration prompt launch answers h) = []
      <-> prompt = "") /\
     (prompt <> "" ->
      exists t,
        trace_of (handleAdvancedVideoGeneration prompt launch answers h)
        = HttpPost (api ++ "/generate-advanced-video")%string :: t)) /\
  (forall prompt launch,
     trace_of (handleGenerateAdvancedVideo prompt launch h) = []
     <-> prompt = "") /\
  (forall brandName launch,
     trace_of (handleGenerateAd brandName launch h) = []
     <-> (brandName = "" \/ adText h = "")).
Proof.
  split; [| split; [| split]].
  - intros textPrompt launch answers.
    assert (Filled : textPrompt <> "" ->
              exists t,
                trace_of (handleTextToVideoGeneration textPrompt launch answers h)
                = HttpPost (api ++ "/generate-video-from-text")%string :: t).
    { intros N. unfold handleTextToVideoGeneration.
      rewrite (proj2 (truthy_nonempty textPrompt) N). cbn [negb].
      apply try_catch_trace_post. }
    split; [| exact Filled]. split.
    + intros E. destruct (String.eqb_spec textPrompt "") as [Z | N]; [exact Z |].
      destruct (Filled N) as [t T]. rewrite T in E. discriminate.
    + intros ->. reflexivity.
  - intros prompt launch answers.
    assert (Filled : prompt <> "" ->
              exists t,
                trace_of (handleAdvancedVideoGeneration prompt launch answers h)
                = HttpPost (api ++ "/generate-advanced-video")%string :: t).
    { intros N. unfold handleAdvancedVideoGeneration.
      rewrite (proj2 (truthy_nonempty prompt) N). cbn [negb].
      apply try_catch_trace_post. }
    split; [| exact Filled]. split.
    + intros E. destruct (String.eqb_spec prompt "") as [Z | N]; [exact Z |].
      destruct (Filled N) as [t T]. rewrite T in E. discriminate.
    + intros ->. reflexivity.
  - intros prompt launch. split.
    + intros E. destruct (String.eqb_spec prompt "") as [Z | N]; [exact Z |].
      unfold handleGenerateAdvancedVideo in E.
      rewrite (proj2 (truthy_nonempty prompt) N) in E. cbn [negb] in E.
      destruct (launchForEffect_posts (api ++ "/generate-advanced-video")%string
                  "Error generating advanced video:"
                  "Failed to generate advanced video" launch h) as [t T].
      rewrite T in E. discriminate.
    + intros ->. reflexivity.
  - intros brandName launch. unfold handleGenerateAd. rewrite bind_get.
    destruct (Js.truthy brandName) eqn:B; destruct (Js.truthy (adText h)) eqn:A;
      cbn [negb orb].
    + apply truthy_nonempty in B. apply truthy_nonempty in A.
      destruct (launchForEffect_posts (api ++ "/generate-ad")%string
                  "Error generating ad:" "Failed to generate ad video" launch h)
        as [t T].
      rewrite T. split; [discriminate | intros [Z | Z]; contradiction].
    + apply truthy_empty in A. split; [intros _; right; exact A | reflexivity].
    + apply truthy_empty in B. split; [intros _; left; exact B | reflexivity].
    + apply truthy_empty in B. split; [intros _; left; exact B | reflexivity].
Qed.

Lemma X19_launchers_send_iff_filled_witness :
  trace_of (handleGenerateAd "Acme" (Resolved (mkVideoResponse (Some "job-7")))
              Sample.adForm)
  <> [] /\
  exists t,
    trace_of (handleTextToVideoGeneration "a sunrise over the sea"
                Sample.networkError [] initialHome)
    = HttpPost (api ++ "/generate-video-from-text")%string :: t.
Proof.
  destruct (X19_launchers_send_iff_filled Sample.adForm) as (_ & _ & _ & Had).
  destruct (X19_launchers_send_iff_filled initialHome) as (Htext & _).
  split.
  - intros E. apply (Had "Acme" (Resolved (mkVideoResponse (Some "job-7")))) in E.
    destruct E as [E | E]; discriminate.
  - apply (Htext "a sunrise over the sea" Sample.networkError []). discriminate.
Defined.

(** The job id of a launch answer that the advanced video handler
    accepts. *)
Lemma advanced_launch_refused resp prompt answers (h : Home) :
  Js.truthy prompt = true ->
  av_success resp = false \/ av_job_id resp = None \/ av_job_id resp = Some "" ->
  handleAdvancedVideoGeneration prompt (Resolved resp) answers h
  = (Ret tt,
     with_loading false
       (with_error (Some "Failed to generate advanced video")
          (with_error None (with_loading true h))),
     [HttpPost (api ++ "/generate-advanced-video")%string]).
Proof.
  intros N F. unfold handleAdvancedVideoGeneration. rewrite N. cbn [negb].
  unfold try_catch. run.
  destruct (av_job_id resp) as [j |] eqn:J.
  - destruct F as [F | [F | F]]; [| discriminate |].
    + rewrite F. cbn [andb]. run. reflexivity.
    + inversion F; subst. rewrite andb_false_r. run. reflexivity.
  - run. reflexivity.
Qed.

(** X20: a launch that fails never starts a poll.  When the launch
    request of the text-to-video or of the advanced video handler is
    rejected, or answered without success (for the advanced video also:
    without a job id), no status query is sent, [loading] is cleared, the
    job id is unchanged and an error is shown: the error text of the
    answer when the text-to-video answer has one, a fixed message
    otherwise. *)
Theorem X20_failed_launch_starts_no_poll (prompt : string)
    (answers : list (NetResult JobStatus)) (h : Home) :
  prompt <> "" ->
  (forall resp,
     tv_success resp = false ->
     handleTextToVideoGeneration prompt (Resolved resp) answers h
     = (Ret tt,
        with_loading false
          (with_error (Some (Js.or_else (tv_error resp)
                               "Failed to initiate video generation"))
             (with_error None (with_loading true h))),
        [HttpPost (api ++ "/generate-video-from-text")%string])) /\
  (forall e,
     handleTextToVideoGeneration prompt (Rejected e) answers h
     = (Ret tt,
        with_loading false
          (with_error (Some "Error generating video. Please try again.")
             (with_error None (with_loading true h))),
        [HttpPost (api ++ "/generate-video-from-text")%string;
         ConsoleError "Error generating video from text:"])) /\
  (forall resp,
     av_success resp = false \/ av_job_id resp = None \/ av_job_id resp = Some "" ->
     handleAdvancedVideoGeneration prompt (Resolved resp) answers h
     = (Ret tt,
        with_loading false
          (with_error (Some "Failed to generate advanced video")
             (with_error None (with_loading true h))),
        [HttpPost (api ++ "/generate-advanced-video")%string])) /\
  (forall e,
     handleAdvancedVideoGeneration prompt (Rejected e) answers h
     = (Ret tt,
        with_loading false
          (with_error (Some "Error generating advanced video. Please try again.")
             (with_error None (with_loading true h))),
        [HttpPost (api ++ "/generate-advanced-video")%string;
         ConsoleError "Error generating advanced video:"])).
Proof.
  intros N. apply truthy_nonempty in N.
  split; [| split; [| split]].
  - intros resp F. unfold handleTextToVideoGeneration. rewrite N. cbn [negb].
    unfold try_catch. run. rewrite F. run. reflexivity.
  - intros e. unfold handleTextToVideoGeneration. rewrite N. reflexivity.
  - intros resp F. now apply advanced_launch_refused.
  - intros e. unfold handleAdvancedVideoGeneration. rewrite N. reflexivity.
Qed.

Lemma X20_failed_launch_starts_no_poll_witness :
  "a sunrise over the sea" <> "" /\
  let r := handleTextToVideoGeneration "a sunrise over the sea"
             (Resolved (mkTextToVideoResponse false "" (Some "prompt rejected")))
             [Sample.job "completed" 100] Sample.watching in
  error (home_of r) = Some "prompt rejected" /\
  queries (trace_of r) = 0%nat /\
  jobId (home_of r) = Some "job-1".
Proof.
  assert (N : "a sunrise over the sea" <> "") by discriminate.
  split; [exact N |].
  destruct (X20_failed_launch_starts_no_poll "a sunrise over the sea"
              [Sample.job "completed" 100] Sample.watching N) as (H & _).
  cbv zeta.
  rewrite (H (mkTextToVideoResponse false "" (Some "prompt rejected")) eq_refl).
  repeat split.
Defined.

(** X21: text to video, from launch to result.  With a prompt and an
    accepted launch, the handler stores the job id and polls: after any
    number of reads of a running job, the first terminal status is
    stored, [loading] is cleared and polling ends, one status query per
    read.  The error cleared at launch stays cleared, also when the job
    failed. *)
Theorem X21_text_to_video_end_to_end
    (prompt : string) resp pre d rest (h : Home) :
  prompt <> "" ->
  tv_success resp = true ->
  forallb running pre = true ->
  terminalStatus (status d) = true ->
  let r := handleTextToVideoGeneration prompt (Resolved resp)
             (pre ++ Resolved d :: rest) h in
  outcome_of r = Ret tt /\
  jobId (home_of r) = Some (tv_job_id resp) /\
  jobStatus (home_of r) = Some d /\
  loading (home_of r) = false /\
  error (home_of r) = None /\
  queries (trace_of r) = S (List.length pre).
Proof.
  intros N S P T r. subst r. apply truthy_nonempty in N.
  destruct (startCheckingStatus_until_terminal_run (tv_job_id resp) pre d rest
              (with_jobId (Some (tv_job_id resp))
                 (with_error None (with_loading true h))) P T)
    as (t & E & Q).
  assert (R : handleTextToVideoGeneration prompt (Resolved resp)
                (pre ++ Resolved d :: rest) h
              = (Ret tt,
                 with_loading false
                   (with_jobStatus (Some d)
                      (with_jobId (Some (tv_job_id resp))
                         (with_error None (with_loading true h)))),
                 HttpPost (api ++ "/generate-video-from-text")%string :: t)).
  { unfold handleTextToVideoGeneration. rewrite N. cbn [negb].
    unfold try_catch. run. rewrite S. run. rewrite E. reflexivity. }
  rewrite R. unfold outcome_of, home_of, trace_of. cbn [fst snd].
  repeat split. exact Q.
Qed.

Lemma X21_text_to_video_end_to_end_witness :
  let r := handleTextToVideoGeneration "a sunrise over the sea"
             (Resolved (mkTextToVideoResponse true "job-9" None))
             ([Sample.job "generating_video" 40]
                ++ Resolved Sample2.failedJob :: [Sample.job "completed" 100])
             initialHome in
  jobId (home_of r) = Some "job-9" /\
  jobStatus (home_of r) = Some Sample2.failedJob /\
  error (home_of r) = None /\
  queries (trace_of r) = 2%nat.
Proof.
  destruct (X21_text_to_video_end_to_end "a sunrise over the sea"
              (mkTextToVideoResponse true "job-9" None)
              [Sample.job "generating_video" 40] Sample2.failedJob
              [Sample.job "completed" 100] initialHome
              ltac:(discriminate) eq_refl eq_refl eq_refl)
    as (_ & J & St & _ & E & Q).
  repeat split; assumption.
Defined.

(** X22: advanced video, from launch to result.  With a prompt and an
    accepted launch that names a job, the handler stores the job id and
    the initial status and polls: after any number of reads of a running
    job, the first terminal status is stored, [loading] is cleared and
    polling ends, one status query per read.  A failed job shows its
    error text (or "Failed to generate video"); a completed job shows no
    error. *)
Theorem X22_advanced_video_end_to_end
    (prompt job : string) resp pre d rest (h : Home) :
  prompt <> "" ->
  av_success resp = true -> av_job_id resp = Some job -> job <> "" ->
  forallb running pre = true ->
  terminalStatus (status d) = true ->
  let r := handleAdvancedVideoGeneration prompt (Resolved resp)
             (pre ++ Resolved d :: rest) h in
  outcome_of r = Ret tt /\
  jobId (home_of r) = Some job /\
  jobStatus (home_of r) = Some d /\
  loading (home_of r) = false /\
  error (home_of r)
  = (if Js.seq (status d) "failed"
     then Some (Js.or_else (job_error d) "Failed to generate video")
     else None) /\
  queries (trace_of r) = S (List.length pre).
Proof.
  intros N S J Nj P T r. subst r.
  apply truthy_nonempty in N. apply truthy_nonempty in Nj.
  destruct (advancedPoll_until_terminal_run job pre d rest
              (with_jobStatus (Some initializing)
                 (with_jobId (Some job) (with_error None (with_loading true h))))
              P T) as (t & E & Q).
  assert (R : handleAdvancedVideoGeneration prompt (Resolved resp)
                (pre ++ Resolved d :: rest) h
              = prepend [HttpPost (api ++ "/generate-advanced-video")%string]
                  (advancedPoll job (pre ++ Resolved d :: rest)
                     (with_jobStatus (Some initializing)
                        (with_jobId (Some job)
                           (with_error None (with_loading true h)))))).
  { unfold handleAdvancedVideoGeneration. rewrite N. cbn [negb].
    unfold try_catch. run. rewrite J, S, Nj. cbn [andb]. run. rewrite E.
    reflexivity. }
  rewrite R, E.
  unfold prepend, outcome_of, home_of, trace_of. cbn [fst snd].
  destruct (Js.seq (status d) "failed"); repeat split; exact Q.
Qed.

Lemma X22_advanced_video_end_to_end_witness :
  let r := handleAdvancedVideoGeneration "a drone shot of a city"
             (Resolved (mkAdvancedVideoResponse true (Some "job-4")))
             ([Sample.job "generating_video" 40]
                ++ Resolved Sample2.completedJob :: [Sample.job "failed" 0])
             Sample.adForm in
  jobId (home_of r) = Some "job-4" /\
  jobStatus (home_of r) = Some Sample2.completedJob /\
  error (home_of r) = None /\
  queries (trace_of r) = 2%nat.
Proof.
  destruct (X22_advanced_video_end_to_end "a drone shot of a city" "job-4"
              (mkAdvancedVideoResponse true (Some "job-4"))
              [Sample.job "generating_video" 40] Sample2.completedJob
              [Sample.job "failed" 0] Sample.adForm
              ltac:(discriminate) eq_refl eq_refl ltac:(discriminate)
              eq_refl eq_refl)
    as (_ & J & St & _ & E & Q).
  repeat split; assumption.
Defined.

Lemma launchForEffect_accepted (u log failure : string) resp (job : string)
    (h : Home) :
  vr_job_id resp = Some job -> job <> "" ->
  launchForEffect u log failure (Resolved resp) h
  = (Ret tt, with_jobId (Some job) (with_error None (with_loading true h)),
     [HttpPost u]).
Proof.
  intros J N. apply truthy_nonempty in N.
  unfold launchForEffect. run. unfold try_catch. run. rewrite J, N. run.
  reflexivity.
Qed.

Lemma launchForEffect_failed (u log failure : string)
    (launch : NetResult VideoResponse) (h : Home) :
  match launch with
  | Resolved resp => vr_job_id resp = None \/ vr_job_id resp = Some ""
  | Rejected _ => True
  end ->
  launchForEffect u log failure launch h
  = (Ret tt,
     with_error (Some failure)
       (with_loading false (with_error None (with_loading true h))),
     [HttpPost u; ConsoleError log]).
Proof.
  intros F. unfold launchForEffect. run. unfold try_catch.
  destruct launch as [resp | e]; run; [| reflexivity].
  destruct F as [F | F]; rewrite F; run; reflexivity.
Qed.

(** The effect is armed for a stored job id exactly when the stored
    status is not terminal. *)
Lemma jobPollEffect_with_jobId (job : string) (h : Home) :
  job <> "" ->
  jobPollEffect (with_jobId (Some job) h)
  = (if storedTerminal h then None else Some job).
Proof.
  intros N. apply truthy_nonempty in N.
  unfold jobPollEffect, storedTerminal, statusOf, terminalStatus. simpl.
  rewrite N. destruct (jobStatus h) as [d |]; simpl; [| reflexivity].
  destruct (Js.seq (status d) "completed"); simpl; [reflexivity |].
  destruct (Js.seq (status d) "failed"); reflexivity.
Qed.

(** X23: the ad and the advanced-video launchers of the buttons leave
    the polling to the effect, and do not reset the job status.  After an
    accepted launch the new job id is stored and [loading] stays set; the
    effect is armed for the new job exactly when the stored status is not
    "completed" or "failed".  With the terminal status of an earlier job
    still stored, the effect never sends a query for the new job; after
    "Create Another" (which clears job id and status) it is always
    armed. *)
Theorem X23_launch_arms_effect_unless_stale
    (brandName prompt job : string) resp (h : Home) :
  brandName <> "" -> adText h <> "" -> prompt <> "" ->
  vr_job_id resp = Some job -> job <> "" ->
  let ad := home_of (handleGenerateAd brandName (Resolved resp) h) in
  let adv := home_of (handleGenerateAdvancedVideo prompt (Resolved resp) h) in
  jobId ad = Some job /\ loading ad = true /\ jobStatus ad = jobStatus h /\
  adv = ad /\
  jobPollEffect ad = (if storedTerminal h then None else Some job) /\
  (storedTerminal h = true -> forall answers, jobPoll answers ad = []) /\
  jobPollEffect
    (home_of (handleGenerateAd brandName (Resolved resp) (home_of (createAnother h))))
  = Some job.
Proof.
  intros B A P J N ad adv.
  assert (Ead : handleGenerateAd brandName (Resolved resp) h
                = (Ret tt, with_jobId (Some job) (with_error None (with_loading true h)),
                   [HttpPost (api ++ "/generate-ad")%string])).
  { unfold handleGenerateAd. rewrite bind_get.
    rewrite (proj2 (truthy_nonempty _) B), (proj2 (truthy_nonempty _) A).
    cbn [negb orb]. now apply launchForEffect_accepted. }
  assert (Eadv : handleGenerateAdvancedVideo prompt (Resolved resp) h
                 = (Ret tt, with_jobId (Some job) (with_error None (with_loading true h)),
                    [HttpPost (api ++ "/generate-advanced-video")%string])).
  { unfold handleGenerateAdvancedVideo.
    rewrite (proj2 (truthy_nonempty _) P). cbn [negb].
    now apply launchForEffect_accepted. }
  assert (Eff : jobPollEffect ad = (if storedTerminal h then None else Some job)).
  { subst ad. rewrite Ead. unfold home_of. cbn [fst snd].
    now rewrite jobPollEffect_with_jobId. }
  split; [subst ad; rewrite Ead; reflexivity |].
  split; [subst ad; rewrite Ead; reflexivity |].
  split; [subst ad; rewrite Ead; reflexivity |].
  split; [subst ad adv; rewrite Ead, Eadv; reflexivity |].
  split; [exact Eff |]. split.
  - intros St answers. unfold jobPoll. rewrite Eff, St.
    apply jobPollRun_no_interval.
  - assert (Ere : handleGenerateAd brandName (Resolved resp) (home_of (createAnother h))
                  = (Ret tt,
                     with_jobId (Some job)
                       (with_error None (with_loading true (home_of (createAnother h)))),
                     [HttpPost (api ++ "/generate-ad")%string])).
    { unfold handleGenerateAd. rewrite bind_get.
      rewrite (proj2 (truthy_nonempty _) B).
      change (adText (home_of (createAnother h))) with (adText h).
      rewrite (proj2 (truthy_nonempty _) A).
      cbn [negb orb]. now apply launchForEffect_accepted. }
    rewrite Ere. unfold home_of at 1. cbn [fst snd].
    now rewrite jobPollEffect_with_jobId.
Qed.

Lemma X23_launch_arms_effect_unless_stale_witness :
  let stale := with_jobStatus (Some Sample2.completedJob)
                 (with_jobId (Some "job-1") Sample.adForm) in
  let ad := home_of (handleGenerateAd "Acme"
                       (Resolved (mkVideoResponse (Some "job-2"))) stale) in
  storedTerminal stale = true /\
  jobId ad = Some "job-2" /\
  jobPoll [Sample.job "generating_video" 40; Sample.job "completed" 100] ad = [] /\
  jobPollEffect
    (home_of (handleGenerateAd "Acme" (Resolved (mkVideoResponse (Some "job-2")))
                (home_of (createAnother stale))))
  = Some "job-2".
Proof.
  cbv zeta.
  destruct (X23_launch_arms_effect_unless_stale "Acme" "a prompt" "job-2"
              (mkVideoResponse (Some "job-2"))
              (with_jobStatus (Some Sample2.completedJob)
                 (with_jobId (Some "job-1") Sample.adForm))
              ltac:(discriminate) ltac:(discriminate) ltac:(discriminate)
              eq_refl ltac:(discriminate))
    as (J & _ & _ & _ & _ & Hstale & Hre).
  split; [reflexivity |]. split; [exact J |]. split; [| exact Hre].
  apply Hstale. reflexivity.
Defined.

(** X24: a launch of the ad or of the advanced-video button that is
    rejected, or whose answer names no job (no job id, or an empty one),
    is logged and reported with the fixed message of the handler;
    [loading] is cleared and the job id is the one from before. *)
Theorem X24_launch_without_job_id
    (brandName prompt : string) (launch : NetResult VideoResponse) (h : Home) :
  brandName <> "" -> adText h <> "" -> prompt <> "" ->
  match launch with
  | Resolved resp => vr_job_id resp = None \/ vr_job_id resp = Some ""
  | Rejected _ => True
  end ->
  handleGenerateAd brandName launch h
  = (Ret tt,
     with_error (Some "Failed to generate ad video")
       (with_loading false (with_error None (with_loading true h))),
     [HttpPost (api ++ "/generate-ad")%string; ConsoleError "Error generating ad:"]) /\
  handleGenerateAdvancedVideo prompt launch h
  = (Ret tt,
     with_error (Some "Failed to generate advanced video")
       (with_loading false (with_error None (with_loading true h))),
     [HttpPost (api ++ "/generate-advanced-video")%string;
      ConsoleError "Error generating advanced video:"]).
Proof.
  intros B A P F. split.
  - unfold handleGenerateAd. rewrite bind_get.
    rewrite (proj2 (truthy_nonempty _) B), (proj2 (truthy_nonempty _) A).
    cbn [negb orb]. now apply launchForEffect_failed.
  - unfold handleGenerateAdvancedVideo.
    rewrite (proj2 (truthy_nonempty _) P). cbn [negb].
    now apply launchForEffect_failed.
Qed.

Lemma X24_launch_without_job_id_witness :
  let r := handleGenerateAd "Acme" (Resolved (mkVideoResponse None)) Sample.adForm in
  error (home_of r) = Some "Failed to generate ad video" /\
  loading (home_of r) = false /\
  jobId (home_of r) = None.
Proof.
  destruct (X24_launch_without_job_id "Acme" "a prompt"
              (Resolved (mkVideoResponse None)) Sample.adForm
              ltac:(discriminate) ltac:(discriminate) ltac:(discriminate)
              (or_introl eq_refl)) as (E & _).
  cbv zeta. rewrite E. repeat split.
Defined.

(* ===================================================================== *)
(** * Further properties: image to video                                  *)
(* ===================================================================== *)

(** The upload step: the file path, or the exception that ends it. *)
Lemma uploadPhoto_run (upload : NetResult UploadResponse) (h : Home) :
  uploadPhoto upload h
  = (match upload with
     | Rejected e => Throw e
     | Resolved r =>
         if noFace r then Throw (ErrorObj "No face detected in the image")
         else match up_filepath r with
              | Some filepath =>
                  if Js.truthy filepath then Ret filepath
                  else Throw (ErrorObj "No filepath returned from server")
              | None => Throw (ErrorObj "No filepath returned from server")
              end
     end,
     h, [HttpPost (api ++ "/upload-photo")%string]).
Proof.
  unfold uploadPhoto. destruct upload as [r | e]; run; [| reflexivity].
  unfold when. destruct (noFace r); run; [reflexivity |].
  destruct (up_filepath r) as [fp |]; [destruct (Js.truthy fp) |]; run; reflexivity.
Qed.

(** X25: an image-to-video request whose photo upload fails never
    reaches the generation service.  When the upload is rejected, when
    the server found no face ([face_detected: false]), or when the answer
    has no file path, the only request sent is the upload; the failure is
    logged and reported ("No face detected in the image", "No filepath
    returned from server", or the message of the rejected request),
    [loading] is cleared, and the job id, the job status and the stored
    file path are those from before. *)
Theorem X25_photo_upload_failure (file : File)
    (upload : NetResult UploadResponse) (launch : NetResult VideoResponse)
    (s : Studio) (message : string) :
  match upload with
  | Rejected e => message = message_or e "An error occurred"
  | Resolved r =>
      (noFace r = true /\ message = "No face detected in the image") \/
      (noFace r = false /\
       (up_filepath r = None \/ up_filepath r = Some "") /\
       message = "No filepath returned from server")
  end ->
  handleGenerateVideo (Some file) upload launch s
  = (Ret tt,
     mkStudio
       (with_loading false
          (with_error (Some message)
             (with_error None (with_loading true (view s)))))
       (uploadedFilePath s),
     [HttpPost (api ++ "/upload-photo")%string;
      ConsoleError "Error during video generation:"]).
Proof.
  intros F. destruct upload as [[fp fd] | e].
  - unfold noFace in F. cbn [up_face_detected up_filepath] in F.
    destruct F as [[Nf ->] | (Nf & [Fp | Fp] & ->)].
    + destruct fd as [[|] |]; try discriminate. reflexivity.
    + subst fp. destruct fd as [[|] |]; try discriminate; reflexivity.
    + subst fp. destruct fd as [[|] |]; try discriminate; reflexivity.
  - subst message. reflexivity.
Qed.

Lemma X25_photo_upload_failure_witness :
  let r := handleGenerateVideo (Some Sample2.photoFile)
             (Resolved (mkUploadResponse (Some "/uploads/portrait.png") (Some false)))
             (Resolved (mkVideoResponse (Some "job-3")))
             (mkStudio initialHome None) in
  error (view (snd (fst r))) = Some "No face detected in the image" /\
  queries (snd r) = 0%nat /\
  snd r = [HttpPost (api ++ "/upload-photo")%string;
           ConsoleError "Error during video generation:"] /\
  jobId (view (snd (fst r))) = None.
Proof.
  cbv zeta.
  rewrite (X25_photo_upload_failure Sample2.photoFile
             (Resolved (mkUploadResponse (Some "/uploads/portrait.png") (Some false)))
             (Resolved (mkVideoResponse (Some "job-3")))
             (mkStudio initialHome None) "No face detected in the image"
             (or_introl (conj eq_refl eq_refl))).
  repeat split.
Defined.

(** X26: an image-to-video request whose photo was accepted.  The file
    path of the upload is stored before the generation request is sent.
    When that request is accepted, the job id is stored and the job
    status is reset to "initializing" at 0 percent, so the polling effect
    is armed for the new job whatever status was stored before; when it
    is rejected, the failure is reported and [loading] cleared, the file
    path stays stored and the job id is the one from before. *)
Theorem X26_photo_accepted (file : File) r (filepath : string) (s : Studio) :
  noFace r = false -> up_filepath r = Some filepath -> filepath <> "" ->
  (forall v,
     handleGenerateVideo (Some file) (Resolved r) (Resolved v) s
     = (Ret tt,
        mkStudio
          (with_jobStatus (Some initializing)
             (with_jobId (vr_job_id v)
                (with_error None (with_loading true (view s)))))
          (Some filepath),
        [HttpPost (api ++ "/upload-photo")%string;
         HttpPost (api ++ "/generate-video")%string])) /\
  (forall v job,
     vr_job_id v = Some job -> job <> "" ->
     jobPollEffect
       (view (snd (fst (handleGenerateVideo (Some file) (Resolved r) (Resolved v) s))))
     = Some job) /\
  (forall e,
     handleGenerateVideo (Some file) (Resolved r) (Rejected e) s
     = (Ret tt,
        mkStudio
          (with_loading false
             (with_error (Some (message_or e "An error occurred"))
                (with_error None (with_loading true (view s)))))
          (Some filepath),
        [HttpPost (api ++ "/upload-photo")%string;
         HttpPost (api ++ "/generate-video")%string;
         ConsoleError "Error during video generation:"])).
Proof.
  intros Nf Fp N. apply truthy_nonempty in N.
  assert (Ok : forall v,
             handleGenerateVideo (Some file) (Resolved r) (Resolved v) s
             = (Ret tt,
                mkStudio
                  (with_jobStatus (Some initializing)
                     (with_jobId (vr_job_id v)
                        (with_error None (with_loading true (view s)))))
                  (Some filepath),
                [HttpPost (api ++ "/upload-photo")%string;
                 HttpPost (api ++ "/generate-video")%string])).
  { intros v. destruct r as [fp fd].
    unfold noFace in Nf. cbn [up_face_detected up_filepath] in Nf, Fp. subst fp.
    unfold handleGenerateVideo, sbind, stry_catch, lift, uploadPhoto, noFace.
    destruct fd as [[|] |]; try discriminate; cbn; rewrite N; reflexivity. }
  split; [exact Ok |]. split.
  - intros v job J Nj. rewrite Ok. cbn [fst snd view]. rewrite J.
    apply truthy_nonempty in Nj.
    unfold jobPollEffect, statusOf. simpl. rewrite Nj. reflexivity.
  - intros e. destruct r as [fp fd].
    unfold noFace in Nf. cbn [up_face_detected up_filepath] in Nf, Fp. subst fp.
    unfold handleGenerateVideo, sbind, stry_catch, lift, uploadPhoto, noFace.
    destruct fd as [[|] |]; try discriminate; cbn; rewrite N; reflexivity.
Qed.

Lemma X26_photo_accepted_witness :
  let stale := mkStudio (with_jobStatus (Some Sample2.completedJob)
                           (with_jobId (Some "job-1") initialHome)) None in
  let r := handleGenerateVideo (Some Sample2.photoFile)
             (Resolved (mkUploadResponse (Some "/uploads/portrait.png") (Some true)))
             (Resolved (mkVideoResponse (Some "job-3"))) stale in
  uploadedFilePath (snd (fst r)) = Some "/uploads/portrait.png" /\
  jobPollEffect (view (snd (fst r))) = Some "job-3".
Proof.
  cbv zeta.
  destruct (X26_photo_accepted Sample2.photoFile
              (mkUploadResponse (Some "/uploads/portrait.png") (Some true))
              "/uploads/portrait.png"
              (mkStudio (with_jobStatus (Some Sample2.completedJob)
                           (with_jobId (Some "job-1") initialHome)) None)
              eq_refl eq_refl ltac:(discriminate)) as (Ok & Arm & _).
  split.
  - rewrite Ok. reflexivity.
  - apply (Arm (mkVideoResponse (Some "job-3")) "job-3" eq_refl). discriminate.
Defined.

(* ===================================================================== *)
(** * Further properties: voice upload and cloning                        *)
(* ===================================================================== *)

(** X27: leaving the name prompt empty, or cancelling it, abandons the
    clone: after the upload, the confirmation and the prompt nothing more
    is sent (no clone request, no alert); [loading] and the error are
    cleared and the voice lists and the selection are as before, so the
    recording that was uploaded is not listed. *)
Theorem X27_clone_without_name (now : Z) r (nameAnswer : option string)
    (clone : NetResult CloneVoiceResponse) (voices : NetResult VoicesResponse)
    (h : Home) :
  vu_success r = true ->
  nameAnswer = None \/ nameAnswer = Some "" ->
  uploadVoiceRecording now (Resolved r) true nameAnswer clone voices h
  = (Ret tt,
     with_loading false (with_loading false (with_error None (with_loading true h))),
     [HttpPost (api ++ "/upload-voice")%string;
      Confirm "Voice uploaded successfully! Would you like to clone this voice for high-quality AI narration?";
      Prompt "Enter a name for your cloned voice:"]).
Proof.
  intros S N.
  apply (uploadVoiceRecording_clone now r nameAnswer clone voices h _ _ S).
  destruct N as [-> | ->]; reflexivity.
Qed.

Lemma X27_clone_without_name_witness :
  let r := uploadVoiceRecording 1714000000000 (Resolved Sample.recording) true None
             Sample.cloneRefused Sample.noVoices Sample.watching in
  uploadedVoices (home_of r) = [] /\
  selectedVoice (home_of r) = None /\
  loading (home_of r) = false /\
  List.length (trace_of r) = 3%nat.
Proof.
  cbv zeta.
  rewrite (X27_clone_without_name 1714000000000 Sample.recording None
             Sample.cloneRefused Sample.noVoices Sample.watching
             eq_refl (or_introl eq_refl)).
  repeat split.
Defined.

Lemma cloneVoice_succeeded (path vname : string) c resp vs (h : Home) :
  Js.truthy vname = true -> cv_success c = true ->
  vs_success resp = true -> vs_voices resp = Some vs ->
  exists h1 msg,
    fetchVoices (Resolved resp) (with_error None (with_loading true h))
    = (Ret tt, h1, [HttpGet (api ++ "/voices/available")%string]) /\
    cloneVoice path (Some vname) (Resolved c) (Resolved resp) h
    = (Ret tt, with_loading false (with_selectedVoice (Some (cv_voice_id c)) h1),
       [Prompt "Enter a name for your cloned voice:";
        HttpPost (api ++ "/clone-voice")%string;
        Alert msg;
        HttpGet (api ++ "/voices/available")%string]).
Proof.
  intros N C S V.
  pose proof (fetchVoices_ok resp vs (with_error None (with_loading true h)) S V) as F.
  do 2 eexists. split; [exact F |].
  unfold cloneVoice, try_finally, try_catch. run. rewrite N. run. rewrite C. run.
  unfold bind at 1. rewrite F. reflexivity.
Qed.

(** X28: a clone that succeeds.  After the upload, with cloning accepted
    and a name given, a successful clone request is followed by an alert
    and by a refresh of the voice list; the cloned voice becomes the
    selected voice, and when the refreshed list contains it, it is one of
    the options of the voice dropdown.  The uploaded-voices list is as
    before: the recording itself is not entered. *)
Theorem X28_clone_succeeds (now : Z) r (vname : string) c resp vs (h : Home) :
  vu_success r = true -> vname <> "" -> cv_success c = true ->
  vs_success resp = true -> vs_voices resp = Some vs ->
  let run := uploadVoiceRecording now (Resolved r) true (Some vname)
               (Resolved c) (Resolved resp) h in
  outcome_of run = Ret tt /\
  filter (fun e => match e with
                   | HttpGet _ | HttpPost _ => true
                   | _ => false
                   end) (trace_of run)
  = [HttpPost (api ++ "/upload-voice")%string;
     HttpPost (api ++ "/clone-voice")%string;
     HttpGet (api ++ "/voices/available")%string] /\
  selectedVoice (home_of run) = Some (cv_voice_id c) /\
  availableVoices (home_of run) = vs /\
  uploadedVoices (home_of run) = uploadedVoices h /\
  loading (home_of run) = false /\
  (In (cv_voice_id c) (map voice_id vs) ->
   In (cv_voice_id c) (optionValues (availableVoices (home_of run)))).
Proof.
  intros S N C Sv V run. subst run. apply truthy_nonempty in N.
  destruct (cloneVoice_succeeded (vu_filepath r) vname c resp vs h N C Sv V)
    as (h1 & msg & F & E).
  rewrite (uploadVoiceRecording_clone now r (Some vname) (Resolved c) (Resolved resp)
             h _ _ S E).
  rewrite (fetchVoices_ok resp vs _ Sv V) in F. injection F as H1.
  unfold outcome_of, home_of, trace_of. cbn [fst snd].
  assert (A : availableVoices
                (with_loading false (with_selectedVoice (Some (cv_voice_id c)) h1))
              = vs).
  { subst h1. destruct (find isDefaultVoice vs); [reflexivity |].
    destruct vs; reflexivity. }
  assert (U : uploadedVoices
                (with_loading false (with_selectedVoice (Some (cv_voice_id c)) h1))
              = uploadedVoices h).
  { subst h1. destruct (find isDefaultVoice vs); [reflexivity |].
    destruct vs; reflexivity. }
  split; [reflexivity |]. split; [reflexivity |]. split; [reflexivity |].
  split; [exact A |]. split; [exact U |]. split; [reflexivity |].
  intros I. rewrite A. apply in_map_iff in I. destruct I as (v & Ev & Iv).
  rewrite <- Ev. now apply listed_voice_is_option.
Qed.

Lemma X28_clone_succeeds_witness :
  let run := uploadVoiceRecording 1714000000000 (Resolved Sample.recording) true
               (Some "My Custom Voice")
               (Resolved (mkCloneVoiceResponse true None "v-cus" "My Custom Voice"))
               (Resolved (mkVoicesResponse true
                            (Some [Sample2.voicePro; Sample2.voiceCustom])))
               initialHome in
  selectedVoice (home_of run) = Some "v-cus" /\
  In "v-cus" (optionValues (availableVoices (home_of run))) /\
  uploadedVoices (home_of run) = [].
Proof.
  destruct (X28_clone_succeeds 1714000000000 Sample.recording "My Custom Voice"
              (mkCloneVoiceResponse true None "v-cus" "My Custom Voice")
              (mkVoicesResponse true (Some [Sample2.voicePro; Sample2.voiceCustom]))
              [Sample2.voicePro; Sample2.voiceCustom] initialHome
              eq_refl ltac:(discriminate) eq_refl eq_refl eq_refl)
    as (_ & _ & Sel & _ & U & _ & Opt).
  split; [exact Sel |]. split; [| exact U].
  apply Opt. simpl. auto.
Defined.

(** X29: voice uploads that do not succeed.  Dropping no file sends
    nothing.  An upload answered with [success: false] is ignored
    silently on both paths: nothing is asked, shown or changed.  A
    rejected upload changes nothing either; it is logged, and for a
    recording the user is alerted as well. *)
Theorem X29_voice_upload_failure (now : Z) (h : Home) :
  (forall upload, handleVoiceUpload [] now upload h = (Ret tt, h, [])) /\
  (forall r file files wantClone nameAnswer clone voices,
     vu_success r = false ->
     handleVoiceUpload (file :: files) now (Resolved r) h
     = (Ret tt, h, [HttpPost (api ++ "/upload-voice")%string]) /\
     uploadVoiceRecording now (Resolved r) wantClone nameAnswer clone voices h
     = (Ret tt, h, [HttpPost (api ++ "/upload-voice")%string])) /\
  (forall e file files wantClone nameAnswer clone voices,
     handleVoiceUpload (file :: files) now (Rejected e) h
     = (Ret tt, h,
        [HttpPost (api ++ "/upload-voice")%string;
         ConsoleError "Error uploading voice file:"]) /\
     uploadVoiceRecording now (Rejected e) wantClone nameAnswer clone voices h
     = (Ret tt, h,
        [HttpPost (api ++ "/upload-voice")%string;
         ConsoleError "Error uploading voice recording:";
         Alert "Failed to upload voice recording. Please try again."])).
Proof.
  split; [| split].
  - intros upload. reflexivity.
  - intros r file files wantClone nameAnswer clone voices S. split.
    + unfold handleVoiceUpload, try_catch. run. rewrite S. reflexivity.
    + unfold uploadVoiceRecording, try_catch. run. rewrite S. reflexivity.
  - intros e file files wantClone nameAnswer clone voices. split; reflexivity.
Qed.

Lemma X29_voice_upload_failure_witness :
  uploadVoiceRecording 1714000000000
    (Resolved (mkVoiceUploadResponse false "" "" None None)) true
    (Some "My Custom Voice") Sample.cloneRefused Sample.noVoices Sample.watching
  = (Ret tt, Sample.watching, [HttpPost (api ++ "/upload-voice")%string]).
Proof.
  destruct (X29_voice_upload_failure 1714000000000 Sample.watching) as (_ & H & _).
  destruct (H (mkVoiceUploadResponse false "" "" None None) "a.wav" [] true
              (Some "My Custom Voice") Sample.cloneRefused Sample.noVoices eq_refl)
    as [_ E].
  exact E.
Defined.

(* ===================================================================== *)
(** * Further properties: the ceiling of the ad poll                      *)
(* ===================================================================== *)










